(** * dax launcher: a shallow embedding of [src/dax/launcher.py]

    The launcher drives three phases (build, update, launch) against two
    external collaborators: the XNAT metadata store and the compute
    cluster.  The embedding keeps the control flow of the Python methods:
    calls to collaborators become events of a trace, exceptions become a
    result, local variables that may be unbound are options. *)

From Stdlib Require Import ZArith String Ascii.
From stdpp Require Import base tactics option list strings pretty gmap sorting.

Local Open Scope string_scope.
Local Open Scope Z_scope.

(** ** Python values used by the launcher *)

(** Exceptions that can cross the methods of [launcher.py].  Python raises
    [UnboundLocalError], a subclass of [NameError], when a local variable is
    read before any assignment.  [CollabError] is any exception raised by a
    collaborator (task, processor, store), with its class and message. *)
Inductive exn : Type :=
| UnboundLocalError (var : string)
| ValueError (msg : string)
| ClusterLaunchException
| ClusterCountJobsException
| DaxLauncherError (msg : string)
| DaxXnatError (msg : string)
| KeyError (key : string)
| TypeError (msg : string)
| CollabError (cls msg : string).

(** [isinstance(e, NameError)] *)
Definition is_NameError (e : exn) : bool :=
  match e with UnboundLocalError _ => true | _ => false end.

Definition exn_class (e : exn) : string :=
  match e with
  | UnboundLocalError _ => "UnboundLocalError"
  | ValueError _ => "ValueError"
  | ClusterLaunchException => "ClusterLaunchException"
  | ClusterCountJobsException => "ClusterCountJobsException"
  | DaxLauncherError _ => "DaxLauncherError"
  | DaxXnatError _ => "DaxXnatError"
  | KeyError _ => "KeyError"
  | TypeError _ => "TypeError"
  | CollabError c _ => c
  end.

Definition exn_message (e : exn) : string :=
  match e with
  | UnboundLocalError v | KeyError v => v
  | ValueError m | DaxLauncherError m | DaxXnatError m | TypeError m => m
  | ClusterLaunchException | ClusterCountJobsException => EmptyString
  | CollabError _ m => m
  end.

(** What a call into a collaborator does: it returns or it raises. *)
Inductive outcome (A : Type) : Type :=
| Returns (a : A)
| Throws (e : exn).
Arguments Returns {A} a.
Arguments Throws {A} e.

(** ** Statuses *)

(** Modelled from the spec: the ProcStatus constants of [task.py], which is
    not among the sources.  The launcher only compares statuses for equality
    with the named constants and passes others through, so the enumeration
    is open: [OtherProc] carries any value that is none of the named
    constants. *)
Inductive ProcStatus : Type :=
| NEED_INPUTS | NEED_TO_RUN | JOB_RUNNING | COMPLETE | JOB_FAILED | NO_DATA
| OtherProc (s : string).

(** Modelled from the spec: the QcStatus constants of [task.py].  [OtherQc]
    carries any other value, the free text a processor returns from
    [has_inputs] included. *)
Inductive QcStatus : Type :=
| JOB_PENDING | NEEDS_QA | PASSED_QA | RERUN | REPROC | DATA_ABSENT
| OtherQc (s : string).

Global Instance ProcStatus_eq_dec : EqDecision ProcStatus.
Proof. solve_decision. Defined.
Global Instance QcStatus_eq_dec : EqDecision QcStatus.
Proof. solve_decision. Defined.

(** ** The trace of a phase *)

Inductive level : Type := DEBUG | INFO | WARN | ERROR | CRITICAL.

(** Arguments to the call [cur_task.launch(...)], which has two shapes in
    [launch_tasks], one per family of launcher types. *)
Inductive LaunchCall : Type :=
| LaunchDiskq (force_no_qsub : bool)
| LaunchXnat (root_job_dir : string) (job_email : option string)
    (job_email_options xnat_host : string) (writeonly : bool)
    (pbsdir : option string) (force_no_qsub : bool).

Inductive Event : Type :=
| ECountJobs (answer : Z)                        (* cluster.count_jobs() *)
| ECommandFound (cmd : string) (answer : bool)   (* cluster.command_found *)
| ELaunch (label : string) (call : LaunchCall)   (* cur_task.launch(...) *)
| EUpdateStatus (label : string)                 (* task.update_status() *)
| EBuildTask (label : string)                    (* xtask.build_task(...) *)
| ESetStatus (label : string) (s : ProcStatus)   (* task.set_status *)
| ESetQcStatus (label : string) (q : QcStatus)   (* task.set_qcstatus *)
| EGetTask (label : string)                      (* processor.get_task *)
| ECheckDir (path : string)                      (* check_dir *)
| EFinishScript (flagfile : string)              (* self.finish_script *)
| EPrint (line : string)                         (* print *)
| ELog (lvl : level) (fmt : string) (args : list string).

(** The compute cluster as the launcher sees it: the answer of the n-th call
    to [count_jobs] (the count moves on its own, so successive answers are
    unrelated), and whether the submit command is on the path. *)
Record Cluster : Type := mkCluster {
  count_jobs_answer : nat → Z;
  command_found : string → bool
}.

Record World : Type := mkWorld {
  reads : nat;             (* calls to [count_jobs] made so far *)
  trace : list Event       (* events so far, oldest first *)
}.

Definition world0 : World := mkWorld 0 [].

(** ** A state and exception monad *)

Inductive result (A : Type) : Type :=
| Ok (a : A)
| Raise (e : exn).
Arguments Ok {A} a.
Arguments Raise {A} e.

Definition M (A : Type) : Type := World → result A * World.

Definition ret {A} (a : A) : M A := λ w, (Ok a, w).

Definition bind {A B} (m : M A) (k : A → M B) : M B :=
  λ w, match m w with
       | (Ok a, w') => k a w'
       | (Raise e, w') => (Raise e, w')
       end.

Definition raise {A} (e : exn) : M A := λ w, (Raise e, w).

(** [try: m  except Exception as E: h E] *)
Definition try_except {A} (m : M A) (h : exn → M A) : M A :=
  λ w, match m w with
       | (Ok a, w') => (Ok a, w')
       | (Raise e, w') => h e w'
       end.

Definition emit (e : Event) : M unit :=
  λ w, (Ok tt, mkWorld (reads w) (trace w ++ [e])).

Definition log (lvl : level) (fmt : string) (args : list string) : M unit :=
  emit (ELog lvl fmt args).

(** Calling a collaborator whose behaviour is given as an [outcome]. *)
Definition call {A} (e : Event) (o : outcome A) : M A :=
  λ w, let w' := mkWorld (reads w) (trace w ++ [e]) in
       match o with
       | Returns a => (Ok a, w')
       | Throws x => (Raise x, w')
       end.

Declare Scope py_scope.
Delimit Scope py_scope with py.
Notation "x <- m ;; k" := (bind m (λ x, k))
  (at level 100, m at next level, right associativity) : py_scope.
Notation "m ;;; k" := (bind m (λ _, k))
  (at level 100, right associativity) : py_scope.
Local Open Scope py_scope.

(** [cluster.count_jobs()]: the next answer of the cluster. *)
Definition count_jobs (c : Cluster) : M Z :=
  λ w, let z := count_jobs_answer c (reads w) in
       (Ok z, mkWorld (S (reads w)) (trace w ++ [ECountJobs z])).

Definition cluster_command_found (c : Cluster) (cmd : string) : M bool :=
  λ w, let b := command_found c cmd in
       (Ok b, mkWorld (reads w) (trace w ++ [ECommandFound cmd b])).

(** Reading a local variable that is bound on some paths only. *)
Definition read_local {A} (name : string) (v : option A) : M A :=
  match v with
  | Some a => ret a
  | None => raise (UnboundLocalError name)
  end.

(** ** Python string operations used by the launcher *)

(** [c.lower()] on one ASCII character. *)
Definition ascii_lower (c : ascii) : ascii :=
  let n := nat_of_ascii c in
  if ((65 <=? n) && (n <=? 90))%nat then ascii_of_nat (n + 32) else c.

(** [s.lower()] *)
Fixpoint str_lower (s : string) : string :=
  match s with
  | EmptyString => EmptyString
  | String c r => String (ascii_lower c) (str_lower r)
  end.

(** [s.startswith(p)] *)
Definition startswith (s p : string) : bool := String.prefix p s.

(** [s[n:]] for [n >= 0]: Python slices clamp to the string's length. *)
Fixpoint str_drop (n : nat) (s : string) : string :=
  match n, s with
  | O, _ => s
  | S n', EmptyString => EmptyString
  | S n', String _ r => str_drop n' r
  end.

(** [s[0:n]] for [n >= 0]. *)
Fixpoint str_take (n : nat) (s : string) : string :=
  match n, s with
  | O, _ => EmptyString
  | S n', EmptyString => EmptyString
  | S n', String c r => String c (str_take n' r)
  end.

(** [s.split(sep)] for a one-character separator: every occurrence cuts,
    adjacent separators give empty fields, the empty string gives [['']]. *)
Fixpoint str_split (sep : ascii) (s : string) : list string :=
  match s with
  | EmptyString => [EmptyString]
  | String c r =>
      if Ascii.eqb c sep then EmptyString :: str_split sep r
      else match str_split sep r with
           | [] => [String c EmptyString]
           | f :: fs => String c f :: fs
           end
  end.

(** Truth value of a parameter that is [None] or a string. *)
Definition truthy (s : option string) : bool :=
  match s with
  | None => false
  | Some EmptyString => false
  | Some _ => true
  end.

(** [os.path.join(a, b)] for a relative [b]. *)
Definition path_join (a b : string) : string :=
  if String.eqb a EmptyString then b
  else if startswith b "/" then b
  else if String.eqb (str_drop (String.length a - 1) a) "/" then a ++ b
  else a ++ "/" ++ b.

(** ** Records of the metadata store, as dictionaries of the keys read *)

(** The [info] dictionary of a session or of a scan
    ([XnatUtils.list_sessions], [csess.info()], [cscan.info()]). *)
Record Info : Type := mkInfo {
  label : string;
  session_label : string;
  project_label : string;
  subject_label : string;
  xsiType : string;
  scan_id : string;
  last_modified : string;
  last_updated : string
}.

(** An assessor's dictionary ([XnatUtils.list_project_assessors],
    [assr.info()]). *)
Record AssrInfo : Type := mkAssrInfo {
  assr_label : string;          (* key 'label' *)
  assessor_label_of : string;   (* key 'assessor_label' *)
  assr_xsiType : string;        (* key 'xsiType' *)
  proctype : string;
  assr_procstatus : ProcStatus; (* key 'procstatus' *)
  assr_qcstatus : QcStatus;     (* key 'qcstatus' *)
  assr_session_label : string   (* key 'session_label' *)
}.

Record CachedImageSession : Type := mkCSess {
  csess_info : Info;
  csess_assessors : list AssrInfo;   (* csess.assessors(), in order *)
  csess_scans : list Info            (* csess.scans(), in order *)
}.

Record CachedImageScan : Type := mkCScan {
  cscan_info : Info;
  cscan_parent : CachedImageSession
}.

Inductive CachedObj : Type :=
| OfSession (csess : CachedImageSession)
| OfScan (cscan : CachedImageScan).

(** ** Tasks, processors and modules: the collaborators' interfaces *)

(** A task object.  Its two statuses are the fields the launcher sets;
    [task_launch], [task_update_status], [task_set_status] and
    [task_set_qcstatus] are what the collaborator does when called: a write
    of a status to the store returns or raises.  [task_get_status] is what
    [get_status()] does on a task of the disk queue, which reads the
    status from its file. *)
Record Task : Type := mkTask {
  assessor_label : string;
  procstatus : ProcStatus;
  qcstatus : QcStatus;
  task_launch : LaunchCall → outcome bool;
  task_update_status : outcome unit;
  task_set_status : ProcStatus → outcome unit;
  task_set_qcstatus : QcStatus → outcome unit;
  task_get_status : outcome ProcStatus
}.

(** A processor, duck-typed in the source: the attributes and methods the
    launcher uses.  [has_inputs] returns the readiness as an integer (1 is
    ready, -1 is permanently blocked, anything else is pending) and a
    QcStatus. *)
Record Processor : Type := mkProcessor {
  name : string;
  xsitype : string;
  should_run : Info → bool;
  get_assessor_name : CachedObj → string;
  has_inputs : CachedObj → Z * QcStatus;
  get_task : CachedObj → Task
}.

Record DaxModule : Type := mkModule {
  getname : string
}.

(** ** Settings and the launcher object *)

(** The getters of the global [DAX_SETTINGS] read by [launcher.py]. *)
Record DAX_Settings : Type := mkSettings {
  get_queue_limit : Z;
  get_root_job_dir : string;
  get_launcher_type : string;
  get_max_age : Z;
  get_results_dir : string;
  get_cmd_submit : string
}.

Record Launcher : Type := mkLauncher {
  queue_limit : Z;
  root_job_dir : string;
  project_process_dict : gmap string (list Processor);
  project_modules_dict : gmap string (list DaxModule);
  priority_project : option (list string);
  job_email : option string;
  job_email_options : string;
  max_age : Z;
  launcher_type : string;
  skip_lastupdate : bool;
  xnat_host : string;
  xnat_user : string;
  xnat_pass : string
}.

(** [x in [a, b, ...]] on strings. *)
Definition str_in (x : string) (l : list string) : bool :=
  existsb (String.eqb x) l.

(** ** Launch: [Launcher.launch_tasks] *)

Section Launch.
(** The module-level globals [DAX_SETTINGS] and [cluster]. *)
Variable DAX_SETTINGS : DAX_Settings.
Variable cluster : Cluster.

Definition diskq_cluster_types : list string :=
  ["diskq-cluster"; "diskq-combined"].

(** [cur_task.launch(...)] inside its [try], with the handler that logs
    and sets [success = False]. *)
Definition try_launch (self : Launcher) (cur_task : Task)
    (writeonly : bool) (pbsdir : option string) (force_no_qsub : bool)
    : M bool :=
  try_except
    (if str_in (launcher_type self) diskq_cluster_types then
       let c := LaunchDiskq force_no_qsub in
       call (ELaunch (assessor_label cur_task) c) (task_launch cur_task c)
     else
       let c := LaunchXnat (root_job_dir self) (job_email self)
                  (job_email_options self) (xnat_host self)
                  writeonly pbsdir force_no_qsub in
       call (ELaunch (assessor_label cur_task) c) (task_launch cur_task c))
    (λ E,
       log CRITICAL "Caught exception launching job %s"
         [assessor_label cur_task];;;
       log CRITICAL "Exception class %s caught with message %s"
         [exn_class E; exn_message E];;;
       ret false).

(** One turn of the [while] body, after [cur_task = task_list.pop()].
    The count read at the end goes to [cur_job_count]; [cjobs] is not
    assigned. *)
Definition launch_body (self : Launcher) (cjobs : Z) (cur_task : Task)
    (writeonly : bool) (pbsdir : option string) (force_no_qsub : bool)
    : M unit :=
  (if writeonly then
     log INFO
       "  +Writing PBS file for job:%s, currently %s jobs in cluster queue"
       [assessor_label cur_task; pretty cjobs]
   else
     log INFO "  +Launching job:%s, currently %s jobs in cluster queue"
       [assessor_label cur_task; pretty cjobs]);;;
  success <- try_launch self cur_task writeonly pbsdir force_no_qsub;;
  if negb success then
    log ERROR "ERROR: failed to launch job" [];;;
    raise ClusterLaunchException
  else
    cur_job_count <- count_jobs cluster;;
    if cur_job_count =? -1 then
      log ERROR "ERROR: cannot get count of jobs from cluster" [];;;
      raise ClusterCountJobsException
    else ret tt.

(** The [while] loop.  [stack] is [task_list] reversed, so that its head
    is the element [task_list.pop()] removes; [cjobs] is the local
    variable, [None] while unbound.  The loop test reads [cjobs] first.
    The result is what is left of the stack. *)
Fixpoint launch_loop (self : Launcher) (cjobs : option Z)
    (writeonly : bool) (pbsdir : option string) (force_no_qsub : bool)
    (stack : list Task) {struct stack} : M (list Task) :=
  c <- read_local "cjobs" cjobs;;
  if ((c <? queue_limit self) || writeonly) && (0 <? Z.of_nat (length stack))
  then
    match stack with
    | [] => ret stack
    | cur_task :: rest =>
        launch_body self c cur_task writeonly pbsdir force_no_qsub;;;
        launch_loop self cjobs writeonly pbsdir force_no_qsub rest
    end
  else ret stack.

(** [launch_tasks(task_list, writeonly, pbsdir, force_no_qsub)]; returns
    the task list as the call leaves it. *)
Definition launch_tasks (self : Launcher) (task_list : list Task)
    (writeonly : bool) (pbsdir : option string) (force_no_qsub : bool)
    : M (list Task) :=
  if force_no_qsub then
    log INFO "No qsub - Running job locally on your computer." [];;;
    rest <- launch_loop self None writeonly pbsdir force_no_qsub
              (rev task_list);;
    ret (rev rest)
  else
    cjobs <- count_jobs cluster;;
    if cjobs =? -1 then
      log ERROR "cannot get count of jobs from cluster" [];;;
      ret task_list
    else
      found <- cluster_command_found cluster (get_cmd_submit DAX_SETTINGS);;
      (if found then log INFO "%s jobs currently in queue" [pretty cjobs]
       else ret tt);;;
      rest <- launch_loop self (Some cjobs) writeonly pbsdir force_no_qsub
                (rev task_list);;
      ret (rev rest).

End Launch.

(** ** Update: the loop of [Launcher.update_tasks] *)

(** Both branches of [update_tasks] run the same loop over the task list,
    with no [try] around [cur_task.update_status()], and then call
    [finish_script]. *)
Fixpoint update_loop (fmt : string) (task_list : list Task) : M unit :=
  match task_list with
  | [] => ret tt
  | cur_task :: rest =>
      log INFO fmt [assessor_label cur_task];;;
      call (EUpdateStatus (assessor_label cur_task))
        (task_update_status cur_task);;;
      update_loop fmt rest
  end.

(** [update_tasks] from the point where the task list is known: the
    disk-queue branch and the store branch differ in their log lines. *)
Definition update_task_list (self : Launcher) (flagfile : string)
    (task_list : list Task) : M unit :=
  (if str_in (launcher_type self) diskq_cluster_types then
     log INFO "%s tasks found." [pretty (Z.of_nat (length task_list))];;;
     log INFO "Updating tasks..." [];;;
     update_loop "Updating task: %s" task_list
   else
     log INFO "%s open tasks found"
       [pretty (Z.of_nat (length task_list))];;;
     log INFO "Updating tasks..." [];;;
     update_loop "     Updating task: %s" task_list);;;
  emit (EFinishScript flagfile).

(** What a collaborator does, without a trace of the call. *)
Definition of_outcome {A} (o : outcome A) : M A :=
  match o with
  | Returns a => ret a
  | Throws e => raise e
  end.

(** ** Build: the per-processor decisions *)

Definition show_proc (s : ProcStatus) : string :=
  match s with
  | NEED_INPUTS => "NEED_INPUTS" | NEED_TO_RUN => "NEED_TO_RUN"
  | JOB_RUNNING => "JOB_RUNNING" | COMPLETE => "COMPLETE"
  | JOB_FAILED => "JOB_FAILED" | NO_DATA => "NO_DATA"
  | OtherProc s => s
  end.

Definition show_qc (q : QcStatus) : string :=
  match q with
  | JOB_PENDING => "JOB_PENDING" | NEEDS_QA => "NEEDS_QA"
  | PASSED_QA => "PASSED_QA" | RERUN => "RERUN" | REPROC => "REPROC"
  | DATA_ABSENT => "DATA_ABSENT"
  | OtherQc s => s
  end.

(** Modelled from the spec: [Task.set_status] of [task.py], which is not
    among the sources.  The call is recorded in the trace.  When the write
    returns, the ProcStatus of the task is the value written and the
    QcStatus is as before; when it raises, the task is as before. *)
Definition set_status (s : ProcStatus) (t : Task) : M Task :=
  emit (ESetStatus (assessor_label t) s);;;
  match task_set_status t s with
  | Returns _ =>
      ret (mkTask (assessor_label t) s (qcstatus t) (task_launch t)
             (task_update_status t) (task_set_status t) (task_set_qcstatus t)
             (task_get_status t))
  | Throws e => raise e
  end.

(** Modelled from the spec: [Task.set_qcstatus] of [task.py].  When the
    write returns, the QcStatus of the task is the value written and the
    ProcStatus is as before. *)
Definition set_qcstatus (q : QcStatus) (t : Task) : M Task :=
  emit (ESetQcStatus (assessor_label t) q);;;
  match task_set_qcstatus t q with
  | Returns _ =>
      ret (mkTask (assessor_label t) (procstatus t) q (task_launch t)
             (task_update_status t) (task_set_status t) (task_set_qcstatus t)
             (task_get_status t))
  | Throws e => raise e
  end.

(** A status write of a [try] block. *)
Inductive StatusWrite : Type :=
| WriteStatus (s : ProcStatus)      (* the_task.set_status(s) *)
| WriteQc (q : QcStatus).           (* the_task.set_qcstatus(q) *)

Definition status_write (wr : StatusWrite) (t : Task) : M Task :=
  match wr with
  | WriteStatus s => set_status s t
  | WriteQc q => set_qcstatus q t
  end.

(** The body of a [try] block made of status writes on one task: the
    writes run in order and the first that raises leaves the block.  The
    result is the task as the writes left it, and the exception the
    [except] clause receives, if any. *)
Fixpoint try_writes (ws : list StatusWrite) (t : Task)
    : M (Task * option exn) :=
  match ws with
  | [] => ret (t, None)
  | wr :: rest =>
      λ w, match status_write wr t w with
           | (Ok t1, w1) => try_writes rest t1 w1
           | (Raise e, w1) => (Ok (t, Some e), w1)
           end
  end.

(** [log_updating_status(procname, assessor_label)] *)
Definition log_updating_status (procname assessor_label : string) : M unit :=
  log DEBUG "* Processor:{proc}: updating status: {label}"
    [procname; assessor_label].

(** The search for an existing assessor in [build_session_processors]: the
    loop leaves at the first assessor with the name. *)
Fixpoint find_assessor_first (assr_name : string) (assessors : list AssrInfo)
    : option AssrInfo :=
  match assessors with
  | [] => None
  | assr :: rest =>
      if String.eqb (assr_label assr) assr_name then Some assr
      else find_assessor_first assr_name rest
  end.

(** The same search in [build_scan_processors]: there is no [break], each
    assessor with the name overwrites [p_assr], the last one stays. *)
Fixpoint find_assessor_last (p_assr : option AssrInfo) (assr_name : string)
    (assessors : list AssrInfo) : option AssrInfo :=
  match assessors with
  | [] => p_assr
  | assr :: rest =>
      find_assessor_last
        (if String.eqb (assr_label assr) assr_name then Some assr else p_assr)
        assr_name rest
  end.

Definition qc_in_rerun_reproc (q : QcStatus) : bool :=
  bool_decide (q = RERUN) || bool_decide (q = REPROC).

(** The test guarding the disk-queue branch of [build_session_processors]. *)
Definition session_diskq_test (p_assr : option AssrInfo) : bool :=
  match p_assr with
  | None => true
  | Some a =>
      bool_decide (assr_procstatus a = NEED_INPUTS)
      || qc_in_rerun_reproc (assr_qcstatus a)
  end.

(** The test guarding the disk-queue branch of [build_scan_processors]:
    the ProcStatus is looked up in [[NEED_INPUTS, NEED_TO_RUN]]. *)
Definition scan_diskq_test (p_assr : option AssrInfo) : bool :=
  match p_assr with
  | None => true
  | Some a =>
      (bool_decide (assr_procstatus a = NEED_INPUTS)
       || bool_decide (assr_procstatus a = NEED_TO_RUN))
      || qc_in_rerun_reproc (assr_qcstatus a)
  end.

(** [p_assr is not None and p_assr.info()['qcstatus'] in [RERUN, REPROC]] *)
Definition refresh_test (p_assr : option AssrInfo) : bool :=
  match p_assr with
  | None => false
  | Some a => qc_in_rerun_reproc (assr_qcstatus a)
  end.

(** The store-direct test, the same at both levels. *)
Definition store_direct_test (p_assr : option AssrInfo) : bool :=
  match p_assr with
  | None => true
  | Some a => bool_decide (assr_procstatus a = NEED_INPUTS)
  end.

Definition diskq_build_types : list string := ["diskq-xnat"; "diskq-combined"].

Section Build.
(** What [XnatTask(proc, assessor, ...).build_task(...)] returns for a
    processor on a context: a collaborator of [task.py]. *)
Variable xtask_build_task : Processor → CachedObj → ProcStatus * QcStatus.

(** The disk-queue branch once [build] is decided: create the XnatTask,
    refresh its status when the QcStatus asks for a rerun, build it. *)
Definition diskq_build (proc : Processor) (cobj : CachedObj)
    (assr_name : string) (p_assr : option AssrInfo) : M unit :=
  (if refresh_test p_assr then emit (EUpdateStatus assr_name)
   else ret tt);;;
  log DEBUG "building task:%s" [assr_name];;;
  emit (EBuildTask assr_name);;;
  let '(proc_status, qc_status) := xtask_build_task proc cobj in
  log DEBUG "proc_status=%s, qc_status=%s"
    [show_proc proc_status; show_qc qc_status].

(** The store-direct branch once the test passed: get the task, ask the
    processor for its inputs, set the statuses inside the [try]; an
    exception of a write is logged by the [except] clause.  The result is
    the task as the writes left it. *)
Definition store_direct_build (proc : Processor) (cobj : CachedObj)
    (err1 : string) (sess_label : string) : M Task :=
  let the_task := get_task proc cobj in
  emit (EGetTask (assessor_label the_task));;;
  log_updating_status (name proc) (assessor_label the_task);;;
  let '(has_inputs_val, qcstatus_val) := has_inputs proc cobj in
  r <- try_writes
         (if has_inputs_val =? 1 then
            [WriteStatus NEED_TO_RUN; WriteQc JOB_PENDING]
          else if has_inputs_val =? -1 then
            [WriteStatus NO_DATA; WriteQc qcstatus_val]
          else
            [WriteQc qcstatus_val])
         the_task;;
  match snd r with
  | Some E =>
      log CRITICAL err1 [sess_label];;;
      log CRITICAL "Exception class %s caught with message %s"
        [exn_class E; exn_message E];;;
      ret (fst r)
  | None => ret (fst r)
  end.

(** One turn of the loop of [build_session_processors]; the result is the
    task whose statuses were set, if any. *)
Definition session_proc_step (self : Launcher) (csess : CachedImageSession)
    (sess_proc : Processor) : M (option Task) :=
  let sess_info := csess_info csess in
  if negb (should_run sess_proc sess_info) then ret None
  else
    let assr_name := get_assessor_name sess_proc (OfSession csess) in
    let p_assr := find_assessor_first assr_name (csess_assessors csess) in
    if str_in (launcher_type self) diskq_build_types then
      if session_diskq_test p_assr then
        diskq_build sess_proc (OfSession csess) assr_name p_assr;;;
        ret None
      else
        log DEBUG "skipping, already built: %s" [assr_name];;;
        ret None
    else
      if store_direct_test p_assr then
        t <- store_direct_build sess_proc (OfSession csess)
               "Caught exception building session %s while setting assessor status"
               (session_label sess_info);;
        ret (Some t)
      else ret None.

(** One turn of the loop of [build_scan_processors]. *)
Definition scan_proc_step (self : Launcher) (cscan : CachedImageScan)
    (scan_proc : Processor) : M (option Task) :=
  let scan_info := cscan_info cscan in
  if negb (should_run scan_proc scan_info) then ret None
  else
    let assr_name := get_assessor_name scan_proc (OfScan cscan) in
    let p_assr :=
      find_assessor_last None assr_name
        (csess_assessors (cscan_parent cscan)) in
    if str_in (launcher_type self) diskq_build_types then
      if scan_diskq_test p_assr then
        diskq_build scan_proc (OfScan cscan) assr_name p_assr;;;
        ret None
      else
        log DEBUG "skipping, already built:%s" [assr_name];;;
        ret None
    else
      if store_direct_test p_assr then
        t <- store_direct_build scan_proc (OfScan cscan)
               "Caught exception building sessions %s"
               (session_label scan_info);;
        ret (Some t)
      else ret None.

(** A [for] loop collecting the tasks its turns return. *)
Fixpoint for_each {A} (step : A → M (option Task)) (l : list A)
    : M (list Task) :=
  match l with
  | [] => ret []
  | x :: rest =>
      o <- step x;;
      ts <- for_each step rest;;
      ret (match o with Some t => t :: ts | None => ts end)
  end.

Definition build_session_processors (self : Launcher)
    (csess : CachedImageSession) (sess_proc_list : list Processor)
    : M (list Task) :=
  for_each (session_proc_step self csess) sess_proc_list.

Definition build_scan_processors (self : Launcher)
    (cscan : CachedImageScan) (scan_proc_list : list Processor)
    : M (list Task) :=
  for_each (scan_proc_step self cscan) scan_proc_list.

End Build.

(** ** Matching assessors to processors *)

(** The test of both loops of [match_proc]. *)
Definition proc_matches (assr_info : AssrInfo) (p : Processor) : bool :=
  String.eqb (xsitype p) (assr_xsiType assr_info)
  && String.eqb (name p) (proctype assr_info).

(** One [for] loop of [match_proc]: return at the first match. *)
Fixpoint match_loop (assr_info : AssrInfo) (procs : list Processor)
    : option Processor :=
  match procs with
  | [] => None
  | p :: rest =>
      if proc_matches assr_info p then Some p else match_loop assr_info rest
  end.

Definition match_proc (assr_info : AssrInfo)
    (sess_proc_list scan_proc_list : list Processor) : option Processor :=
  match match_loop assr_info sess_proc_list with
  | Some sess_proc => Some sess_proc
  | None => match_loop assr_info scan_proc_list
  end.

(** [is_launchable_tasks] *)
Definition is_launchable_tasks (assr_info : AssrInfo) : bool :=
  bool_decide (assr_procstatus assr_info = NEED_TO_RUN).

Section Tasks.
Variable DAX_SETTINGS : DAX_Settings.
(** The constructor [Task(processor, assessor, results_dir)] of [task.py]. *)
Variable Task_new : Processor → AssrInfo → string → Task.

Definition generate_task (assr_info : AssrInfo)
    (sess_proc_list scan_proc_list : list Processor) : M (option Task) :=
  match match_proc assr_info sess_proc_list scan_proc_list with
  | None =>
      log WARN "no matching processor found: %s"
        [assessor_label_of assr_info];;;
      ret None
  | Some task_proc =>
      ret (Some (Task_new task_proc assr_info (get_results_dir DAX_SETTINGS)))
  end.

(** The loop of [get_project_tasks] over the project's assessors, once
    the processors and the assessor list are known. *)
Fixpoint project_tasks_loop (is_valid_assessor : AssrInfo → bool)
    (sess_procs scan_procs : list Processor) (assr_list : list AssrInfo)
    (task_list : list Task) : M (list Task) :=
  match assr_list with
  | [] => ret task_list
  | assr_info :: rest =>
      if is_valid_assessor assr_info then
        cur_task <- generate_task assr_info sess_procs scan_procs;;
        match cur_task with
        | Some t =>
            project_tasks_loop is_valid_assessor sess_procs scan_procs rest
              (task_list ++ [t])
        | None =>
            project_tasks_loop is_valid_assessor sess_procs scan_procs rest
              task_list
        end
      else
        project_tasks_loop is_valid_assessor sess_procs scan_procs rest
          task_list
  end.

Definition get_project_tasks (is_valid_assessor : AssrInfo → bool)
    (sess_procs scan_procs : list Processor) (assr_list : list AssrInfo)
    : M (list Task) :=
  project_tasks_loop is_valid_assessor sess_procs scan_procs assr_list [].

End Tasks.

(** ** Sessions of a project: order and staleness *)

(** The filter of [get_sessions_list] on the sessions the user selected:
    applied when [slocal] is a non-empty string other than 'all' in any
    case; it keeps the sessions whose label is in the comma list. *)
Definition filter_by_slocal (list_sessions : list Info)
    (slocal : option string) : list Info :=
  match slocal with
  | Some sl =>
      if truthy slocal && negb (String.eqb (str_lower sl) "all") then
        let val := str_split "," sl in
        List.filter (λ x, str_in (label x) val) list_sessions
      else list_sessions
  | None => list_sessions
  end.

(** [get_sessions_list], from the list [XnatUtils.list_sessions] returned.
    The second pass tests the session's label against the labels of the
    never-updated sessions. *)
Definition get_sessions_list (list_sessions : list Info)
    (slocal : option string) : M (list Info) :=
  let list_sessions' := filter_by_slocal list_sessions slocal in
  (match slocal with
   | Some sl =>
       if truthy slocal && negb (String.eqb (str_lower sl) "all")
          && bool_decide (list_sessions' = []) then
         log WARN "No session from XNAT matched the sessions given: %s ." [sl]
       else ret tt
   | None => ret tt
   end);;;
  let sorted_list :=
    List.filter (λ s, String.eqb (last_updated s) EmptyString) list_sessions' in
  let new_sessions_label := List.map label sorted_list in
  ret (sorted_list ++
       List.filter (λ session, negb (str_in (label session) new_sessions_label))
         list_sessions')%list.

Definition UPDATE_PREFIX : string := "updated--".
Definition UPDATE_FORMAT : string := "%Y-%m-%d %H:%M:%S".

(** A [datetime] is a number of microseconds from 2020-01-01 00:00:00; a
    [timedelta] is a number of microseconds.  [timedelta_days n] is the
    value of [timedelta(days=n)] where Python builds it, see
    [py_timedelta_days]. *)
Definition timedelta_days (n : Z) : Z := n * 86400000000.

(** [datetime.min], 0001-01-01 00:00:00, and [datetime.max], 9999-12-31
    23:59:59.999999: 2020-01-01 is the day 737425 of the calendar and
    9999-12-31 the day 3652059. *)
Definition datetime_min : Z := - 737424 * 86400000000.
Definition datetime_max : Z := (3652059 - 737424) * 86400000000 - 1.

(** [timedelta(days=n)] for an integer [n]: [OverflowError] beyond
    999999999 days in magnitude. *)
Definition py_timedelta_days (n : Z) : M Z :=
  if Z.abs n <=? 999999999 then ret (timedelta_days n)
  else raise (CollabError "OverflowError"
                "days; must have magnitude <= 999999999").

(** [t + d] for a datetime [t] and a timedelta [d]: [OverflowError] when
    the sum is not a datetime. *)
Definition datetime_add (t d : Z) : M Z :=
  if (datetime_min <=? t + d) && (t + d <=? datetime_max) then ret (t + d)
  else raise (CollabError "OverflowError" "date value out of range").

Section Staleness.
(** [datetime.strptime(s, fmt)] of the Python library: the parsed time,
    or [None] where Python raises [ValueError]. *)
Variable strptime : string → string → option Z.

Definition py_strptime (s fmt : string) : M Z :=
  match strptime s fmt with
  | Some t => ret t
  | None => raise (ValueError "time data does not match format")
  end.

(** [get_lastupdated(info)] *)
Definition get_lastupdated (info : Info) : M (option Z) :=
  let update_time :=
    str_drop (String.length UPDATE_PREFIX) (last_updated info) in
  if String.eqb update_time EmptyString then ret None
  else t <- py_strptime update_time UPDATE_FORMAT;; ret (Some t).

(** The head of the loop of [build_project] over the sessions: [true]
    when the session is skipped ([continue]), [false] when it goes on to
    be built.  [now_date] is what [datetime.today()] returns;
    [lastmod_delta] is the parsed [mod_delta], a zero duration being
    false in Python.  The [and] of the first test evaluates the sum only
    when the comparison before it holds. *)
Definition session_skipped (self : Launcher) (has_new : bool)
    (sessions_local : option string) (lastmod_delta : option Z)
    (now_date : Z) (sess_info : Info) : M bool :=
  if negb (skip_lastupdate self) && negb has_new
     && negb (truthy sessions_local) then
    last_mod <- py_strptime (str_take 19 (last_modified sess_info))
                  UPDATE_FORMAT;;
    last_up <- get_lastupdated sess_info;;
    match last_up with
    | Some lu =>
        if last_mod <? lu then
          age <- py_timedelta_days (max_age self);;
          limit <- datetime_add last_mod age;;
          if now_date <? limit then
            log INFO "  + Session %s: skipping, last_mod=%s,last_up=%s"
              [label sess_info; pretty last_mod; pretty lu];;;
            ret true
          else ret false
        else ret false
    | None => ret false
    end
  else
    match lastmod_delta with
    | Some delta =>
        if negb (delta =? 0) then
          last_mod <- py_strptime (str_take 19 (last_modified sess_info))
                        UPDATE_FORMAT;;
          limit <- datetime_add last_mod delta;;
          if limit <? now_date then
            log INFO
              "  + Session %s:skipping not modified within delta, last_mod=%s"
              [label sess_info; pretty last_mod];;;
            ret true
          else
            emit (EPrint ("lastmod = " ++ pretty last_mod)%string);;;
            ret false
        else ret false
    | None => ret false
    end.

End Staleness.

(** [has_new_processors], from the project's assessor list. *)
Definition has_new_processors (assr_list : list AssrInfo)
    (sess_proc_list scan_proc_list : list Processor) : bool :=
  let assr_type_set : gset string := list_to_set (List.map proctype assr_list) in
  let proc_name_set : gset string :=
    list_to_set (List.map name (sess_proc_list ++ scan_proc_list)) in
  bool_decide (0 < length (elements (proc_name_set ∖ assr_type_set)))%nat.

(** ** Construction: [Launcher.__init__] *)

(** The arguments of [__init__], defaults filled in by the caller's side
    (see [default_args]). *)
Record InitArgs : Type := mkInitArgs {
  arg_project_process_dict : gmap string (list Processor);
  arg_project_modules_dict : gmap string (list DaxModule);
  arg_priority_project : option (list string);
  arg_queue_limit : Z;
  arg_root_job_dir : string;
  arg_xnat_user : option string;
  arg_xnat_pass : option string;
  arg_xnat_host : option string;
  arg_job_email : option string;
  arg_job_email_options : string;
  arg_max_age : Z;
  arg_launcher_type : string;
  arg_skip_lastupdate : option string
}.

(** What [__init__] reads from the process environment. *)
Record Env : Type := mkEnv {
  environ_XNAT_HOST : option string;            (* os.environ['XNAT_HOST'] *)
  netrc_get_login : string → string * string    (* DAX_Netrc().get_login *)
}.

Definition with_max_age (a : InitArgs) (m : Z) : InitArgs :=
  mkInitArgs (arg_project_process_dict a) (arg_project_modules_dict a)
    (arg_priority_project a) (arg_queue_limit a) (arg_root_job_dir a)
    (arg_xnat_user a) (arg_xnat_pass a) (arg_xnat_host a) (arg_job_email a)
    (arg_job_email_options a) m (arg_launcher_type a)
    (arg_skip_lastupdate a).

Section Init.
Variable DAX_SETTINGS : DAX_Settings.
Variable env : Env.

(** The call with only the two dictionaries given: every other parameter
    takes its default, [max_age=7] among them. *)
Definition default_args (ppd : gmap string (list Processor))
    (pmd : gmap string (list DaxModule)) : InitArgs :=
  mkInitArgs ppd pmd None (get_queue_limit DAX_SETTINGS)
    (get_root_job_dir DAX_SETTINGS) None None None None "bae" 7
    (get_launcher_type DAX_SETTINGS) None.

Definition init_skip_lastupdate (skip : option string) : bool :=
  match skip with
  | Some s =>
      if negb (truthy skip) || negb (startswith (str_lower s) "y")
      then false else true
  | None => false
  end.

Definition init_dirs (launcher_type : string) : M unit :=
  let res_dir := get_results_dir DAX_SETTINGS in
  if str_in launcher_type ["diskq-xnat"; "diskq-cluster"; "diskq-combined"]
  then
    emit (ECheckDir (path_join res_dir "DISKQ"));;;
    emit (ECheckDir (path_join (path_join res_dir "DISKQ") "INPUTS"));;;
    emit (ECheckDir (path_join (path_join res_dir "DISKQ") "OUTLOG"));;;
    emit (ECheckDir (path_join (path_join res_dir "DISKQ") "BATCH"));;;
    emit (ECheckDir (path_join res_dir "FlagFiles"))
  else
    emit (ECheckDir res_dir);;;
    emit (ECheckDir (path_join res_dir "FlagFiles"));;;
    emit (ECheckDir (path_join res_dir "OUTLOG"));;;
    emit (ECheckDir (path_join res_dir "PBS")).

(** [__init__]: the object it builds.  The attribute [max_age] is
    assigned from [DAX_SETTINGS.get_max_age()]; the parameter [max_age]
    is not read. *)
Definition Launcher_init (a : InitArgs) : M Launcher :=
  init_dirs (arg_launcher_type a);;;
  (* empty lists for the projects in one dictionary but not the other *)
  let pmd := arg_project_modules_dict a
               ∪ ((λ _, []) <$> arg_project_process_dict a) in
  let ppd := arg_project_process_dict a ∪ ((λ _, []) <$> pmd) in
  host <- (if truthy (arg_xnat_host a) then ret (default EmptyString (arg_xnat_host a))
           else match environ_XNAT_HOST env with
                | Some h => ret h
                | None => raise (KeyError "XNAT_HOST")
                end);;
  login <-
    (if negb (truthy (arg_xnat_user a)) then
       ret (netrc_get_login env host)
     else
       let user := default EmptyString (arg_xnat_user a) in
       if negb (truthy (arg_xnat_pass a)) then
         (* the prompt has one %s and is given a pair: the formatting
            raises before [raw_input] is called *)
         raise (TypeError
                  "not all arguments converted during string formatting")
       else ret (user, default EmptyString (arg_xnat_pass a)));;
  let '(user, pass) := login in
  ret (mkLauncher (arg_queue_limit a) (arg_root_job_dir a) ppd pmd
         (arg_priority_project a) (arg_job_email a)
         (arg_job_email_options a) (get_max_age DAX_SETTINGS)
         (arg_launcher_type a) (init_skip_lastupdate (arg_skip_lastupdate a))
         host user pass).

End Init.

(** ** Observations on traces and on results *)

(** The labels of the tasks submitted, in order. *)
Fixpoint launches (tr : list Event) : list string :=
  match tr with
  | [] => []
  | ELaunch l _ :: r => l :: launches r
  | _ :: r => launches r
  end.

(** The number of calls into the cluster module. *)
Fixpoint cluster_calls (tr : list Event) : nat :=
  match tr with
  | [] => O
  | ECountJobs _ :: r | ECommandFound _ _ :: r => S (cluster_calls r)
  | _ :: r => cluster_calls r
  end.

(** The admission property: at every submission, the job count the cluster
    last reported is below the limit.  [last] is the latest count read. *)
Fixpoint admission_ok (limit : Z) (last : option Z) (tr : list Event) : bool :=
  match tr with
  | [] => true
  | ECountJobs z :: r => admission_ok limit (Some z) r
  | ELaunch _ _ :: r =>
      match last with
      | Some z => (z <? limit) && admission_ok limit last r
      | None => false
      end
  | _ :: r => admission_ok limit last r
  end.

(** Every launch call on the task returns [True]. *)
Definition launch_succeeds (t : Task) : Prop :=
  ∀ c, task_launch t c = Returns true.

(** The task's [update_status] returns. *)
Definition update_returns (t : Task) : Prop :=
  task_update_status t = Returns tt.

(** The labels of the tasks whose [update_status] was called, in order. *)
Fixpoint updates (tr : list Event) : list string :=
  match tr with
  | [] => []
  | EUpdateStatus l :: r => l :: updates r
  | _ :: r => updates r
  end.

(** Whether [finish_script] was reached. *)
Fixpoint finished (tr : list Event) : bool :=
  match tr with
  | [] => false
  | EFinishScript _ :: _ => true
  | _ :: r => finished r
  end.

(** The calls a build step makes on tasks: refreshes, builds and status
    writes, without the log lines. *)
Fixpoint task_calls (tr : list Event) : list Event :=
  match tr with
  | [] => []
  | ELog _ _ _ :: r => task_calls r
  | e :: r => e :: task_calls r
  end.

(** The readiness the [if]/[elif]/[else] on [has_inputs] reads from the
    integer. *)
Inductive Readiness : Type := Ready | PermanentlyBlocked | Pending.

Definition readiness (has_inputs_val : Z) : Readiness :=
  if has_inputs_val =? 1 then Ready
  else if has_inputs_val =? -1 then PermanentlyBlocked
  else Pending.

(** The existing assessor's QcStatus asks for a rerun. *)
Definition qc_asks_rerun (p_assr : option AssrInfo) : Prop :=
  ∃ a, p_assr = Some a ∧ (assr_qcstatus a = RERUN ∨ assr_qcstatus a = REPROC).

(** The build condition at session level, in words: no assessor, or
    ProcStatus NEED_INPUTS, or a QcStatus that asks for a rerun. *)
Definition session_build_cond (p_assr : option AssrInfo) : Prop :=
  p_assr = None
  ∨ (∃ a, p_assr = Some a ∧ assr_procstatus a = NEED_INPUTS)
  ∨ qc_asks_rerun p_assr.

(** The build condition at scan level: ProcStatus NEED_TO_RUN builds too. *)
Definition scan_build_cond (p_assr : option AssrInfo) : Prop :=
  p_assr = None
  ∨ (∃ a, p_assr = Some a
          ∧ (assr_procstatus a = NEED_INPUTS ∨ assr_procstatus a = NEED_TO_RUN))
  ∨ qc_asks_rerun p_assr.

(** What a disk-queue step does to the task named [assr_name], given the
    build condition [cond] of its level and the assessor found: refresh and
    build, build alone, or nothing but the line that says it is skipped. *)
Definition diskq_step_outcome (cond : option AssrInfo → Prop)
    (p_assr : option AssrInfo) (assr_name skip_fmt : string)
    (evs : list Event) : Prop :=
  (qc_asks_rerun p_assr →
     task_calls evs = [EUpdateStatus assr_name; EBuildTask assr_name])
  ∧ (cond p_assr → ¬ qc_asks_rerun p_assr →
       task_calls evs = [EBuildTask assr_name])
  ∧ (¬ cond p_assr →
       task_calls evs = [] ∧ evs = [ELog DEBUG skip_fmt [assr_name]])
  ∧ (EBuildTask assr_name ∈ evs ↔ cond p_assr).

(** Every write of a status of the task returns. *)
Definition writes_return (t : Task) : Prop :=
  (∀ s, task_set_status t s = Returns tt)
  ∧ (∀ q, task_set_qcstatus t q = Returns tt).

(** The line the [except] clauses log for the exception [e]. *)
Definition caught_line (e : exn) : Event :=
  ELog CRITICAL "Exception class %s caught with message %s"
    [exn_class e; exn_message e].

(** What a store-direct step does to the task [t0] the processor returned,
    given the readiness [h] and the QcStatus [q] of [has_inputs]: [t] is
    the task afterwards, [evs] the events of the step, in order.  When the
    writes return, the readiness decides the statuses; a write of the
    ProcStatus that raises leaves both statuses as they were, the write of
    the QcStatus being not attempted; a write of the QcStatus that raises
    leaves the QcStatus as it was; the exception is logged. *)
Definition readiness_outcome (t0 t : Task) (h : Z) (q : QcStatus)
    (evs : list Event) : Prop :=
  let l := assessor_label t0 in
  (writes_return t0 →
     (readiness h = Ready →
        procstatus t = NEED_TO_RUN ∧ qcstatus t = JOB_PENDING
        ∧ task_calls evs
          = [EGetTask l; ESetStatus l NEED_TO_RUN; ESetQcStatus l JOB_PENDING])
     ∧ (readiness h = PermanentlyBlocked →
          procstatus t = NO_DATA ∧ qcstatus t = q
          ∧ task_calls evs
            = [EGetTask l; ESetStatus l NO_DATA; ESetQcStatus l q])
     ∧ (readiness h = Pending →
          procstatus t = procstatus t0 ∧ qcstatus t = q
          ∧ task_calls evs = [EGetTask l; ESetQcStatus l q]))
  ∧ (∀ s e, task_set_status t0 s = Throws e → ESetStatus l s ∈ evs →
       procstatus t = procstatus t0 ∧ qcstatus t = qcstatus t0
       ∧ (∀ q', ESetQcStatus l q' ∉ evs)
       ∧ caught_line e ∈ evs)
  ∧ (∀ q' e, task_set_qcstatus t0 q' = Throws e → ESetQcStatus l q' ∈ evs →
       qcstatus t = qcstatus t0 ∧ caught_line e ∈ evs)
  ∧ assessor_label t = l.

(** Every write of a ProcStatus among the events is NEED_TO_RUN on a ready
    result or NO_DATA on a permanently blocked one. *)
Definition status_writes_justified (h : Z) (evs : list Event) : Prop :=
  ∀ l s, ESetStatus l s ∈ evs →
    (s = NEED_TO_RUN ∧ readiness h = Ready)
    ∨ (s = NO_DATA ∧ readiness h = PermanentlyBlocked).

(** No processor of the list matches the assessor. *)
Definition none_matches (assr_info : AssrInfo) (procs : list Processor) : Prop :=
  Forall (λ q, proc_matches assr_info q = false) procs.

(** The task an assessor contributes to the task list of its project, if
    any: it must be valid and have a matching processor. *)
Definition task_of (Task_new : Processor → AssrInfo → string → Task)
    (results_dir : string) (is_valid_assessor : AssrInfo → bool)
    (sess_procs scan_procs : list Processor) (assr_info : AssrInfo)
    : option Task :=
  if is_valid_assessor assr_info then
    match match_proc assr_info sess_procs scan_procs with
    | Some p => Some (Task_new p assr_info results_dir)
    | None => None
    end
  else None.

Definition is_warning (e : Event) : Prop :=
  ∃ fmt args, e = ELog WARN fmt args.

(** The marker of a session: what follows the prefix in [last_updated]. *)
Definition marker (info : Info) : string :=
  str_drop (String.length UPDATE_PREFIX) (last_updated info).

(** The time is a date of the calendar. *)
Definition is_datetime (t : Z) : Prop := datetime_min ≤ t ≤ datetime_max.

Definition never_swept (s : Info) : bool :=
  String.eqb (last_updated s) EmptyString.

(** No previously-swept session of the list bears the label of a
    never-swept one. *)
Definition labels_separate (sessions : list Info) : Prop :=
  ∀ s s', In s sessions → In s' sessions →
    never_swept s = true → never_swept s' = false → label s ≠ label s'.

(** ** Sample data for the examples *)

Definition sample_settings : DAX_Settings :=
  mkSettings 5 "/tmp/jobs" "xnat-cluster" 7 "/tmp/results" "qsub".

Definition sample_launcher (limit : Z) (ltype : string) : Launcher :=
  mkLauncher limit "/tmp/jobs" ∅ ∅ None None "bae" 7 ltype false
    "http://xnat" "user" "secret".

(** A launcher whose maximum age, in days, is beyond the calendar. *)
Definition ancient_launcher : Launcher :=
  mkLauncher 5 "/tmp/jobs" ∅ ∅ None None "bae" 4000000 "xnat-cluster" false
    "http://xnat" "user" "secret".

(** A task whose launch succeeds and whose reconciliation returns. *)
Definition good_task (l : string) : Task :=
  mkTask l NEED_TO_RUN JOB_PENDING (λ _, Returns true) (Returns tt)
    (λ _, Returns tt) (λ _, Returns tt) (Returns NEED_TO_RUN).

(** A task whose reconciliation raises. *)
Definition failing_task (l : string) : Task :=
  mkTask l JOB_RUNNING JOB_PENDING (λ _, Returns true)
    (Throws (CollabError "IOError" "store unreachable"))
    (λ _, Returns tt) (λ _, Returns tt) (Returns JOB_RUNNING).

(** A session with one assessor, named as [sample_proc] names its
    assessor, in the given statuses; a scan of that session. *)
Definition sample_info (l : string) (updated : string) : Info :=
  mkInfo l l "proj" "subj" "xnat:mrSessionData" "1"
    "2020-01-01 10:00:00.0" updated.

Definition sample_assr (ps : ProcStatus) (qs : QcStatus) : AssrInfo :=
  mkAssrInfo "proj-x-subj-x-sess-x-proc" "proj-x-subj-x-sess-x-proc"
    "proc:genProcData" "proc" ps qs "sess".

Definition sample_csess (assrs : list AssrInfo) : CachedImageSession :=
  mkCSess (sample_info "sess" EmptyString) assrs
    [sample_info "scan1" EmptyString].

Definition sample_cscan (assrs : list AssrInfo) : CachedImageScan :=
  mkCScan (sample_info "scan1" EmptyString) (sample_csess assrs).

(** A processor that always runs, whose inputs have readiness [h]. *)
Definition sample_proc (h : Z) : Processor :=
  mkProcessor "proc" "proc:genProcData" (λ _, true)
    (λ _, "proj-x-subj-x-sess-x-proc") (λ _, (h, OtherQc "waiting for T1"))
    (λ _, mkTask "proj-x-subj-x-sess-x-proc" NEED_INPUTS JOB_PENDING
            (λ _, Returns true) (Returns tt)
            (λ _, Returns tt) (λ _, Returns tt) (Returns NEED_INPUTS)).

Definition sample_build_task (p : Processor) (c : CachedObj)
    : ProcStatus * QcStatus := (NEED_TO_RUN, JOB_PENDING).

(** A processor whose inputs are ready and whose task cannot be written:
    the store refuses the ProcStatus. *)
Definition stuck_proc : Processor :=
  mkProcessor "proc" "proc:genProcData" (λ _, true)
    (λ _, "proj-x-subj-x-sess-x-proc") (λ _, (1, JOB_PENDING))
    (λ _, mkTask "proj-x-subj-x-sess-x-proc" NEED_INPUTS NEEDS_QA
            (λ _, Returns true) (Returns tt)
            (λ _, Throws (CollabError "IOError" "store unreachable"))
            (λ _, Returns tt) (Returns NEED_INPUTS)).

(** Processors named [n] of type [x], told apart by their readiness. *)
Definition proc_named (n x : string) (h : Z) : Processor :=
  mkProcessor n x (λ _, true) (λ _, "assr") (λ _, (h, JOB_PENDING))
    (λ _, good_task "assr").

Definition sample_Task_new (p : Processor) (a : AssrInfo) (dir : string)
    : Task :=
  mkTask (assessor_label_of a) (assr_procstatus a) (assr_qcstatus a)
    (λ _, Returns true) (Returns tt) (λ _, Returns tt) (λ _, Returns tt)
    (Returns (assr_procstatus a)).

(** A parser that knows three dates, as seconds-free stand-ins for
    [datetime.strptime]: times are in microseconds from 2020-01-01. *)
Definition sample_strptime (s fmt : string) : option Z :=
  if String.eqb s "2020-01-01 10:00:00" then Some 36000000000
  else if String.eqb s "2020-01-02 09:00:00" then Some 118800000000
  else if String.eqb s "2020-01-03 00:00:00" then Some 172800000000
  else None.

(** The sessions of the scenario: A and C were never swept, B was. *)
Definition session_A : Info := sample_info "A" EmptyString.
Definition session_B : Info := sample_info "B" "updated--2020-01-02 09:00:00".
Definition session_C : Info := sample_info "C" EmptyString.

(** Two sessions under one label, the first never swept, the second
    swept. *)
Definition session_S_new : Info := sample_info "S" EmptyString.
Definition session_S_old : Info :=
  sample_info "S" "updated--2020-01-02 09:00:00".

(** A cluster that reports one more job at each read: 0, 1, 2, ... *)
Definition growing_cluster : Cluster :=
  mkCluster (λ n, Z.of_nat n) (λ _, true).

(** A cluster that reports as many jobs as the sample limit, always. *)
Definition full_cluster : Cluster := mkCluster (λ _, 5) (λ _, true).

(** A cluster whose count cannot be read. *)
Definition dead_cluster : Cluster := mkCluster (λ _, -1) (λ _, true).

(** A task whose launch returns [False]. *)
Definition refused_task (l : string) : Task :=
  mkTask l NEED_TO_RUN JOB_PENDING (λ _, Returns false) (Returns tt)
    (λ _, Returns tt) (λ _, Returns tt) (Returns NEED_TO_RUN).

(** A write-only launch of one task when the count cannot be read. *)
Definition writeonly_dead_run : result (list Task) * World :=
  launch_tasks sample_settings dead_cluster
    (sample_launcher 5 "xnat-cluster")
    [good_task "t1"] true None false world0.

(** A write-only launch of two tasks, the last of which is refused. *)
Definition writeonly_refused_run : result (list Task) * World :=
  launch_tasks sample_settings full_cluster
    (sample_launcher 5 "xnat-cluster")
    [good_task "t1"; refused_task "t2"] true None false world0.

(** A launch of two tasks on a cluster that is at the limit. *)
Definition full_queue_run : result (list Task) * World :=
  launch_tasks sample_settings full_cluster
    (sample_launcher 5 "xnat-cluster")
    [good_task "t1"; good_task "t2"] false None false world0.

(** A launch under limit 1 on the growing cluster, two launchable tasks,
    [writeonly] and [force_no_qsub] false. *)
Definition stale_count_run : result (list Task) * World :=
  launch_tasks sample_settings growing_cluster
    (sample_launcher 1 "xnat-cluster")
    [good_task "t1"; good_task "t2"] false None false world0.

(** A write-only launch of one task. *)
Definition writeonly_run : result (list Task) * World :=
  launch_tasks sample_settings full_cluster
    (sample_launcher 5 "xnat-cluster")
    [good_task "t1"] true None false world0.

(** An update of two tasks, the first of which raises. *)
Definition failing_update_run : result unit * World :=
  update_task_list (sample_launcher 5 "xnat-cluster") "flag"
    [failing_task "t1"; good_task "t2"] world0.

(** An assessor waiting to run, and the disk-queue step on it at each
    level. *)
Definition waiting_assr : AssrInfo := sample_assr NEED_TO_RUN JOB_PENDING.

Definition waiting_scan_step : result (option Task) * World :=
  scan_proc_step sample_build_task (sample_launcher 5 "diskq-xnat")
    (sample_cscan [waiting_assr]) (sample_proc 1) world0.

Definition waiting_session_step : result (option Task) * World :=
  session_proc_step sample_build_task (sample_launcher 5 "diskq-xnat")
    (sample_csess [waiting_assr]) (sample_proc 1) world0.

(** A store-direct step at session level on the task that cannot be
    written. *)
Definition stuck_session_step : result (option Task) * World :=
  session_proc_step sample_build_task (sample_launcher 5 "xnat-cluster")
    (sample_csess []) stuck_proc world0.

(** * The rest of the launcher *)

(** ** Durations: [str_to_timedelta] *)

(** [s[:-1]]: the string without its last character. *)
Fixpoint str_init (s : string) : string :=
  match s with
  | EmptyString => EmptyString
  | String c EmptyString => EmptyString
  | String c r => String c (str_init r)
  end.

Fixpoint str_last (s : string) : option ascii :=
  match s with
  | EmptyString => None
  | String c EmptyString => Some c
  | String _ r => str_last r
  end.

(** [s.endswith(c)] for a one-character string [c]. *)
Definition endswith_char (s : string) (c : ascii) : bool :=
  match str_last s with
  | Some x => Ascii.eqb x c
  | None => false
  end.

(** The constructor of [datetime.timedelta], in microseconds: Python
    normalises the duration to days, seconds and microseconds and raises
    [OverflowError] when the days exceed 999999999 in magnitude. *)
Definition timedelta (us : Z) : result Z :=
  if Z.abs (us / 86400000000) <=? 999999999 then Ok us
  else Raise (CollabError "OverflowError"
                "days; must have magnitude <= 999999999").

Definition invalid_timedelta : exn :=
  ValueError "invalid timedelta string value".

Section Durations.
(** The builtin [int(s)] on a string: the integer, or [None] where Python
    raises [ValueError]. *)
Variable py_int : string → option Z.

(** [str_to_timedelta(delta_str)].  The number is converted before the
    unit is looked at. *)
Definition str_to_timedelta (delta_str : string) : result Z :=
  if (String.length delta_str <=? 1)%nat then Raise invalid_timedelta
  else
    match py_int (str_init delta_str) with
    | None => Raise (ValueError "invalid literal for int() with base 10")
    | Some val =>
        if endswith_char delta_str "s" then timedelta (val * 1000000)
        else if endswith_char delta_str "m" then timedelta (val * 60000000)
        else if endswith_char delta_str "h" then timedelta (val * 3600000000)
        else if endswith_char delta_str "d" then timedelta (val * 86400000000)
        else Raise invalid_timedelta
    end.

(** The lines of [build_project] that set [lastmod_delta] from the
    [mod_delta] option. *)
Definition parse_mod_delta (mod_delta : option string) : result (option Z) :=
  match mod_delta with
  | Some s =>
      if truthy mod_delta then
        match str_to_timedelta s with
        | Ok d => Ok (Some d)
        | Raise e => Raise e
        end
      else Ok None
  | None => Ok None
  end.

End Durations.

(** ** The order of the projects: [get_project_list] *)

(** [get_project_list(all_projects)]: the priority projects, then the
    others in their order.  Without a priority list the membership test (or
    the concatenation) raises [TypeError]. *)
Definition get_project_list (self : Launcher) (all_projects : list string)
    : result (list string) :=
  match priority_project self with
  | Some priority =>
      let random_project :=
        List.filter (λ x, negb (str_in x priority)) all_projects in
      Ok (priority ++ random_project)%list
  | None => Raise (TypeError "argument of type 'NoneType' is not iterable")
  end.

(** ** The lock: [lock_flagfile] and [unlock_flagfile] *)

(** The files the launcher sees are a set of existing paths.  Whether a
    path that does not exist can be created, and whether an existing one
    can be removed (its directory is there, it is not a directory itself,
    the permissions allow it), is given by the disk. *)
Record Disk : Type := mkDisk {
  can_create : string → bool;
  can_remove : string → bool
}.

Definition lock_flagfile (disk : Disk) (lock_file : string)
    (files : gset string) : result bool * gset string :=
  if bool_decide (lock_file ∈ files) then (Ok false, files)
  else if can_create disk lock_file then (Ok true, {[lock_file]} ∪ files)
  else (Raise (CollabError "IOError" lock_file), files).

Definition unlock_flagfile (disk : Disk) (lock_file : string)
    (files : gset string) : result unit * gset string :=
  if bool_decide (lock_file ∈ files) then
    if can_remove disk lock_file then (Ok tt, files ∖ {[lock_file]})
    else (Raise (CollabError "OSError" lock_file), files)
  else (Ok tt, files).

(** ** The disk queue: [load_task_queue] *)

(** The index of the last occurrence of [c], as [s.rfind(c)]: -1 when
    there is none. *)
Fixpoint rfind_from (c : ascii) (s : string) (i : Z) (found : Z) : Z :=
  match s with
  | EmptyString => found
  | String x r => rfind_from c r (i + 1) (if Ascii.eqb x c then i else found)
  end.

Definition rfind (c : ascii) (s : string) : Z := rfind_from c s 0 (-1).

(** Whether some character of [s] at an index in [[lo, hi)] is not a dot:
    the [while] loop of [splitext]. *)
Fixpoint has_non_dot (s : string) (i lo hi : Z) : bool :=
  match s with
  | EmptyString => false
  | String x r =>
      ((lo <=? i) && (i <? hi) && negb (Ascii.eqb x "."))
      || has_non_dot r (i + 1) lo hi
  end.

(** [os.path.splitext(p)[0]]: the path without its extension.  The
    extension starts at the last dot of the last component, unless only
    dots come before it in that component. *)
Definition splitext_root (p : string) : string :=
  let sepIndex := rfind "/" p in
  let dotIndex := rfind "." p in
  if (sepIndex <? dotIndex) && has_non_dot p 0 (sepIndex + 1) dotIndex
  then str_take (Z.to_nat dotIndex) p
  else p.

(** [not status] for the [status] parameter: [None] and the empty string
    are false. *)
Definition status_falsy (status : option ProcStatus) : bool :=
  match status with
  | None => true
  | Some (OtherProc EmptyString) => true
  | Some _ => false
  end.

Section DiskQ.
(** The constructor [ClusterTask(name, results_dir, diskq_dir)] of
    [task.py], which stores its arguments. *)
Variable ClusterTask_new : string → string → string → Task.
Variable DAX_SETTINGS : DAX_Settings.

(** The loop of [load_task_queue] over the names [os.listdir] returned.
    [get_status()] is called for the debug line and, when a status is
    asked for, once more for the test; the status file is taken not to
    change between the two calls. *)
Fixpoint load_loop (status : option ProcStatus) (names : list string)
    (task_list : list Task) : M (list Task) :=
  match names with
  | [] => ret task_list
  | t :: rest =>
      log DEBUG "loading:%s" [t];;;
      let the_task :=
        ClusterTask_new (splitext_root t) (get_results_dir DAX_SETTINGS)
          (path_join (get_results_dir DAX_SETTINGS) "DISKQ") in
      st <- of_outcome (task_get_status the_task);;
      log DEBUG "status = %s" [show_proc st];;;
      selected <- (if status_falsy status then ret true
                   else st' <- of_outcome (task_get_status the_task);;
                        ret (bool_decide (Some st' = status)));;
      if selected then
        log DEBUG "adding task to list:%s" [t];;;
        load_loop status rest (task_list ++ [the_task])
      else load_loop status rest task_list
  end.

(** [load_task_queue(status)], given what [os.listdir] does on the BATCH
    directory: the names it returns, or its exception. *)
Definition load_task_queue (batch_listing : outcome (list string))
    (status : option ProcStatus) : M (list Task) :=
  names <- of_outcome batch_listing;;
  load_loop status names [].

End DiskQ.

(** ** The assessors of a project: [get_assessors_list] *)

(** What a method leaves with: a value, an exception, or [sys.exit(code)],
    which no [except Exception] catches. *)
Inductive ending (A : Type) : Type :=
| Done (a : A)
| Failed (e : exn)
| Exited (code : Z).
Arguments Done {A} a.
Arguments Failed {A} e.
Arguments Exited {A} code.

(** [get_assessors_list], from the list [list_project_assessors] returned:
    the result and whether the warning was logged. *)
Definition get_assessors_list (assr_list : list AssrInfo)
    (slocal : option string) : ending (list AssrInfo) * list Event :=
  match slocal with
  | Some sl =>
      if truthy slocal && negb (String.eqb (str_lower sl) "all") then
        let val := str_split "," sl in
        let kept :=
          List.filter (λ x, str_in (assr_session_label x) val) assr_list in
        if bool_decide (kept = []) then
          (Exited 1,
           [ELog WARN "No processes on XNAT matched the sessions given: %s ."
              [sl]])
        else (Done kept, [])
      else (Done assr_list, [])
  | None => (Done assr_list, [])
  end.

(** [is_updatable_tasks], the lists [OPEN_STATUS_LIST] and [OPEN_QA_LIST]
    of [task.py] being given. *)
Definition is_updatable_tasks (OPEN_STATUS_LIST : list ProcStatus)
    (OPEN_QA_LIST : list QcStatus) (assr_info : AssrInfo) : bool :=
  let good_proc := bool_decide (assr_procstatus assr_info ∈ OPEN_STATUS_LIST) in
  let good_qc := bool_decide (assr_qcstatus assr_info ∈ OPEN_QA_LIST) in
  good_proc || good_qc.

(** A parser of decimal digits, standing for [int] in the examples: it
    reads an optional minus sign and digits. *)
Fixpoint digits_value (s : string) (acc : Z) : option Z :=
  match s with
  | EmptyString => Some acc
  | String c r =>
      let n := Z.of_nat (nat_of_ascii c) in
      if (48 <=? n) && (n <=? 57) then digits_value r (acc * 10 + (n - 48))
      else None
  end.

Definition sample_int (s : string) : option Z :=
  match s with
  | EmptyString => None
  | String "-" EmptyString => None
  | String "-" r => (λ v, - v) <$> digits_value r 0
  | _ => digits_value s 0
  end.

(** The info of a session with another [last_updated]. *)
Definition with_last_updated (info : Info) (value : string) : Info :=
  mkInfo (label info) (session_label info) (project_label info)
    (subject_label info) (xsiType info) (scan_id info) (last_modified info)
    value.

(** The scale of a unit letter, in microseconds. *)
Definition unit_scale (c : ascii) : option Z :=
  if Ascii.eqb c "s" then Some 1000000
  else if Ascii.eqb c "m" then Some 60000000
  else if Ascii.eqb c "h" then Some 3600000000
  else if Ascii.eqb c "d" then Some 86400000000
  else None.

(** The exceptions [str_to_timedelta] can raise. *)
Definition is_ValueError_or_Overflow (e : exn) : Prop :=
  (∃ m, e = ValueError m) ∨ (∃ m, e = CollabError "OverflowError" m).

(** A disk on which every path can be created and removed. *)
Definition kind_disk : Disk := mkDisk (λ _, true) (λ _, true).

(** A launcher with a priority list. *)
Definition priority_launcher (priority : list string) : Launcher :=
  mkLauncher 5 "/tmp/jobs" ∅ ∅ (Some priority) None "bae" 7 "xnat-cluster"
    false "http://xnat" "user" "secret".

(** A launcher that does not track the last update. *)
Definition untracked_launcher : Launcher :=
  mkLauncher 5 "/tmp/jobs" ∅ ∅ None None "bae" 7 "xnat-cluster" true
    "http://xnat" "user" "secret".

(** The task [load_task_queue] makes of a name of the BATCH directory. *)
Definition batch_task (ClusterTask_new : string → string → string → Task)
    (DAX_SETTINGS : DAX_Settings) (t : string) : Task :=
  ClusterTask_new (splitext_root t) (get_results_dir DAX_SETTINGS)
    (path_join (get_results_dir DAX_SETTINGS) "DISKQ").

(** The test of [load_task_queue] on a task whose status can be read. *)
Definition status_selected (status : option ProcStatus) (t : Task) : bool :=
  status_falsy status
  || match task_get_status t with
     | Returns st => bool_decide (Some st = status)
     | Throws _ => false
     end.

(** The status of the task can be read. *)
Definition status_readable (t : Task) : Prop :=
  ∃ st, task_get_status t = Returns st.

Definition is_debug (e : Event) : Prop :=
  ∃ fmt args, e = ELog DEBUG fmt args.

(** A cluster task constructor for the examples: the status is read off
    the first letter of the name. *)
Definition sample_ClusterTask (n results_dir diskq_dir : string) : Task :=
  mkTask n (if startswith n "r" then NEED_TO_RUN else COMPLETE) JOB_PENDING
    (λ _, Returns true) (Returns tt) (λ _, Returns tt) (λ _, Returns tt)
    (if String.eqb n "lost" then Throws (CollabError "IOError" n)
     else Returns (if startswith n "r" then NEED_TO_RUN else COMPLETE)).

(** Whether the character occurs in the string. *)
Fixpoint str_has (c : ascii) (s : string) : bool :=
  match s with
  | EmptyString => false
  | String x r => Ascii.eqb x c || str_has c r
  end.

(** The labels a session filter selects, when the filter applies: [slocal]
    is a non-empty string other than 'all' in any case. *)
Definition selected_labels (slocal : option string) : option (list string) :=
  match slocal with
  | Some sl =>
      if truthy slocal && negb (String.eqb (str_lower sl) "all")
      then Some (str_split "," sl) else None
  | None => None
  end.

(** The launch of the task does not return [True]: it returns [False] or
    raises. *)
Definition launch_fails (t : Task) : Prop :=
  ∀ c, task_launch t c ≠ Returns true.

(** A task whose launch raises. *)
Definition crashing_task (l : string) : Task :=
  mkTask l NEED_TO_RUN JOB_PENDING
    (λ _, Throws (CollabError "OSError" "qsub not found")) (Returns tt)
    (λ _, Returns tt) (λ _, Returns tt) (Returns NEED_TO_RUN).

(** A cluster whose count is read once and then fails. *)
Definition fading_cluster : Cluster :=
  mkCluster (λ n, match n with O => 0 | _ => -1 end) (λ _, true).

(** An environment with a host and a login for it. *)
Definition sample_env : Env :=
  mkEnv (Some "http://xnat") (λ _, ("user", "secret")).

(** Arguments that name project P1 with processors only and project P2
    with modules only. *)
Definition lopsided_args : InitArgs :=
  mkInitArgs {["P1" := [sample_proc 1]]} {["P2" := [mkModule "mod"]]} None 5
    "/tmp/jobs" None None None None "bae" 7 "xnat-cluster" (Some "Yes").

(** ** The phases: locks, connections and exits *)

(** Calls to collaborators that the phases make besides the events of the
    launch and of the build. *)
Inductive Call : Type :=
| CUploadDate (project_list : list string) (type_update start_end : Z)
                                    (* bin.upload_update_date_redcap *)
| CConnect (host user : string)     (* entering XnatUtils.get_interface *)
| CDisconnect                       (* leaving the [with] block *)
| CBuildProject (project_id : string)               (* self.build_project *)
| CBuildSession (session_label : string)            (* self.build_session *)
| CCachedSession (session_label : string)   (* XnatUtils.CachedImageSession *)
| CReload (session_label : string)                  (* csess.reload() *)
| CPrerun (module settings_filename : string)       (* mod.prerun *)
| CAfterrun (module project_id : string)            (* mod.afterrun *)
| CNeedsRun (module obj_label : string)             (* mod.needs_run *)
| CRun (module obj_label : string)                  (* mod.run *)
| CFullObject (obj_label : string)   (* csess.full_object(), get_full_object *)
| CAttrGet (path : string)                          (* attrs.get *)
| CAttrSet (path value : string).                   (* attrs.set *)

Inductive Step : Type :=
| Ev (e : Event)
| Ca (c : Call).

(** The state of a phase: the reads of the cluster count so far, the
    flag files that exist (the files [lock_flagfile] and [unlock_flagfile]
    test, write and remove; the job files the tasks write are not part of
    the state), and what happened so far, oldest first. *)
Record Sys : Type := mkSys {
  sys_reads : nat;
  sys_files : gset string;
  sys_history : list Step
}.

Definition P (A : Type) : Type := Sys → ending A * Sys.

Definition pret {A} (a : A) : P A := λ s, (Done a, s).

Definition pbind {A B} (m : P A) (k : A → P B) : P B :=
  λ s, match m s with
       | (Done a, s') => k a s'
       | (Failed e, s') => (Failed e, s')
       | (Exited c, s') => (Exited c, s')
       end.

Definition praise {A} (e : exn) : P A := λ s, (Failed e, s).

(** [exit(code)]: raises [SystemExit]. *)
Definition pexit {A} (code : Z) : P A := λ s, (Exited code, s).

(** [try: m  except Exception as E: h E]; a [SystemExit] is not caught. *)
Definition ptry {A} (m : P A) (h : exn → P A) : P A :=
  λ s, match m s with
       | (Failed e, s') => h e s'
       | other => other
       end.

Definition record (x : Step) : P unit :=
  λ s, (Done tt, mkSys (sys_reads s) (sys_files s) (sys_history s ++ [x])).

Definition plog (lvl : level) (fmt : string) (args : list string) : P unit :=
  record (Ev (ELog lvl fmt args)).

(** Calling a collaborator whose behaviour is given as an [outcome]. *)
Definition pcall {A} (c : Call) (o : outcome A) : P A :=
  λ s, let s' := mkSys (sys_reads s) (sys_files s) (sys_history s ++ [Ca c]) in
       match o with
       | Returns a => (Done a, s')
       | Throws x => (Failed x, s')
       end.

(** Running a computation of the launch or of the build inside a phase:
    it sees the count of reads, and its events join the history. *)
Definition lift {A} (m : M A) : P A :=
  λ s, match m (mkWorld (sys_reads s) []) with
       | (r, w) =>
           (match r with Ok a => Done a | Raise e => Failed e end,
            mkSys (reads w) (sys_files s)
              (sys_history s ++ List.map Ev (trace w)))
       end.

(** [with XnatUtils.get_interface(...) as xnat: body]: the connection is
    closed however the body ends. *)
Definition with_interface {A} (host user : string) (body : P A) : P A :=
  λ s, match pbind (record (Ca (CConnect host user))) (λ _, body) s with
       | (r, s') =>
           (r, mkSys (sys_reads s') (sys_files s')
                 (sys_history s' ++ [Ca CDisconnect]))
       end.

Notation "x <-- m ;; k" := (pbind m (λ x, k))
  (at level 100, m at next level, right associativity) : py_scope.
Notation "m ;;> k" := (pbind m (λ _, k))
  (at level 100, right associativity) : py_scope.

Definition BUILD_SUFFIX : string := "BUILD_RUNNING.txt".
Definition UPDATE_SUFFIX : string := "UPDATE_RUNNING.txt".
Definition LAUNCH_SUFFIX : string := "LAUNCHER_RUNNING.txt".

Definition newline : string := String "010" EmptyString.

Section Phases.
Variable DAX_SETTINGS : DAX_Settings.
Variable cluster : Cluster.
Variable disk : Disk.
(** The order in which Python lists the elements of a set or the keys of a
    dictionary. *)
Variable keys_of : gset string → list string.
(** [processors.processors_by_type]: the session-level and the scan-level
    processors of a list. *)
Variable processors_by_type : list Processor → list Processor * list Processor.
(** The store: [XnatUtils.list_project_assessors] and
    [XnatUtils.has_dax_datatypes]. *)
Variable list_project_assessors : string → list AssrInfo.
Variable has_dax_datatypes : bool.
(** The constructors of [task.py] and the listing of the BATCH
    directory. *)
Variable Task_new : Processor → AssrInfo → string → Task.
Variable ClusterTask_new : string → string → string → Task.
Variable batch_listing : outcome (list string).
Variable OPEN_STATUS_LIST : list ProcStatus.
Variable OPEN_QA_LIST : list QcStatus.
(** [bin.upload_update_date_redcap(project_list, type_update, start_end)] *)
Variable upload_update_date_redcap : list string → Z → Z → outcome unit.

(** [self.lock_flagfile] and [self.unlock_flagfile] on the files of the
    state. *)
Definition lock (flagfile : string) : P bool :=
  λ s, match lock_flagfile disk flagfile (sys_files s) with
       | (r, files) =>
           (match r with Ok b => Done b | Raise e => Failed e end,
            mkSys (sys_reads s) files (sys_history s))
       end.

Definition unlock (flagfile : string) : P unit :=
  λ s, match unlock_flagfile disk flagfile (sys_files s) with
       | (r, files) =>
           (match r with Ok b => Done b | Raise e => Failed e end,
            mkSys (sys_reads s) files (sys_history s))
       end.

(** [sorted(set(a.keys() + b.keys()))] *)
Definition all_projects_sorted (self : Launcher) : list string :=
  merge_sort String.le
    (keys_of (dom (project_process_dict self)
              ∪ dom (project_modules_dict self))).

(** [init_script(flagfile, project_local, type_update, start_end)] *)
Definition init_script (self : Launcher) (flagfile : string)
    (project_local : option string) (type_update start_end : Z)
    : P (list string) :=
  let locked :=
    success <-- lock flagfile;;
    if negb success then
      plog WARN "failed to get lock. Already running." [];;>
      pexit 1
    else
      let project_list := all_projects_sorted self in
      pcall (CUploadDate project_list type_update start_end)
        (upload_update_date_redcap project_list type_update start_end);;>
      pret project_list in
  match project_local with
  | Some pl =>
      if truthy project_local then
        if str_has "," pl then
          plog ERROR
            "too much projects ID given to the option--project : {proj}. Only for one project."
            [pl];;>
          pexit 1
        else if bool_decide (pl ∈ dom (project_process_dict self)) then
          pret [pl]
        else
          plog ERROR
            "failed to run locally on project {proj}.The project is not part of the settings."
            [pl];;>
          pexit 1
      else locked
  | None => locked
  end.

(** [finish_script(flagfile, project_list, type_update, start_end,
    project_local)] *)
Definition finish_script (flagfile : string) (project_list : list string)
    (type_update start_end : Z) (project_local : option string) : P unit :=
  if negb (truthy project_local) then
    unlock flagfile;;>
    pcall (CUploadDate project_list type_update start_end)
      (upload_update_date_redcap project_list type_update start_end)
  else pret tt.

(** The method [get_project_tasks(xnat, project_id, sessions_local,
    is_valid_assessor)], around its loop. *)
Definition project_tasks (self : Launcher) (project_id : string)
    (sessions_local : option string) (is_valid_assessor : AssrInfo → bool)
    : P (list Task) :=
  match project_process_dict self !! project_id with
  | None => praise (KeyError project_id)
  | Some pp_dict =>
      let '(sess_procs, scan_procs) := processors_by_type pp_dict in
      match get_assessors_list (list_project_assessors project_id)
              sessions_local with
      | (Done assr_list, _) =>
          lift (get_project_tasks DAX_SETTINGS Task_new is_valid_assessor
                  sess_procs scan_procs assr_list)
      | (Failed e, _) => praise e
      | (Exited code, evs) =>
          (λ s, (Exited code,
                 mkSys (sys_reads s) (sys_files s)
                   (sys_history s ++ List.map Ev evs)))
      end
  end.

(** The loop of [get_tasks] over the projects. *)
Fixpoint get_tasks_loop (self : Launcher) (is_valid_assessor : AssrInfo → bool)
    (project_list : list string) (sessions_local : option string)
    (task_list : list Task) : P (list Task) :=
  match project_list with
  | [] => pret task_list
  | project_id :: rest =>
      plog INFO "===== PROJECT:%s =====" [project_id];;>
      ts <-- project_tasks self project_id sessions_local is_valid_assessor;;
      get_tasks_loop self is_valid_assessor rest sessions_local
        (task_list ++ ts)
  end.

(** [self.priority_project] as a condition: a list that is not empty. *)
Definition has_priority (self : Launcher) : bool :=
  match priority_project self with
  | Some (_ :: _) => true
  | _ => false
  end.

(** [get_tasks(xnat, is_valid_assessor, project_list, sessions_local)] *)
Definition get_tasks (self : Launcher) (is_valid_assessor : AssrInfo → bool)
    (project_list : list string) (sessions_local : option string)
    : P (list Task) :=
  projects <--
    (match project_list with
     | [] =>
         if has_priority self then
           match get_project_list self
                   (keys_of (dom (project_process_dict self))) with
           | Ok l => pret l
           | Raise e => praise e
           end
         else pret (keys_of (dom (project_process_dict self)))
     | _ => pret project_list
     end);;
  get_tasks_loop self is_valid_assessor projects sessions_local [].

Definition flagfile_of (lockfile_prefix suffix : string) : string :=
  path_join (path_join (get_results_dir DAX_SETTINGS) "FlagFiles")
    (lockfile_prefix ++ "_" ++ suffix).

(** [launch_jobs(lockfile_prefix, project_local, sessions_local,
    writeonly, pbsdir, force_no_qsub)].  The disk-queue branch calls
    [launch_tasks] without [writeonly] and [pbsdir]. *)
Definition launch_jobs (self : Launcher) (lockfile_prefix : string)
    (project_local sessions_local : option string) (writeonly : bool)
    (pbsdir : option string) (force_no_qsub : bool) : P unit :=
  if String.eqb (launcher_type self) "diskq-xnat" then
    praise (DaxLauncherError
              ("cannot launch jobs with this launcher type: "
               ++ launcher_type self))
  else
    plog INFO ("-------------- Launch Tasks --------------" ++ newline) [];;>
    plog INFO "launcher_type = %s" [launcher_type self];;>
    let res_dir := get_results_dir DAX_SETTINGS in
    let flagfile := flagfile_of lockfile_prefix LAUNCH_SUFFIX in
    project_list <-- init_script self flagfile project_local 3 1;;
    (if str_in (launcher_type self) diskq_cluster_types then
       plog INFO "Loading task queue from: %s" [path_join res_dir "DISKQ"];;>
       task_list <-- lift (load_task_queue ClusterTask_new DAX_SETTINGS
                             batch_listing (Some NEED_TO_RUN));;
       plog INFO "%s tasks that need to be launched found"
         [pretty (Z.of_nat (length task_list))];;>
       lift (launch_tasks DAX_SETTINGS cluster self task_list false None
               force_no_qsub);;>
       pret tt
     else
       plog INFO "Connecting to XNAT at %s" [xnat_host self];;>
       with_interface (xnat_host self) (xnat_user self)
         (if negb has_dax_datatypes then
            praise (DaxXnatError
                      ("dax datatypes are not installed on xnat <"
                       ++ xnat_host self ++ ">"))
          else
            plog INFO "Getting launchable tasks list..." [];;>
            task_list <-- get_tasks self is_launchable_tasks project_list
                            sessions_local;;
            plog INFO "%s tasks that need to be launched found"
              [pretty (Z.of_nat (length task_list))];;>
            lift (launch_tasks DAX_SETTINGS cluster self task_list writeonly
                    pbsdir force_no_qsub);;>
            pret tt));;>
    finish_script flagfile project_list 3 2 project_local.

(** [update_tasks(lockfile_prefix, project_local, sessions_local)] *)
Definition update_tasks (self : Launcher) (lockfile_prefix : string)
    (project_local sessions_local : option string) : P unit :=
  if String.eqb (launcher_type self) "diskq-xnat" then
    praise (DaxLauncherError
              ("cannot update jobs with this launcher type: "
               ++ launcher_type self))
  else
    plog INFO ("-------------- Update Tasks --------------" ++ newline) [];;>
    plog INFO "launcher_type = %s" [launcher_type self];;>
    let res_dir := get_results_dir DAX_SETTINGS in
    let flagfile := flagfile_of lockfile_prefix UPDATE_SUFFIX in
    project_list <-- init_script self flagfile project_local 2 1;;
    (if str_in (launcher_type self) diskq_cluster_types then
       plog INFO "Loading task queue from: %s" [path_join res_dir "DISKQ"];;>
       task_list <-- lift (load_task_queue ClusterTask_new DAX_SETTINGS
                             batch_listing None);;
       plog INFO "%s tasks found." [pretty (Z.of_nat (length task_list))];;>
       plog INFO "Updating tasks..." [];;>
       lift (update_loop "Updating task: %s" task_list)
     else
       plog INFO "Connecting to XNAT at %s" [xnat_host self];;>
       with_interface (xnat_host self) (xnat_user self)
         (if negb has_dax_datatypes then
            praise (DaxXnatError
                      ("error: dax datatypes are not installed on xnat <"
                       ++ xnat_host self ++ ">"))
          else
            plog INFO "Getting task list..." [];;>
            task_list <-- get_tasks self
                            (is_updatable_tasks OPEN_STATUS_LIST OPEN_QA_LIST)
                            project_list sessions_local;;
            plog INFO "%s open tasks found"
              [pretty (Z.of_nat (length task_list))];;>
            plog INFO "Updating tasks..." [];;>
            lift (update_loop "     Updating task: %s" task_list)));;>
    finish_script flagfile project_list 2 2 project_local.

(** The loop of [build] over the projects: each [build_project] in its own
    [try]. *)
Fixpoint build_loop (build_project : string → P unit)
    (project_list : list string) : P unit :=
  match project_list with
  | [] => pret tt
  | project_id :: rest =>
      plog INFO "===== PROJECT: %s =====" [project_id];;>
      ptry (record (Ca (CBuildProject project_id));;>
            build_project project_id)
        (λ E,
           plog CRITICAL "Caught exception building project %s" [project_id];;>
           plog CRITICAL "Exception class %s caught with message %s"
             [exn_class E; exn_message E]);;>
      build_loop build_project rest
  end.

(** [build(lockfile_prefix, project_local, sessions_local, mod_delta)],
    for any behaviour [build_project] of the method of that name on a
    project. *)
Definition build (build_project : string → P unit) (self : Launcher)
    (lockfile_prefix : string) (project_local : option string)
    (mod_delta : option string) : P unit :=
  if String.eqb (launcher_type self) "diskq-cluster" then
    praise (DaxLauncherError
              ("cannot build jobs with this launcher type: "
               ++ launcher_type self))
  else
    plog INFO ("-------------- Build --------------" ++ newline) [];;>
    plog INFO "launcher_type = %s" [launcher_type self];;>
    plog INFO "mod delta = %s" [default "None" mod_delta];;>
    let flagfile := flagfile_of lockfile_prefix BUILD_SUFFIX in
    project_list0 <-- init_script self flagfile project_local 1 1;;
    plog INFO "Connecting to XNAT at %s" [xnat_host self];;>
    project_list <--
      with_interface (xnat_host self) (xnat_user self)
        (if negb has_dax_datatypes then
           praise (DaxXnatError
                     ("error: dax datatypes are not installed on xnat <"
                      ++ xnat_host self ++ ">"))
         else
           (* the priority order replaces the project list *)
           project_list <--
             (if has_priority self && negb (truthy project_local) then
                match get_project_list self
                        (keys_of (dom (project_process_dict self)
                                  ∪ dom (project_modules_dict self))) with
                | Ok l => pret l
                | Raise e => praise e
                end
              else pret project_list0);;
           build_loop build_project project_list;;>
           pret project_list);;
    finish_script flagfile project_list 1 2 project_local.

End Phases.

(** A computation that creates and removes no file. *)
Definition keeps_files {A} (m : P A) : Prop :=
  ∀ s r s', m s = (r, s') → sys_files s' = sys_files s.

(** The state with other flag files. *)
Definition with_files (F : gset string) (s : Sys) : Sys :=
  mkSys (sys_reads s) F (sys_history s).

(** A computation that neither looks at the flag files nor changes them:
    whatever flag files exist, it ends the same way with the same history
    and leaves them as they are. *)
Definition ignores_files {A} (m : P A) : Prop :=
  ∀ s F, m (with_files F s) = (fst (m s), with_files F (snd (m s))).

(** A computation that does not read the count of the cluster. *)
Definition keeps_reads {A} (m : P A) : Prop :=
  ∀ s r s', m s = (r, s') → sys_reads s' = sys_reads s.



(** The tasks submitted in a phase, in order. *)
Fixpoint phase_launches (h : list Step) : list string :=
  match h with
  | [] => []
  | Ev (ELaunch l _) :: r => l :: phase_launches r
  | _ :: r => phase_launches r
  end.


(** Collaborators for the examples. *)
Definition sample_by_type (l : list Processor) : list Processor * list Processor :=
  (l, []).

Definition sample_store (project_id : string) : list AssrInfo :=
  [sample_assr NEED_TO_RUN JOB_PENDING].

Definition sample_keys (X : gset string) : list string := elements X.

(** A launcher for projects P1 and P2. *)
Definition two_project_launcher (ltype : string) : Launcher :=
  mkLauncher 5 "/tmp/jobs"
    {["P1" := [sample_proc 1]; "P2" := []]}
    {["P1" := []; "P2" := [mkModule "mod"]]}
    None None "bae" 7 ltype false "http://xnat" "user" "secret".

Definition sys0 : Sys := mkSys 0 ∅ [].

(** A [build_project] that fails on P1 and returns on the others. *)
Definition sample_build_project (p : string) : P unit :=
  if String.eqb p "P1" then praise (ValueError "invalid timedelta string value")
  else pret tt.


(** An upload of the dates that returns, and one that fails at the end of
    a phase. *)
Definition sample_upload (project_list : list string)
    (type_update start_end : Z) : outcome unit := Returns tt.

Definition failing_last_upload (project_list : list string)
    (type_update start_end : Z) : outcome unit :=
  if start_end =? 2 then Throws (CollabError "IOError" "redcap unreachable")
  else Returns tt.

(** The phases on the sample collaborators, for the sweep "a". *)
Definition sample_launch_jobs (ltype : string) (project_local : option string)
    (writeonly : bool) (s : Sys) : ending unit * Sys :=
  launch_jobs sample_settings growing_cluster kind_disk sample_keys
    sample_by_type sample_store true sample_Task_new sample_ClusterTask
    (Returns ["run1.pbs"]) sample_upload (two_project_launcher ltype) "a"
    project_local None writeonly None false s.

Definition sample_update_tasks (ltype : string) (project_local : option string)
    (s : Sys) : ending unit * Sys :=
  update_tasks sample_settings kind_disk sample_keys sample_by_type
    sample_store true sample_Task_new sample_ClusterTask
    (Returns ["run1.pbs"]) [JOB_RUNNING] [] sample_upload
    (two_project_launcher ltype) "a" project_local None s.


(** A state in which the launch marker of sweep "a" exists. *)
Definition sys_locked : Sys :=
  mkSys 0 {[flagfile_of sample_settings "a" LAUNCH_SUFFIX]} [].

(** ** Modules *)

Section Modules.
(** What the methods of a module do when called: [prerun], [afterrun],
    [needs_run] on a session or a scan, [run]. *)
Variable mod_prerun : DaxModule → string → outcome unit.
Variable mod_afterrun : DaxModule → string → outcome unit.
Variable mod_needs_run : DaxModule → CachedObj → outcome bool.
Variable mod_run : DaxModule → CachedObj → outcome unit.

(** The two log lines of an [except] block. *)
Definition log_caught (err1 : string) (arg : string) (E : exn) : P unit :=
  plog CRITICAL err1 [arg];;>
  plog CRITICAL "Exception class %s caught with message %s"
    [exn_class E; exn_message E].

Fixpoint prerun_loop (project_id settings_filename : string)
    (mods : list DaxModule) : P unit :=
  match mods with
  | [] => pret tt
  | md :: rest =>
      ptry (pcall (CPrerun (getname md) settings_filename)
              (mod_prerun md settings_filename))
        (log_caught "Caught exception in module prerun for project %s"
           project_id);;>
      prerun_loop project_id settings_filename rest
  end.

(** [module_prerun(project_id, settings_filename)] *)
Definition module_prerun (self : Launcher) (project_id : string)
    (settings_filename : string) : P unit :=
  match project_modules_dict self !! project_id with
  | None => praise (KeyError project_id)
  | Some mods =>
      prerun_loop project_id settings_filename mods;;>
      plog DEBUG newline []
  end.

Fixpoint afterrun_loop (project_id : string) (mods : list DaxModule)
    : P unit :=
  match mods with
  | [] => pret tt
  | md :: rest =>
      ptry (pcall (CAfterrun (getname md) project_id)
              (mod_afterrun md project_id))
        (log_caught "Caught exception in module prerun for project %s"
           project_id);;>
      afterrun_loop project_id rest
  end.

(** [module_afterrun(xnat, project_id)] *)
Definition module_afterrun (self : Launcher) (project_id : string) : P unit :=
  match project_modules_dict self !! project_id with
  | None => praise (KeyError project_id)
  | Some mods =>
      afterrun_loop project_id mods;;>
      plog DEBUG newline []
  end.

(** The label of a cached session or scan. *)
Definition obj_label (cobj : CachedObj) : string :=
  match cobj with
  | OfSession csess => label (csess_info csess)
  | OfScan cscan => label (cscan_info cscan)
  end.

Definition obj_session_label (cobj : CachedObj) : string :=
  match cobj with
  | OfSession csess => session_label (csess_info csess)
  | OfScan cscan => session_label (cscan_info cscan)
  end.

(** The loop of [build_session_modules] and of [build_scan_modules]:
    [fetched] tells whether the full object was fetched by an earlier
    turn.  [needs_run] is called outside the [try]. *)
Fixpoint modules_loop (err1 : string) (cobj : CachedObj) (fetched : bool)
    (mods : list DaxModule) : P unit :=
  match mods with
  | [] => pret tt
  | md :: rest =>
      plog DEBUG "* Module: %s" [getname md];;>
      needed <-- pcall (CNeedsRun (getname md) (obj_label cobj))
                   (mod_needs_run md cobj);;
      if needed then
        (if fetched then pret tt else record (Ca (CFullObject (obj_label cobj))));;>
        ptry (pcall (CRun (getname md) (obj_label cobj)) (mod_run md cobj))
          (log_caught err1 (obj_session_label cobj));;>
        modules_loop err1 cobj true rest
      else modules_loop err1 cobj fetched rest
  end.

Definition build_session_modules (csess : CachedImageSession)
    (sess_mod_list : list DaxModule) : P unit :=
  modules_loop "Caught exception building session module %s"
    (OfSession csess) false sess_mod_list.

Definition build_scan_modules (cscan : CachedImageScan)
    (scan_mod_list : list DaxModule) : P unit :=
  modules_loop
    "Caught exception building session scan module in session %s"
    (OfScan cscan) false scan_mod_list.

End Modules.

(** The modules whose [prerun], [afterrun], [needs_run] and [run] were
    called, in order, and the number of full objects fetched. *)
Fixpoint preruns (h : list Step) : list string :=
  match h with
  | [] => []
  | Ca (CPrerun m _) :: r => m :: preruns r
  | _ :: r => preruns r
  end.

Fixpoint afterruns (h : list Step) : list string :=
  match h with
  | [] => []
  | Ca (CAfterrun m _) :: r => m :: afterruns r
  | _ :: r => afterruns r
  end.

Fixpoint asked (h : list Step) : list string :=
  match h with
  | [] => []
  | Ca (CNeedsRun m _) :: r => m :: asked r
  | _ :: r => asked r
  end.

Fixpoint runs (h : list Step) : list string :=
  match h with
  | [] => []
  | Ca (CRun m _) :: r => m :: runs r
  | _ :: r => runs r
  end.

Fixpoint fetches (h : list Step) : nat :=
  match h with
  | [] => O
  | Ca (CFullObject _) :: r => S (fetches r)
  | _ :: r => fetches r
  end.


(** ** The marker of a session: [set_session_lastupdated] *)

Section Marker.
Variable strptime : string → string → option Z.
(** [t.strftime(fmt)] *)
Variable strftime : Z → string → string.

(** [set_session_lastupdated(xnat, sess_info, update_start_time)], given
    what the store answers for the last-modified attribute, what
    [datetime.now()] returns, and what writing the attribute does. *)
Definition set_session_lastupdated (last_modified_xnat : string) (now : Z)
    (write : outcome unit) (sess_info : Info) (update_start_time : Z)
    : P bool :=
  let xsi_type := xsiType sess_info in
  record (Ca (CFullObject (label sess_info)));;>
  record (Ca (CAttrGet (xsi_type ++ "/meta/last_modified")));;>
  match strptime (str_take 19 last_modified_xnat) "%Y-%m-%d %H:%M:%S" with
  | None => praise (ValueError "time data does not match format")
  | Some last_mod =>
      if update_start_time <? last_mod then pret false
      else
        let update_str := strftime (now + 60000000) UPDATE_FORMAT in
        plog DEBUG "setting last_updated for: %s to %s"
          [label sess_info; update_str];;>
        ptry (pcall (CAttrSet (xsi_type ++ "/original")
                       (UPDATE_PREFIX ++ update_str)) write)
          (log_caught
             "Caught exception setting update timestamp for session %s"
             (session_label sess_info));;>
        pret true
  end.

End Marker.

(** The values written to the store, in order. *)
Fixpoint writes (h : list Step) : list (string * string) :=
  match h with
  | [] => []
  | Ca (CAttrSet p v) :: r => (p, v) :: writes r
  | _ :: r => writes r
  end.

(** A formatter for the examples: it knows the second that starts
    2020-01-03 and, as the format has no microseconds, gives the same text
    for every time within it. *)
Definition sample_strftime (t : Z) (fmt : string) : string :=
  if (172800000000 <=? t) && (t <? 172801000000)
  then "2020-01-03 00:00:00" else "1970-01-01 00:00:00".



Definition sample_prerun (m : DaxModule) (f : string) : outcome unit :=
  if String.eqb (getname m) "bad"
  then Throws (CollabError "IOError" "disk full") else Returns tt.

(** ** The loop of [build_project] over the sessions *)

Section Sessions.
Variable strptime : string → string → option Z.
Variable strftime : Z → string → string.
(** What [datetime.today()] and [datetime.now()] return in the [i]th turn
    of the loop: at the head of the turn, before [build_session], and
    inside [set_session_lastupdated]. *)
Variable today_at : nat → Z.
Variable start_at : nat → Z.
Variable stamp_at : nat → Z.
(** What the store answers for the last-modified attribute of a session,
    and what writing its marker does. *)
Variable store_last_modified : Info → string.
Variable store_write : Info → outcome unit.
(** The method [build_session], for any behaviour. *)
Variable build_session :
  Info → list Processor → list Processor → list DaxModule → list DaxModule →
  P unit.

(** [for sess_info in sessions: ...] in [build_project]; [i] counts the
    turns. *)
Fixpoint sessions_loop (self : Launcher) (has_new : bool)
    (sessions_local : option string) (lastmod_delta : option Z)
    (exp_procs scan_procs : list Processor)
    (exp_mods scan_mods : list DaxModule) (i : nat) (sessions : list Info)
    : P unit :=
  match sessions with
  | [] => pret tt
  | sess_info :: rest =>
      skipped <-- lift (session_skipped strptime self has_new sessions_local
                          lastmod_delta (today_at i) sess_info);;
      (if skipped then pret tt
       else
         plog INFO "  + Session %s: building..." [label sess_info];;>
         ptry (record (Ca (CBuildSession (label sess_info)));;>
               build_session sess_info exp_procs scan_procs exp_mods scan_mods)
           (log_caught "Caught exception building sessions %s"
              (session_label sess_info));;>
         ptry (if negb (skip_lastupdate self) then
                 _ <-- set_session_lastupdated strptime strftime
                         (store_last_modified sess_info) (stamp_at i)
                         (store_write sess_info) sess_info (start_at i);;
                 pret tt
               else pret tt)
           (log_caught "Caught exception setting session timestamp %s"
              (session_label sess_info)));;>
      sessions_loop self has_new sessions_local lastmod_delta exp_procs
        scan_procs exp_mods scan_mods (S i) rest
  end.

End Sessions.

(** The sessions handed to [build_session], in order. *)
Fixpoint sessions_built (h : list Step) : list string :=
  match h with
  | [] => []
  | Ca (CBuildSession l) :: r => l :: sessions_built r
  | _ :: r => sessions_built r
  end.

(** A [build_session] that keeps to its own work: it does not leave the
    process, and neither builds another session nor writes a marker. *)
Definition plain_build_session
    (build_session : Info → list Processor → list Processor →
                     list DaxModule → list DaxModule → P unit) : Prop :=
  ∀ i ep sp em sm s r s', build_session i ep sp em sm s = (r, s') →
    (∀ code, r ≠ Exited code)
    ∧ sessions_built (sys_history s') = sessions_built (sys_history s)
    ∧ writes (sys_history s') = writes (sys_history s).

(** For the examples: the build of session "bad" raises; a needs_run that
    raises for module "bad". *)
Definition sample_build_session (i : Info) (ep sp : list Processor)
    (em sm : list DaxModule) : P unit :=
  if String.eqb (label i) "bad"
  then praise (CollabError "IOError" "store unreachable") else pret tt.


(** ** A session: [build_session] *)

Section BuildSession.
Variable strptime : string → string → option Z.
Variable mod_needs_run : DaxModule → CachedObj → outcome bool.
Variable mod_run : DaxModule → CachedObj → outcome unit.
Variable xtask_build_task : Processor → CachedObj → ProcStatus * QcStatus.
(** The cached session as constructed (0) and after each [reload()]. *)
Variable csess_after : nat → CachedImageSession.
(** What [datetime.now()] returns at the start of the pass numbered
    [mod_count], and what the store answers for the last-modified
    attribute after it. *)
Variable pass_start : nat → Z.
Variable store_last_modified_after : nat → string.

(** [csess.scans()] *)
Definition scans (csess : CachedImageSession) : list CachedImageScan :=
  List.map (λ i, mkCScan i csess) (csess_scans csess).

(** [get_sess_lastmod(xnat, sess_info)], given the store's answer. *)
Definition get_sess_lastmod (last_modified_xnat : string) (sess_info : Info)
    : P Z :=
  let xsi_type := xsiType sess_info in
  record (Ca (CFullObject (label sess_info)));;>
  record (Ca (CAttrGet (xsi_type ++ "/meta/last_modified")));;>
  match strptime (str_take 19 last_modified_xnat) "%Y-%m-%d %H:%M:%S" with
  | None => praise (ValueError "time data does not match format")
  | Some last_mod => pret last_mod
  end.

(** [sess_was_modified(xnat, sess_info, build_start_time)] *)
Definition sess_was_modified (last_modified_xnat : string) (sess_info : Info)
    (build_start_time : Z) : P bool :=
  last_mod <-- get_sess_lastmod last_modified_xnat sess_info;;
  pret (build_start_time <? last_mod).

(** [for cscan in csess.scans(): ... self.build_scan_modules(...)] *)
Fixpoint scan_modules_loop (cscans : list CachedImageScan)
    (scan_mod_list : list DaxModule) : P unit :=
  match cscans with
  | [] => pret tt
  | cscan :: rest =>
      plog DEBUG "+SCAN: %s" [scan_id (cscan_info cscan)];;>
      build_scan_modules mod_needs_run mod_run cscan scan_mod_list;;>
      scan_modules_loop rest scan_mod_list
  end.

(** [while mod_count < 3: ...], run with [fuel = 3 - mod_count]; the
    result is the value of [mod_count] when the loop is left. *)
Fixpoint modules_passes (sess_info : Info)
    (sess_mod_list scan_mod_list : list DaxModule) (fuel mod_count : nat)
    : P nat :=
  match fuel with
  | O => pret mod_count
  | S fuel' =>
      plog DEBUG "== Build modules (count:{count}) ==" [pretty mod_count];;>
      let csess := csess_after mod_count in
      (if bool_decide (sess_mod_list ≠ []) then
         build_session_modules mod_needs_run mod_run csess sess_mod_list
       else pret tt);;>
      (if bool_decide (scan_mod_list ≠ []) then
         scan_modules_loop (scans csess) scan_mod_list
       else pret tt);;>
      modified <-- sess_was_modified (store_last_modified_after mod_count)
                     sess_info (pass_start mod_count);;
      if negb modified then pret mod_count
      else
        record (Ca (CReload (session_label sess_info)));;>
        modules_passes sess_info sess_mod_list scan_mod_list fuel'
          (S mod_count)
  end.

(** [for cscan in csess.scans(): ... self.build_scan_processors(...)] *)
Fixpoint scan_processors_loop (self : Launcher)
    (cscans : list CachedImageScan) (scan_proc_list : list Processor)
    : P unit :=
  match cscans with
  | [] => pret tt
  | cscan :: rest =>
      plog DEBUG "+SCAN: %s" [scan_id (cscan_info cscan)];;>
      _ <-- lift (build_scan_processors xtask_build_task self cscan
                    scan_proc_list);;
      scan_processors_loop self rest scan_proc_list
  end.

(** The end of [build_session]: the processors, on the session as last
    cached. *)
Definition build_processors (self : Launcher) (csess : CachedImageSession)
    (sess_proc_list scan_proc_list : list Processor) : P unit :=
  plog DEBUG "== Build scan processors ==" [];;>
  (if bool_decide (scan_proc_list ≠ []) then
     scan_processors_loop self (scans csess) scan_proc_list
   else pret tt);;>
  plog DEBUG "== Build session processors ==" [];;>
  (if bool_decide (sess_proc_list ≠ []) then
     _ <-- lift (build_session_processors xtask_build_task self csess
                   sess_proc_list);;
     pret tt
   else pret tt).

(** [build_session(xnat, sess_info, sess_proc_list, scan_proc_list,
    sess_mod_list, scan_mod_list)] *)
Definition build_session (self : Launcher) (sess_info : Info)
    (sess_proc_list scan_proc_list : list Processor)
    (sess_mod_list scan_mod_list : list DaxModule) : P unit :=
  record (Ca (CCachedSession (session_label sess_info)));;>
  mod_count <-- modules_passes sess_info sess_mod_list scan_mod_list 3 0;;
  build_processors self (csess_after mod_count) sess_proc_list scan_proc_list.



End BuildSession.





(** * Properties *)

(** ** Observations distribute over the concatenation of traces *)

Lemma launches_app (a b : list Event) :
  launches (a ++ b) = (launches a ++ launches b)%list.
Proof.
  induction a as [|e a IH]; [reflexivity|].
  destruct e; simpl; rewrite ?IH; reflexivity.
Qed.

Lemma updates_app (a b : list Event) :
  updates (a ++ b) = (updates a ++ updates b)%list.
Proof.
  induction a as [|e a IH]; [reflexivity|].
  destruct e; simpl; rewrite ?IH; reflexivity.
Qed.

Lemma cluster_calls_app (a b : list Event) :
  cluster_calls (a ++ b) = (cluster_calls a + cluster_calls b)%nat.
Proof.
  induction a as [|e a IH]; [reflexivity|].
  destruct e; simpl; rewrite ?IH; reflexivity.
Qed.

Lemma finished_app (a b : list Event) :
  finished (a ++ b) = finished a || finished b.
Proof.
  induction a as [|e a IH]; [reflexivity|].
  destruct e; simpl; rewrite ?IH; reflexivity.
Qed.

Lemma task_calls_app (a b : list Event) :
  task_calls (a ++ b) = (task_calls a ++ task_calls b)%list.
Proof.
  induction a as [|e a IH]; [reflexivity|].
  destruct e; simpl; rewrite ?IH; reflexivity.
Qed.

(** ** Launch *)

Section LaunchFacts.
Variable DAX_SETTINGS : DAX_Settings.
Variable cluster : Cluster.

(** With [cjobs] unbound the loop test raises before anything else. *)
Lemma launch_loop_unbound self writeonly pbsdir fnq stack w :
  launch_loop cluster self None writeonly pbsdir fnq stack w
  = (Raise (UnboundLocalError "cjobs"), w).
Proof. destruct stack; reflexivity. Qed.

Lemma try_launch_ok self t writeonly pbsdir fnq w :
  launch_succeeds t →
  ∃ c, try_launch self t writeonly pbsdir fnq w
       = (Ok true,
          mkWorld (reads w) (trace w ++ [ELaunch (assessor_label t) c])).
Proof.
  intros Hl. unfold try_launch, try_except, call.
  destruct (str_in (launcher_type self) diskq_cluster_types);
    rewrite Hl; eexists; reflexivity.
Qed.

(** One turn of the loop when the launch succeeds and the count is read:
    one submission, one call to the cluster, one more read. *)
Lemma launch_body_ok self c t writeonly pbsdir fnq w :
  launch_succeeds t →
  count_jobs_answer cluster (reads w) ≠ -1 →
  ∃ evs,
    launch_body cluster self c t writeonly pbsdir fnq w
    = (Ok tt, mkWorld (S (reads w)) (trace w ++ evs))
    ∧ launches evs = [assessor_label t]
    ∧ cluster_calls evs = 1%nat.
Proof.
  intros Hl Hc. unfold launch_body.
  set (line := if writeonly then _ else _).
  assert (∃ e, line w = (Ok tt, mkWorld (reads w) (trace w ++ [e]))
               ∧ launches [e] = [] ∧ cluster_calls [e] = 0%nat)
    as (e & El & L0 & C0)
    by (subst line; destruct writeonly; eexists; repeat split).
  unfold bind at 1. rewrite El.
  destruct (try_launch_ok self t writeonly pbsdir fnq
              (mkWorld (reads w) (trace w ++ [e])) Hl) as (lc & Et).
  unfold bind at 1. rewrite Et. cbn [negb].
  unfold bind, count_jobs. cbn [reads trace].
  destruct (Z.eqb_spec (count_jobs_answer cluster (reads w)) (-1));
    [contradiction|].
  unfold ret. rewrite <- !app_assoc. eexists; split; [reflexivity|].
  split; [rewrite launches_app, L0 | rewrite cluster_calls_app, C0];
    reflexivity.
Qed.

(** When the test on the count passes once it passes at every turn, since
    [cjobs] keeps its first value: the loop empties the stack. *)
Lemma launch_loop_drains self c writeonly pbsdir fnq stack :
  (c <? queue_limit self) || writeonly = true →
  (∀ n, count_jobs_answer cluster n ≠ -1) →
  Forall launch_succeeds stack →
  ∀ w, ∃ evs,
    launch_loop cluster self (Some c) writeonly pbsdir fnq stack w
    = (Ok [], mkWorld (reads w + length stack) (trace w ++ evs))
    ∧ launches evs = List.map assessor_label stack
    ∧ cluster_calls evs = length stack.
Proof.
  intros Hc Hn Hs. induction Hs as [|t stack Ht Hs IH]; intros w.
  - exists []. simpl. unfold bind, ret; simpl.
    rewrite Hc, app_nil_r, Nat.add_0_r. destruct w; auto.
  - destruct (launch_body_ok self c t writeonly pbsdir fnq w Ht (Hn _))
      as (e1 & E1 & L1 & C1).
    destruct (IH (mkWorld (S (reads w)) (trace w ++ e1)))
      as (e2 & E2 & L2 & C2).
    exists (e1 ++ e2)%list.
    cbn [launch_loop]. unfold bind at 1. cbn [read_local ret].
    rewrite Hc. cbn [length andb]. 
    replace (0 <? Z.of_nat (S (length stack))) with true
      by (symmetry; apply Z.ltb_lt; lia).
    unfold bind at 1. rewrite E1, E2. cbn [reads trace].
    rewrite launches_app, cluster_calls_app, L1, L2, C1, C2, app_assoc.
    repeat split; try reflexivity. do 2 f_equal. lia.
Qed.

End LaunchFacts.

(** C9: every call of [launch_tasks] with [force_no_qsub] true raises
    [UnboundLocalError] (a [NameError]) on [cjobs] when the loop test is
    first evaluated, whatever the task list, the empty one included: only
    the information line was logged, nothing was submitted, the cluster was
    not called, and the exception is not handled in [launch_tasks]. *)
Theorem launch_tasks_force_no_qsub_raises
    (DAX_SETTINGS : DAX_Settings) (cluster : Cluster) (self : Launcher)
    (task_list : list Task) (writeonly : bool) (pbsdir : option string)
    (w : World) :
  launch_tasks DAX_SETTINGS cluster self task_list writeonly pbsdir true w
  = (Raise (UnboundLocalError "cjobs"),
     mkWorld (reads w)
       (trace w ++
        [ELog INFO "No qsub - Running job locally on your computer." []]))
  ∧ is_NameError (UnboundLocalError "cjobs") = true.
Proof.
  split; [|reflexivity].
  unfold launch_tasks, log, emit. unfold bind at 1.
  unfold bind. rewrite launch_loop_unbound. reflexivity.
Qed.

(** C1, the code at a failing input: limit 1, a cluster that reports 0,
    then 1, then 2 jobs, two launchable tasks, [writeonly] and
    [force_no_qsub] false.  The count is read again after each submission
    (three reads in all), but the loop test keeps the first value: both
    tasks are submitted, the second one while the cluster last reported 1
    job, which is not below the limit. *)
Theorem launch_tasks_admits_on_stale_count :
  fst stale_count_run = Ok []
  ∧ launches (trace (snd stale_count_run)) = ["t2"; "t1"]
  ∧ reads (snd stale_count_run) = 3%nat
  ∧ admission_ok 1 None (trace (snd stale_count_run)) = false.
Proof. vm_compute. repeat split. Qed.

(** C4 fails as stated.  With [writeonly] true and one task, the launch
    calls the cluster three times (the count before the loop, the test for
    the submit command, the count after the submission).  When the count
    cannot be read before the loop, nothing is submitted although a task is
    listed.  When a launch is refused, the loop is left by an exception
    with a task still listed. *)
Lemma launch_tasks_writeonly_calls_cluster :
  (¬ (length (launches (trace (snd writeonly_run))) = 1%nat
      ∧ cluster_calls (trace (snd writeonly_run)) = 0%nat)
   ∧ cluster_calls (trace (snd writeonly_run)) = 3%nat)
  ∧ (fst writeonly_dead_run = Ok [good_task "t1"]
     ∧ launches (trace (snd writeonly_dead_run)) = [])
  ∧ (fst writeonly_refused_run = Raise ClusterLaunchException
     ∧ launches (trace (snd writeonly_refused_run)) = ["t2"]).
Proof.
  vm_compute. split; [|split; split; reflexivity].
  split; [intros [_ H]; discriminate H | reflexivity].
Qed.

(** When the loop test passes on the count read before the loop, and no
    read fails and every launch succeeds, every task is submitted, last
    task first: the counts read after the submissions play no part. *)
Lemma launch_tasks_drains
    (DAX_SETTINGS : DAX_Settings) (cluster : Cluster) (self : Launcher)
    (task_list : list Task) (writeonly : bool) (pbsdir : option string)
    (w : World) :
  (count_jobs_answer cluster (reads w) <? queue_limit self) || writeonly
  = true →
  (∀ n, count_jobs_answer cluster n ≠ -1) →
  Forall launch_succeeds task_list →
  ∃ evs,
    launch_tasks DAX_SETTINGS cluster self task_list writeonly pbsdir false w
    = (Ok [], mkWorld (reads w + 1 + length task_list) (trace w ++ evs))
    ∧ launches evs = List.map assessor_label (rev task_list)
    ∧ length (launches evs) = length task_list
    ∧ cluster_calls evs = (2 + length task_list)%nat.
Proof.
  intros Hc Hn Hs. unfold launch_tasks, count_jobs, cluster_command_found.
  unfold bind at 1.
  destruct (Z.eqb_spec (count_jobs_answer cluster (reads w)) (-1)) as [E|_];
    [destruct (Hn _ E)|].
  unfold bind at 1. unfold bind at 1. cbn [reads trace].
  set (line := if command_found cluster _ then _ else _).
  assert (∃ l0, ∀ w0, line w0 = (Ok tt, mkWorld (reads w0) (trace w0 ++ l0))
                ∧ launches l0 = [] ∧ cluster_calls l0 = 0%nat)
    as (l0 & Hline).
  { subst line. destruct (command_found cluster _).
    - eexists; intros w0; repeat split.
    - exists []. intros [n t]. unfold ret; cbn. by rewrite app_nil_r. }
  destruct (Hline (mkWorld (S (reads w))
     ((trace w ++ [ECountJobs (count_jobs_answer cluster (reads w))]) ++
      [ECommandFound (get_cmd_submit DAX_SETTINGS)
         (command_found cluster (get_cmd_submit DAX_SETTINGS))])))
    as (El & L0 & C0).
  rewrite El. cbn [reads trace].
  assert (Hs' : Forall launch_succeeds (rev task_list))
    by (apply Forall_forall; intros t Ht; apply (proj1 (Forall_forall _ _) Hs);
        by apply list_elem_of_In, in_rev, list_elem_of_In).
  destruct (launch_loop_drains cluster self
              (count_jobs_answer cluster (reads w)) writeonly pbsdir false
              (rev task_list) Hc Hn Hs'
              (mkWorld (S (reads w))
                 (((trace w ++ [ECountJobs (count_jobs_answer cluster (reads w))])
                   ++ [ECommandFound (get_cmd_submit DAX_SETTINGS)
                        (command_found cluster (get_cmd_submit DAX_SETTINGS))])
                  ++ l0)))
    as (e2 & E2 & L2 & C2).
  unfold bind at 1. rewrite E2. unfold ret. cbn [reads trace rev].
  rewrite length_rev in *.
  eexists. split.
  { rewrite <- !app_assoc. do 2 f_equal. f_equal. lia. }
  rewrite !launches_app, !cluster_calls_app, L0, C0, L2, C2. cbn.
  repeat split. by rewrite length_map, length_rev.
Qed.

(** A failed read of the count before the loop ends the launch: nothing is
    submitted, the task list is left as it was, the call returns. *)
Lemma launch_tasks_first_read_fails
    (DAX_SETTINGS : DAX_Settings) (cluster : Cluster) (self : Launcher)
    (task_list : list Task) (writeonly : bool) (pbsdir : option string)
    (w : World) :
  count_jobs_answer cluster (reads w) = -1 →
  launch_tasks DAX_SETTINGS cluster self task_list writeonly pbsdir false w
  = (Ok task_list,
     mkWorld (S (reads w))
       (trace w ++
        [ECountJobs (-1);
         ELog ERROR "cannot get count of jobs from cluster" []])).
Proof.
  intros E. unfold launch_tasks, count_jobs, bind, log, emit, ret.
  rewrite E. cbn. by rewrite <- app_assoc.
Qed.

(** A failed read of the count after a submission raises
    [ClusterCountJobsException] out of the loop. *)
Lemma launch_body_read_fails
    (cluster : Cluster) (self : Launcher) (c : Z) (t : Task)
    (writeonly : bool) (pbsdir : option string) (fnq : bool) (w : World) :
  launch_succeeds t →
  count_jobs_answer cluster (reads w) = -1 →
  ∃ evs,
    launch_body cluster self c t writeonly pbsdir fnq w
    = (Raise ClusterCountJobsException,
       mkWorld (S (reads w)) (trace w ++ evs))
    ∧ launches evs = [assessor_label t].
Proof.
  intros Hl Hc. unfold launch_body.
  set (line := if writeonly then _ else _).
  assert (∃ e, line w = (Ok tt, mkWorld (reads w) (trace w ++ [e]))
               ∧ launches [e] = [])
    as (e & El & L0)
    by (subst line; destruct writeonly; eexists; repeat split).
  unfold bind at 1. rewrite El.
  destruct (try_launch_ok self t writeonly pbsdir fnq
              (mkWorld (reads w) (trace w ++ [e])) Hl) as (lc & Et).
  unfold bind at 1. rewrite Et. cbn [negb].
  unfold bind, count_jobs, log, emit, raise. cbn [reads trace].
  rewrite Hc. cbn [Z.eqb Pos.eqb reads trace].
  rewrite <- !app_assoc. eexists; split; [reflexivity|].
  rewrite launches_app, L0. reflexivity.
Qed.

(** The scenario of a full queue: limit 5, a cluster that reports 5 jobs,
    two launchable tasks, [writeonly] false: nothing is submitted and the
    call returns with the task list untouched. *)
Example launch_tasks_full_queue :
  fst full_queue_run = Ok [good_task "t1"; good_task "t2"]
  ∧ launches (trace (snd full_queue_run)) = [].
Proof. vm_compute. split; reflexivity. Qed.

(** C4 as amended: with [writeonly] true and [force_no_qsub] false, when no
    count read fails and every launch succeeds, the loop empties the task
    list whatever the queue limit and the counts: one submission per task,
    last task first; the cluster is called once for the count before the
    loop, once for the submit command, and once for the count after each
    submission. *)
Theorem launch_tasks_writeonly_drains
    (DAX_SETTINGS : DAX_Settings) (cluster : Cluster) (self : Launcher)
    (task_list : list Task) (pbsdir : option string) (w : World) :
  (∀ n, count_jobs_answer cluster n ≠ -1) →
  Forall launch_succeeds task_list →
  ∃ evs,
    launch_tasks DAX_SETTINGS cluster self task_list true pbsdir false w
    = (Ok [], mkWorld (reads w + 1 + length task_list) (trace w ++ evs))
    ∧ launches evs = List.map assessor_label (rev task_list)
    ∧ length (launches evs) = length task_list
    ∧ cluster_calls evs = (2 + length task_list)%nat.
Proof.
  intros Hn Hs. apply launch_tasks_drains; [apply orb_true_r | done | done].
Qed.

(** The amended C4 at two tasks and a cluster that is always full. *)
Lemma launch_tasks_writeonly_drains_witness :
  ∃ evs,
    launch_tasks sample_settings full_cluster (sample_launcher 5 "xnat-cluster")
      [good_task "t1"; good_task "t2"] true None false world0
    = (Ok [], mkWorld (reads world0 + 1 + 2) (trace world0 ++ evs))
    ∧ launches evs = ["t2"; "t1"]
    ∧ length (launches evs) = 2%nat
    ∧ cluster_calls evs = 4%nat.
Proof.
  apply (launch_tasks_writeonly_drains sample_settings full_cluster
           (sample_launcher 5 "xnat-cluster")
           [good_task "t1"; good_task "t2"] None world0).
  - intros n. simpl. lia.
  - repeat constructor.
Defined.

(** ** Update *)

(** The loop reconciles the tasks in list order as long as none raises. *)
Lemma update_loop_returns fmt (task_list : list Task) :
  Forall update_returns task_list →
  ∀ w, ∃ evs,
    update_loop fmt task_list w
    = (Ok tt, mkWorld (reads w) (trace w ++ evs))
    ∧ updates evs = List.map assessor_label task_list
    ∧ finished evs = false.
Proof.
  induction 1 as [|t l Ht _ IH]; intros w.
  - exists []. cbn. unfold ret. rewrite app_nil_r. by destruct w.
  - cbn [update_loop]. unfold bind at 1, log, emit.
    unfold bind at 1, call. rewrite Ht. cbn [reads trace].
    edestruct IH as (evs & E & U & F). rewrite E. cbn [reads trace].
    rewrite <- !app_assoc. eexists; split; [reflexivity|].
    cbn. rewrite U, F. done.
Qed.

(** The first task whose reconciliation raises ends the loop: its
    exception leaves the loop, the tasks after it are not touched. *)
Lemma update_loop_raises fmt (before : list Task) t e (after : list Task) :
  Forall update_returns before →
  task_update_status t = Throws e →
  ∀ w, ∃ evs,
    update_loop fmt (before ++ t :: after) w
    = (Raise e, mkWorld (reads w) (trace w ++ evs))
    ∧ updates evs = List.map assessor_label (before ++ [t])
    ∧ finished evs = false.
Proof.
  intros Hb Ht. induction Hb as [|b l Hb _ IH]; intros w.
  - cbn [app update_loop]. unfold bind at 1, log, emit.
    unfold bind at 1, call. rewrite Ht. cbn [reads trace].
    rewrite <- !app_assoc. eexists; split; [reflexivity|]. done.
  - cbn [app update_loop]. unfold bind at 1, log, emit.
    unfold bind at 1, call. rewrite Hb. cbn [reads trace].
    edestruct IH as (evs & E & U & F). rewrite E. cbn [reads trace].
    rewrite <- !app_assoc. eexists; split; [reflexivity|].
    cbn. rewrite U, F. done.
Qed.

(** When no reconciliation raises, [update_tasks] reconciles every task in
    list order and reaches [finish_script]. *)
Lemma update_task_list_returns self flagfile (task_list : list Task) w :
  Forall update_returns task_list →
  ∃ evs,
    update_task_list self flagfile task_list w
    = (Ok tt, mkWorld (reads w) (trace w ++ evs))
    ∧ updates evs = List.map assessor_label task_list
    ∧ finished evs = true.
Proof.
  intros Hl. unfold update_task_list.
  destruct (str_in (launcher_type self) diskq_cluster_types);
    unfold bind at 1; unfold bind at 1, log, emit;
    unfold bind at 1; cbn [reads trace];
    (edestruct update_loop_returns as (evs & E & U & F); [exact Hl|]);
    rewrite E; cbn [reads trace]; rewrite <- !app_assoc;
    (eexists; split; [reflexivity|]);
    cbn; rewrite updates_app, finished_app, U, F; cbn;
    rewrite ?app_nil_r, ?orb_true_r; done.
Qed.

(** C2 fails as stated: with a first task whose reconciliation raises and a
    second one that would succeed, the exception leaves [update_tasks];
    the second task is never reconciled and [finish_script] is not
    reached. *)
Lemma update_tasks_aborts_on_failure :
  fst failing_update_run = Raise (CollabError "IOError" "store unreachable")
  ∧ updates (trace (snd failing_update_run)) = ["t1"]
  ∧ finished (trace (snd failing_update_run)) = false.
Proof. vm_compute. repeat split. Qed.

(** C2 as amended: [update_tasks] does not catch an exception raised while
    a task's status is reconciled.  At the first task that raises, in the
    disk-queue branch as in the store branch, the exception leaves
    [update_tasks]: the tasks before it were reconciled in order, the tasks
    after it are not, and [finish_script] is not reached. *)
Theorem update_tasks_propagates_failure
    (self : Launcher) (flagfile : string) (before : list Task) (t : Task)
    (e : exn) (after : list Task) (w : World) :
  Forall update_returns before →
  task_update_status t = Throws e →
  ∃ evs,
    update_task_list self flagfile (before ++ t :: after) w
    = (Raise e, mkWorld (reads w) (trace w ++ evs))
    ∧ updates evs = List.map assessor_label (before ++ [t])
    ∧ finished evs = false.
Proof.
  intros Hb Ht. unfold update_task_list.
  destruct (str_in (launcher_type self) diskq_cluster_types);
    unfold bind at 1; unfold bind at 1, log, emit;
    unfold bind at 1; cbn [reads trace];
    (edestruct update_loop_raises as (evs & E & U & F);
       [exact Hb | exact Ht |]);
    rewrite E; cbn [reads trace]; rewrite <- !app_assoc;
    (eexists; split; [reflexivity|]);
    cbn; rewrite U, F; done.
Qed.

(** The amended C2 at one good task, one failing task, one good task. *)
Lemma update_tasks_propagates_failure_witness :
  ∃ evs,
    update_task_list (sample_launcher 5 "diskq-combined") "flag"
      ([good_task "t0"] ++ failing_task "t1" :: [good_task "t2"]) world0
    = (Raise (CollabError "IOError" "store unreachable"),
       mkWorld (reads world0) (trace world0 ++ evs))
    ∧ updates evs = List.map assessor_label ([good_task "t0"] ++ [failing_task "t1"])
    ∧ finished evs = false.
Proof.
  apply (update_tasks_propagates_failure (sample_launcher 5 "diskq-combined")
           "flag" [good_task "t0"] (failing_task "t1")
           (CollabError "IOError" "store unreachable") [good_task "t2"] world0).
  - repeat constructor.
  - reflexivity.
Defined.

(** ** Build: the disk-queue decision *)

Lemma qc_in_rerun_reproc_spec (q : QcStatus) :
  qc_in_rerun_reproc q = true ↔ q = RERUN ∨ q = REPROC.
Proof.
  unfold qc_in_rerun_reproc.
  rewrite orb_true_iff, !bool_decide_eq_true. reflexivity.
Qed.

Lemma refresh_test_spec (p : option AssrInfo) :
  refresh_test p = true ↔ qc_asks_rerun p.
Proof.
  unfold refresh_test, qc_asks_rerun. destruct p as [a|].
  - rewrite qc_in_rerun_reproc_spec. split.
    + intros H. exists a. auto.
    + intros (a' & [= <-] & H). exact H.
  - split; [discriminate|]. intros (a & [=] & _).
Qed.

Lemma session_diskq_test_spec (p : option AssrInfo) :
  session_diskq_test p = true ↔ session_build_cond p.
Proof.
  unfold session_diskq_test, session_build_cond, qc_asks_rerun.
  destruct p as [a|].
  - rewrite orb_true_iff, bool_decide_eq_true, qc_in_rerun_reproc_spec. split.
    + intros [H|H]; [right; left | right; right]; exists a; auto.
    + intros [[=] | [(a' & [= <-] & H) | (a' & [= <-] & H)]]; auto.
  - split; auto.
Qed.

Lemma scan_diskq_test_spec (p : option AssrInfo) :
  scan_diskq_test p = true ↔ scan_build_cond p.
Proof.
  unfold scan_diskq_test, scan_build_cond, qc_asks_rerun.
  destruct p as [a|].
  - rewrite !orb_true_iff, !bool_decide_eq_true, qc_in_rerun_reproc_spec.
    split.
    + intros [H|H]; [right; left | right; right]; exists a; auto.
    + intros [[=] | [(a' & [= <-] & H) | (a' & [= <-] & H)]]; auto.
  - split; auto.
Qed.

(** A rerun request is a reason to build at both levels. *)
Lemma rerun_builds_session p : qc_asks_rerun p → session_build_cond p.
Proof. intros H. right; right; exact H. Qed.

Lemma rerun_builds_scan p : qc_asks_rerun p → scan_build_cond p.
Proof. intros H. right; right; exact H. Qed.

(** The events of [diskq_build]: the refresh when asked for, then the
    build. *)
Lemma diskq_build_events xbt proc cobj assr_name p w :
  ∃ evs,
    diskq_build xbt proc cobj assr_name p w
    = (Ok tt, mkWorld (reads w) (trace w ++ evs))
    ∧ task_calls evs
      = ((if refresh_test p then [EUpdateStatus assr_name] else [])
         ++ [EBuildTask assr_name])%list.
Proof.
  unfold diskq_build. destruct (xbt proc cobj) as [ps qs].
  destruct (refresh_test p); unfold bind, log, emit, ret; cbn [reads trace];
    rewrite <- ?app_assoc; eexists; (split; [reflexivity|]); reflexivity.
Qed.

Lemma elem_of_task_calls (e : Event) (evs : list Event) :
  (∀ l f a, e ≠ ELog l f a) → e ∈ task_calls evs ↔ e ∈ evs.
Proof.
  intros He. induction evs as [|x evs IH]; [reflexivity|].
  destruct x; cbn [task_calls]; rewrite ?elem_of_cons, ?IH; try reflexivity.
  split; [auto|]. intros [H|H]; [destruct (He _ _ _ H) | exact H].
Qed.

(** The disk-queue branch of a step, for the test [test] of its level. *)
Lemma diskq_branch_outcome xbt proc cobj assr_name skip_fmt
    (test : option AssrInfo → bool) (cond : option AssrInfo → Prop) p w :
  (∀ q, test q = true ↔ cond q) →
  (∀ q, qc_asks_rerun q → cond q) →
  ∃ evs,
    (if test p then
       diskq_build xbt proc cobj assr_name p;;; ret (@None Task)
     else log DEBUG skip_fmt [assr_name];;; ret None) w
    = (Ok None, mkWorld (reads w) (trace w ++ evs))
    ∧ diskq_step_outcome cond p assr_name skip_fmt evs.
Proof.
  intros Hspec Hrr. destruct (test p) eqn:Et.
  - destruct (diskq_build_events xbt proc cobj assr_name p w) as (evs & E & C).
    exists evs. unfold bind. rewrite E. split; [reflexivity|].
    assert (Hc : cond p) by (by apply Hspec).
    assert (Hin : EBuildTask assr_name ∈ evs).
    { apply elem_of_task_calls; [discriminate|]. rewrite C.
      apply elem_of_app. right. apply list_elem_of_singleton. reflexivity. }
    split; [|split; [|split]].
    + intros Hr. apply refresh_test_spec in Hr. by rewrite C, Hr.
    + intros _ Hn. rewrite C. destruct (refresh_test p) eqn:Er; [|reflexivity].
      apply refresh_test_spec in Er. contradiction.
    + intros Hn. contradiction.
    + split; auto.
  - exists [ELog DEBUG skip_fmt [assr_name]]. split; [reflexivity|].
    assert (Hc : ¬ cond p) by (rewrite <- Hspec, Et; discriminate).
    split; [|split; [|split]].
    + intros Hr. destruct (Hc (Hrr _ Hr)).
    + intros H. contradiction.
    + intros _. split; reflexivity.
    + split; [|intros H; contradiction].
      intros H. apply list_elem_of_singleton in H. discriminate.
Qed.

(** C3, the code at a failing input: the launcher type diskq-xnat, a
    processor that accepts the context, and an existing assessor with the
    generated name in ProcStatus NEED_TO_RUN and QcStatus JOB_PENDING.  The
    assessor meets none of the three conditions of the build; the step of
    [build_scan_processors] builds its task again, while the step of
    [build_session_processors] on the same assessor skips it. *)
Theorem scan_diskq_builds_need_to_run :
  ¬ session_build_cond (Some waiting_assr)
  ∧ task_calls (trace (snd waiting_scan_step))
    = [EBuildTask "proj-x-subj-x-sess-x-proc"]
  ∧ task_calls (trace (snd waiting_session_step)) = [].
Proof.
  split; [|vm_compute; split; reflexivity].
  rewrite <- session_diskq_test_spec. vm_compute. discriminate.
Qed.

(** The decision of the disk-queue modes as the code takes it at each
    level: for every processor whose [should_run] accepts the context, the
    step builds the task if and only if the build condition of its level
    holds for the assessor found under the generated name: at session level
    (the first assessor with the name) no assessor, or ProcStatus
    NEED_INPUTS, or QcStatus RERUN or REPROC; at scan level (the last
    assessor with the name) the same, or ProcStatus NEED_TO_RUN.  When the
    QcStatus is RERUN or REPROC the status is refreshed before the build;
    when the condition fails the step only logs that the task is
    skipped. *)
Theorem diskq_build_decision
    (xbt : Processor → CachedObj → ProcStatus * QcStatus) (self : Launcher) :
  str_in (launcher_type self) diskq_build_types = true →
  (∀ csess sess_proc w,
     should_run sess_proc (csess_info csess) = true →
     let assr_name := get_assessor_name sess_proc (OfSession csess) in
     let p_assr := find_assessor_first assr_name (csess_assessors csess) in
     ∃ evs,
       session_proc_step xbt self csess sess_proc w
       = (Ok None, mkWorld (reads w) (trace w ++ evs))
       ∧ diskq_step_outcome session_build_cond p_assr assr_name
           "skipping, already built: %s" evs)
  ∧ (∀ cscan scan_proc w,
       should_run scan_proc (cscan_info cscan) = true →
       let assr_name := get_assessor_name scan_proc (OfScan cscan) in
       let p_assr :=
         find_assessor_last None assr_name
           (csess_assessors (cscan_parent cscan)) in
       ∃ evs,
         scan_proc_step xbt self cscan scan_proc w
         = (Ok None, mkWorld (reads w) (trace w ++ evs))
         ∧ diskq_step_outcome scan_build_cond p_assr assr_name
             "skipping, already built:%s" evs).
Proof.
  intros Hd. split.
  - intros csess proc w Hrun. cbn zeta.
    unfold session_proc_step. rewrite Hrun, Hd. cbn [negb].
    apply diskq_branch_outcome;
      [apply session_diskq_test_spec | apply rerun_builds_session].
  - intros cscan proc w Hrun. cbn zeta.
    unfold scan_proc_step. rewrite Hrun, Hd. cbn [negb].
    apply diskq_branch_outcome;
      [apply scan_diskq_test_spec | apply rerun_builds_scan].
Qed.

(** The decision at a session whose assessor asks for a rerun. *)
Lemma diskq_build_decision_witness :
  ∃ evs,
    session_proc_step sample_build_task (sample_launcher 5 "diskq-combined")
      (sample_csess [sample_assr COMPLETE RERUN]) (sample_proc 1) world0
    = (Ok None, mkWorld (reads world0) (trace world0 ++ evs))
    ∧ diskq_step_outcome session_build_cond
        (Some (sample_assr COMPLETE RERUN)) "proj-x-subj-x-sess-x-proc"
        "skipping, already built: %s" evs.
Proof.
  apply (proj1 (diskq_build_decision sample_build_task
                  (sample_launcher 5 "diskq-combined") eq_refl)
           (sample_csess [sample_assr COMPLETE RERUN]) (sample_proc 1) world0).
  reflexivity.
Defined.

(** ** Build: the store-direct decision *)

Lemma readiness_ready h : readiness h = Ready ↔ h = 1.
Proof.
  unfold readiness. destruct (Z.eqb_spec h 1); [by split|].
  destruct (Z.eqb_spec h (-1)); split; (discriminate || contradiction).
Qed.

Lemma readiness_blocked h : readiness h = PermanentlyBlocked ↔ h = -1.
Proof.
  unfold readiness. destruct (Z.eqb_spec h 1) as [->|];
    [split; discriminate|].
  destruct (Z.eqb_spec h (-1)); split; (done || discriminate || contradiction).
Qed.

Lemma readiness_pending h : readiness h = Pending ↔ h ≠ 1 ∧ h ≠ -1.
Proof.
  unfold readiness. destruct (Z.eqb_spec h 1) as [->|];
    [split; [discriminate | intros [[] _]; reflexivity]|].
  destruct (Z.eqb_spec h (-1)) as [->|];
    [split; [discriminate | intros [_ []]; reflexivity] | by split].
Qed.

Ltac in_events :=
  repeat match goal with
         | H : _ ∈ _ :: _ |- _ =>
             apply elem_of_cons in H; destruct H as [H|H];
             [try discriminate H; try (injection H as ?; subst)|]
         | H : _ ∈ [] |- _ => by apply elem_of_nil in H
         end.

Ltac same_exn :=
  match goal with
  | E : ?f = Throws ?e1, H : ?f = Throws ?e2 |- _ =>
      assert (e2 = e1) by congruence; subst e2; clear H
  end.

Ltac is_event :=
  repeat first [apply list_elem_of_here | apply list_elem_of_further].

(** The task and the events of [store_direct_build]. *)
Lemma store_direct_build_outcome proc cobj err1 sess_label w :
  ∃ evs t,
    store_direct_build proc cobj err1 sess_label w
    = (Ok t, mkWorld (reads w) (trace w ++ evs))
    ∧ readiness_outcome (get_task proc cobj) t
        (fst (has_inputs proc cobj)) (snd (has_inputs proc cobj)) evs
    ∧ status_writes_justified (fst (has_inputs proc cobj)) evs.
Proof.
  unfold store_direct_build.
  destruct (has_inputs proc cobj) as [h q]. cbn [fst snd].
  set (t0 := get_task proc cobj).
  unfold log_updating_status, bind, emit, log, ret. cbn [reads trace].
  assert (Hfin : ∀ (t : Task) (evs : list Event),
             (writes_return t0 →
                if h =? 1 then
                  procstatus t = NEED_TO_RUN ∧ qcstatus t = JOB_PENDING
                  ∧ task_calls evs
                    = [EGetTask (assessor_label t0);
                       ESetStatus (assessor_label t0) NEED_TO_RUN;
                       ESetQcStatus (assessor_label t0) JOB_PENDING]
                else if h =? -1 then
                  procstatus t = NO_DATA ∧ qcstatus t = q
                  ∧ task_calls evs
                    = [EGetTask (assessor_label t0);
                       ESetStatus (assessor_label t0) NO_DATA;
                       ESetQcStatus (assessor_label t0) q]
                else
                  procstatus t = procstatus t0 ∧ qcstatus t = q
                  ∧ task_calls evs
                    = [EGetTask (assessor_label t0);
                       ESetQcStatus (assessor_label t0) q]) →
             (∀ s e, task_set_status t0 s = Throws e →
                ESetStatus (assessor_label t0) s ∈ evs →
                procstatus t = procstatus t0 ∧ qcstatus t = qcstatus t0
                ∧ (∀ q', ESetQcStatus (assessor_label t0) q' ∉ evs)
                ∧ caught_line e ∈ evs) →
             (∀ q' e, task_set_qcstatus t0 q' = Throws e →
                ESetQcStatus (assessor_label t0) q' ∈ evs →
                qcstatus t = qcstatus t0 ∧ caught_line e ∈ evs) →
             assessor_label t = assessor_label t0 →
             readiness_outcome t0 t h q evs).
  { intros t evs Hw Hs Hq Hl. unfold readiness_outcome. cbn zeta.
    rewrite readiness_ready, readiness_blocked, readiness_pending.
    split; [|by split; [|split]].
    intros Hr. specialize (Hw Hr).
    destruct (Z.eqb_spec h 1) as [->|H1];
      [|destruct (Z.eqb_spec h (-1)) as [->|H2]];
      (split; [|split]); intros; try done; try lia. }
  destruct (Z.eqb_spec h 1) as [->|H1];
    [|destruct (Z.eqb_spec h (-1)) as [->|H2]];
    cbn [try_writes status_write];
    unfold set_status, set_qcstatus, bind, emit, ret, raise;
    cbn [reads trace assessor_label].
  - destruct (task_set_status t0 NEED_TO_RUN) as [[]|e1] eqn:E1;
      [cbn [task_set_qcstatus];
       destruct (task_set_qcstatus t0 JOB_PENDING) as [[]|e2] eqn:E2|];
      cbn [fst snd reads trace assessor_label procstatus qcstatus];
      rewrite <- ?app_assoc; cbn [app];
      do 2 eexists; (split; [reflexivity|]);
      (split;
       [apply Hfin; cbn [assessor_label procstatus qcstatus];
        [intros [Ws Wq]; rewrite ?Ws, ?Wq in *; try discriminate; done
        |intros s e Hs Hin; in_events; try congruence; try same_exn;
         repeat split; try done;
         try (intros q' Hq'; in_events); try (unfold caught_line; is_event)
        |intros q' e Hq Hin; in_events; try congruence; try same_exn;
         split; try done; try (unfold caught_line; is_event)
        |done]
       |intros l s Hin; in_events; left; done]).
  - destruct (task_set_status t0 NO_DATA) as [[]|e1] eqn:E1;
      [cbn [task_set_qcstatus];
       destruct (task_set_qcstatus t0 q) as [[]|e2] eqn:E2|];
      cbn [fst snd reads trace assessor_label procstatus qcstatus];
      rewrite <- ?app_assoc; cbn [app];
      do 2 eexists; (split; [reflexivity|]);
      (split;
       [apply Hfin; cbn [assessor_label procstatus qcstatus];
        [intros [Ws Wq]; rewrite ?Ws, ?Wq in *; try discriminate; done
        |intros s e Hs Hin; in_events; try congruence; try same_exn;
         repeat split; try done;
         try (intros q' Hq'; in_events); try (unfold caught_line; is_event)
        |intros q' e Hq Hin; in_events; try congruence; try same_exn;
         split; try done; try (unfold caught_line; is_event)
        |done]
       |intros l s Hin; in_events; right; done]).
  - destruct (task_set_qcstatus t0 q) as [[]|e2] eqn:E2;
      cbn [fst snd reads trace assessor_label procstatus qcstatus];
      rewrite <- ?app_assoc; cbn [app];
      do 2 eexists; (split; [reflexivity|]);
      (split;
       [apply Hfin; cbn [assessor_label procstatus qcstatus];
        [intros [Ws Wq]; rewrite ?Ws, ?Wq in *; try discriminate; done
        |intros s e Hs Hin; in_events
        |intros q' e Hq Hin; in_events; try congruence; try same_exn;
         split; try done; try (unfold caught_line; is_event)
        |done]
       |intros l s Hin; in_events]).
Qed.

(** A step that evaluates nothing writes no status. *)
Lemma no_events_justified h : status_writes_justified h [].
Proof. intros l s H. by apply elem_of_nil in H. Qed.

(** C5 fails as stated: the writes of the statuses are in a [try].  At a
    session without assessor and a processor whose inputs are ready, when
    the store refuses the write of the ProcStatus, the step returns with
    the ProcStatus and the QcStatus as they were: NEED_TO_RUN was asked for
    and is not set, and JOB_PENDING is not asked for. *)
Lemma store_direct_ready_write_raises :
  readiness (fst (has_inputs stuck_proc (OfSession (sample_csess [])))) = Ready
  ∧ ∃ t, fst stuck_session_step = Ok (Some t)
         ∧ procstatus t = NEED_INPUTS ∧ qcstatus t = NEEDS_QA
         ∧ task_calls (trace (snd stuck_session_step))
           = [EGetTask "proj-x-subj-x-sess-x-proc";
              ESetStatus "proj-x-subj-x-sess-x-proc" NEED_TO_RUN].
Proof.
  split; [reflexivity|]. vm_compute. eexists. repeat split.
Qed.

(** C5 as amended: in store-direct modes, at session level and at scan
    level alike, when the readiness of a task is evaluated (the processor
    accepts the context and there is no assessor or its ProcStatus is
    NEED_INPUTS) and the writes of its statuses return: a ready result sets
    ProcStatus to NEED_TO_RUN and QcStatus to JOB_PENDING; a permanently
    blocked result sets ProcStatus to NO_DATA and QcStatus to the value the
    processor supplied; a pending result sets QcStatus to that value and
    leaves ProcStatus as it was.  A write that raises is caught and logged
    and the step returns: after a refused write of the ProcStatus both
    statuses are as they were and the QcStatus is not written.  In every
    case a step of these modes writes a ProcStatus only as NEED_TO_RUN on a
    ready result or as NO_DATA on a permanently blocked one. *)
Theorem store_direct_readiness
    (xbt : Processor → CachedObj → ProcStatus * QcStatus) (self : Launcher) :
  str_in (launcher_type self) diskq_build_types = false →
  (∀ csess sess_proc w,
     should_run sess_proc (csess_info csess) = true →
     store_direct_test
       (find_assessor_first (get_assessor_name sess_proc (OfSession csess))
          (csess_assessors csess)) = true →
     ∃ evs t,
       session_proc_step xbt self csess sess_proc w
       = (Ok (Some t), mkWorld (reads w) (trace w ++ evs))
       ∧ readiness_outcome (get_task sess_proc (OfSession csess)) t
           (fst (has_inputs sess_proc (OfSession csess)))
           (snd (has_inputs sess_proc (OfSession csess))) evs)
  ∧ (∀ cscan scan_proc w,
       should_run scan_proc (cscan_info cscan) = true →
       store_direct_test
         (find_assessor_last None (get_assessor_name scan_proc (OfScan cscan))
            (csess_assessors (cscan_parent cscan))) = true →
       ∃ evs t,
         scan_proc_step xbt self cscan scan_proc w
         = (Ok (Some t), mkWorld (reads w) (trace w ++ evs))
         ∧ readiness_outcome (get_task scan_proc (OfScan cscan)) t
             (fst (has_inputs scan_proc (OfScan cscan)))
             (snd (has_inputs scan_proc (OfScan cscan))) evs)
  ∧ (∀ csess sess_proc w, ∃ evs r,
       session_proc_step xbt self csess sess_proc w
       = (Ok r, mkWorld (reads w) (trace w ++ evs))
       ∧ status_writes_justified
           (fst (has_inputs sess_proc (OfSession csess))) evs)
  ∧ (∀ cscan scan_proc w, ∃ evs r,
       scan_proc_step xbt self cscan scan_proc w
       = (Ok r, mkWorld (reads w) (trace w ++ evs))
       ∧ status_writes_justified
           (fst (has_inputs scan_proc (OfScan cscan))) evs).
Proof.
  intros Hd.
  assert (Hnil : ∀ w : World, w = mkWorld (reads w) (trace w ++ []))
    by (intros [n t]; cbn; by rewrite app_nil_r).
  split; [|split; [|split]].
  - intros csess proc w Hrun Ht.
    unfold session_proc_step. rewrite Hrun, Hd, Ht. cbn [negb].
    edestruct store_direct_build_outcome as (evs & t & E & O & _).
    exists evs, t. unfold bind. rewrite E. split; [reflexivity | exact O].
  - intros cscan proc w Hrun Ht.
    unfold scan_proc_step. rewrite Hrun, Hd, Ht. cbn [negb].
    edestruct store_direct_build_outcome as (evs & t & E & O & _).
    exists evs, t. unfold bind. rewrite E. split; [reflexivity | exact O].
  - intros csess proc w. unfold session_proc_step. rewrite Hd.
    destruct (should_run proc (csess_info csess)); cbn [negb];
      [|exists [], None; split;
        [unfold ret; f_equal; apply Hnil | apply no_events_justified]].
    destruct (store_direct_test _);
      [|exists [], None; split;
        [unfold ret; f_equal; apply Hnil | apply no_events_justified]].
    edestruct store_direct_build_outcome as (evs & t & E & _ & J).
    exists evs, (Some t). unfold bind. rewrite E. split; [reflexivity | exact J].
  - intros cscan proc w. unfold scan_proc_step. rewrite Hd.
    destruct (should_run proc (cscan_info cscan)); cbn [negb];
      [|exists [], None; split;
        [unfold ret; f_equal; apply Hnil | apply no_events_justified]].
    destruct (store_direct_test _);
      [|exists [], None; split;
        [unfold ret; f_equal; apply Hnil | apply no_events_justified]].
    edestruct store_direct_build_outcome as (evs & t & E & _ & J).
    exists evs, (Some t). unfold bind. rewrite E. split; [reflexivity | exact J].
Qed.

(** The amended C5 at a scan without assessor and a processor whose
    inputs are permanently missing. *)
Lemma store_direct_readiness_witness :
  ∃ evs t,
    scan_proc_step sample_build_task (sample_launcher 5 "xnat-cluster")
      (sample_cscan []) (sample_proc (-1)) world0
    = (Ok (Some t), mkWorld (reads world0) (trace world0 ++ evs))
    ∧ readiness_outcome
        (get_task (sample_proc (-1)) (OfScan (sample_cscan []))) t
        (-1) (OtherQc "waiting for T1") evs.
Proof.
  apply (proj1 (proj2 (store_direct_readiness sample_build_task
                         (sample_launcher 5 "xnat-cluster") eq_refl))
           (sample_cscan []) (sample_proc (-1)) world0);
    reflexivity.
Defined.

(** ** Matching *)

Lemma match_loop_first a (l1 : list Processor) p l2 :
  none_matches a l1 → proc_matches a p = true →
  match_loop a (l1 ++ p :: l2) = Some p.
Proof.
  intros Hn Hp. induction Hn as [|q l1 Hq _ IH]; cbn.
  - by rewrite Hp.
  - by rewrite Hq.
Qed.

Lemma match_loop_none a (l : list Processor) :
  none_matches a l → match_loop a l = None.
Proof.
  induction 1 as [|q l Hq _ IH]; cbn; [reflexivity|]. by rewrite Hq.
Qed.


Section TaskFacts.
Variable DAX_SETTINGS : DAX_Settings.
Variable Task_new : Processor → AssrInfo → string → Task.

(** The loop of [get_project_tasks] never raises; it appends, in order,
    the task of each valid assessor that has a matching processor, and
    emits nothing but warnings. *)
Lemma project_tasks_loop_spec valid sess scan (assr_list : list AssrInfo) :
  ∀ acc w, ∃ evs,
    project_tasks_loop DAX_SETTINGS Task_new valid sess scan assr_list acc w
    = (Ok (acc ++
           omap (task_of Task_new (get_results_dir DAX_SETTINGS) valid
                   sess scan) assr_list)%list,
       mkWorld (reads w) (trace w ++ evs))
    ∧ Forall is_warning evs.
Proof.
  induction assr_list as [|a l IH]; intros acc w.
  - exists []. cbn. unfold ret. rewrite !app_nil_r. by destruct w.
  - cbn [project_tasks_loop omap list_omap]. unfold task_of at 1.
    destruct (valid a); [|apply IH].
    unfold bind at 1, generate_task.
    destruct (match_proc a sess scan) as [p|].
    + unfold ret at 1. destruct (IH (acc ++ [Task_new p a
               (get_results_dir DAX_SETTINGS)])%list w) as (evs & E & F).
      exists evs. rewrite E, <- app_assoc. done.
    + unfold bind at 1, log, emit, ret. cbn [reads trace].
      destruct (IH acc (mkWorld (reads w) (trace w ++
         [ELog WARN "no matching processor found: %s"
            [assessor_label_of a]]))) as (evs & E & F).
      eexists. rewrite E. cbn [reads trace]. rewrite <- app_assoc.
      split; [reflexivity|]. constructor; [|exact F]. by do 2 eexists.
Qed.

End TaskFacts.

(** C6: [match_proc] returns the first session-level processor whose
    (xsitype, name) equals the assessor's (xsiType, proctype), whatever the
    scan-level list and the later session-level entries hold; only when no
    session-level processor matches does it return the first scan-level
    match; when neither list matches it returns no processor, and then
    [generate_task] logs one warning, raises nothing and returns no task,
    so that [get_project_tasks] leaves the assessor out of the task list:
    its result holds, in order, the tasks of the valid assessors that have
    a matching processor, and it logs nothing but such warnings. *)
Theorem match_proc_first_session_then_scan (a : AssrInfo) :
  (∀ l1 p l2 scan,
     none_matches a l1 → proc_matches a p = true →
     match_proc a (l1 ++ p :: l2) scan = Some p)
  ∧ (∀ sess l1 p l2,
       none_matches a sess → none_matches a l1 → proc_matches a p = true →
       match_proc a sess (l1 ++ p :: l2) = Some p)
  ∧ (∀ sess scan,
       none_matches a sess → none_matches a scan →
       match_proc a sess scan = None
       ∧ ∀ S Tn w,
           generate_task S Tn a sess scan w
           = (Ok None,
              mkWorld (reads w)
                (trace w ++
                 [ELog WARN "no matching processor found: %s"
                    [assessor_label_of a]]))
           ∧ ∀ valid, task_of Tn (get_results_dir S) valid sess scan a = None)
  ∧ (∀ S Tn valid sess scan assr_list w, ∃ evs,
       get_project_tasks S Tn valid sess scan assr_list w
       = (Ok (omap (task_of Tn (get_results_dir S) valid sess scan) assr_list),
          mkWorld (reads w) (trace w ++ evs))
       ∧ Forall is_warning evs).
Proof.
  split; [|split; [|split]].
  - intros l1 p l2 scan Hn Hp. unfold match_proc.
    by rewrite (match_loop_first a l1 p l2 Hn Hp).
  - intros sess l1 p l2 Hs Hn Hp. unfold match_proc.
    rewrite (match_loop_none a sess Hs). by apply match_loop_first.
  - intros sess scan Hs Hc.
    assert (Hm : match_proc a sess scan = None)
      by (unfold match_proc; rewrite (match_loop_none a sess Hs);
          by apply match_loop_none).
    split; [exact Hm|]. intros S Tn w. split.
    + unfold generate_task. rewrite Hm. reflexivity.
    + intros valid. unfold task_of. rewrite Hm. by destruct (valid a).
  - intros S Tn valid sess scan assr_list w.
    apply (project_tasks_loop_spec S Tn valid sess scan assr_list [] w).
Qed.

(** C6 on two session-level processors and one scan-level processor with
    the same key: the first session-level one is selected. *)
Lemma match_proc_first_session_then_scan_witness :
  match_proc waiting_assr
    ([proc_named "other" "proc:genProcData" 0]
     ++ proc_named "proc" "proc:genProcData" 1
     :: [proc_named "proc" "proc:genProcData" 2])
    [proc_named "proc" "proc:genProcData" 3]
  = Some (proc_named "proc" "proc:genProcData" 1).
Proof.
  apply (proj1 (match_proc_first_session_then_scan waiting_assr)).
  - repeat constructor.
  - reflexivity.
Defined.

(** ** Staleness *)

(** The test on the marker as a function of what the two parses return:
    the sum is built only when the session was modified before the
    marker. *)
Lemma session_skipped_tracked
    (strptime : string → string → option Z) (self : Launcher)
    (sessions_local : option string) (lastmod_delta : option Z)
    (now_date : Z) (sess_info : Info) (w : World) :
  skip_lastupdate self = false →
  truthy sessions_local = false →
  fst (session_skipped strptime self false sessions_local lastmod_delta
         now_date sess_info w)
  = match strptime (str_take 19 (last_modified sess_info)) UPDATE_FORMAT with
    | None => Raise (ValueError "time data does not match format")
    | Some last_mod =>
        if String.eqb (marker sess_info) EmptyString then Ok false
        else
          match strptime (marker sess_info) UPDATE_FORMAT with
          | None => Raise (ValueError "time data does not match format")
          | Some last_up =>
              if last_mod <? last_up then
                if Z.abs (max_age self) <=? 999999999 then
                  if (datetime_min <=? last_mod + timedelta_days (max_age self))
                     && (last_mod + timedelta_days (max_age self)
                         <=? datetime_max)
                  then Ok (now_date <? last_mod + timedelta_days (max_age self))
                  else Raise (CollabError "OverflowError"
                                "date value out of range")
                else Raise (CollabError "OverflowError"
                              "days; must have magnitude <= 999999999")
              else Ok false
          end
    end.
Proof.
  intros Hs Hl.
  unfold session_skipped, get_lastupdated, py_strptime, py_timedelta_days,
    datetime_add.
  fold (marker sess_info).
  rewrite Hs, Hl. cbn [negb andb].
  unfold bind, ret, raise, log, emit.
  destruct (strptime (str_take 19 (last_modified sess_info)) UPDATE_FORMAT)
    as [lm|]; [|reflexivity].
  destruct (String.eqb (marker sess_info) EmptyString); [reflexivity|].
  destruct (strptime (marker sess_info) UPDATE_FORMAT) as [lu|];
    [|reflexivity].
  destruct (lm <? lu); [|reflexivity].
  destruct (Z.abs (max_age self) <=? 999999999); [|reflexivity].
  destruct (_ && _); [|reflexivity].
  destruct (now_date <? _); reflexivity.
Qed.

(** C7 fails as stated: with a maximum age of 4000000 days, a session
    modified on 2020-01-01 10:00 and swept on 2020-01-02 09:00 meets the
    three conditions on 2020-01-03, but last-modified plus the maximum age
    is past the year 9999: the sum raises [OverflowError] and the session
    is not skipped. *)
Lemma session_skipped_overflows :
  marker session_B ≠ EmptyString
  ∧ sample_strptime (str_take 19 (last_modified session_B)) UPDATE_FORMAT
    = Some 36000000000
  ∧ sample_strptime (marker session_B) UPDATE_FORMAT = Some 118800000000
  ∧ 36000000000 < 118800000000
  ∧ 172800000000 < 36000000000 + timedelta_days (max_age ancient_launcher)
  ∧ fst (session_skipped sample_strptime ancient_launcher false None None
           172800000000 session_B world0)
    = Raise (CollabError "OverflowError" "date value out of range").
Proof. vm_compute. repeat split; discriminate. Qed.

(** C7 as amended: when no session filter was given, last-update tracking
    is on and the project has no new processor type, the session is
    skipped if and only if its marker is present (what follows the prefix
    in [last_updated] is not empty, and reads as the time [last_up]), the
    store's last-modified time is strictly earlier than [last_up],
    last-modified plus [max_age] days is a date of the calendar (a number
    of days [timedelta] accepts, a sum within the range of [datetime]),
    and the current time is strictly earlier than that date.  A session
    whose marker is absent is not skipped; a session modified before its
    marker whose last-modified plus [max_age] days is not a date raises
    [OverflowError]. *)
Theorem session_skipped_iff
    (strptime : string → string → option Z) (self : Launcher)
    (sessions_local : option string) (lastmod_delta : option Z)
    (now_date : Z) (sess_info : Info) (w : World) :
  skip_lastupdate self = false →
  truthy sessions_local = false →
  (fst (session_skipped strptime self false sessions_local lastmod_delta
          now_date sess_info w) = Ok true
   ↔ ∃ last_mod last_up,
       strptime (str_take 19 (last_modified sess_info)) UPDATE_FORMAT
       = Some last_mod
       ∧ marker sess_info ≠ EmptyString
       ∧ strptime (marker sess_info) UPDATE_FORMAT = Some last_up
       ∧ last_mod < last_up
       ∧ Z.abs (max_age self) ≤ 999999999
       ∧ is_datetime (last_mod + timedelta_days (max_age self))
       ∧ now_date < last_mod + timedelta_days (max_age self))
  ∧ (marker sess_info = EmptyString →
     fst (session_skipped strptime self false sessions_local lastmod_delta
            now_date sess_info w) ≠ Ok true)
  ∧ (∀ last_mod last_up,
       strptime (str_take 19 (last_modified sess_info)) UPDATE_FORMAT
       = Some last_mod →
       marker sess_info ≠ EmptyString →
       strptime (marker sess_info) UPDATE_FORMAT = Some last_up →
       last_mod < last_up →
       ¬ (Z.abs (max_age self) ≤ 999999999
          ∧ is_datetime (last_mod + timedelta_days (max_age self))) →
       ∃ m, fst (session_skipped strptime self false sessions_local
                   lastmod_delta now_date sess_info w)
            = Raise (CollabError "OverflowError" m)).
Proof.
  intros Hs Hl.
  rewrite (session_skipped_tracked strptime self sessions_local lastmod_delta
             now_date sess_info w Hs Hl).
  unfold is_datetime.
  destruct (strptime (str_take 19 (last_modified sess_info)) UPDATE_FORMAT)
    as [lm|] eqn:Elm.
  2:{ split; [|split]; [|discriminate|intros ? ? [=]].
      split; [discriminate | intros (? & ? & [=] & _)]. }
  destruct (String.eqb_spec (marker sess_info) EmptyString) as [Hk|Hk].
  { split; [|split]; [|discriminate|intros; contradiction].
    split; [discriminate | intros (? & ? & _ & H & _); contradiction]. }
  destruct (strptime (marker sess_info) UPDATE_FORMAT) as [lu|] eqn:Elu.
  2:{ split; [|split]; [|discriminate|intros ? ? _ _ [=]].
      split; [discriminate | intros (? & ? & _ & _ & [=] & _)]. }
  assert (Hcase :
    (lm <? lu) = false
    ∨ (lm < lu ∧ ¬ (Z.abs (max_age self) ≤ 999999999
                    ∧ datetime_min ≤ lm + timedelta_days (max_age self)
                      ≤ datetime_max)
       ∧ ∃ m, (if Z.abs (max_age self) <=? 999999999 then
                 if (datetime_min <=? lm + timedelta_days (max_age self))
                    && (lm + timedelta_days (max_age self) <=? datetime_max)
                 then Ok (now_date <? lm + timedelta_days (max_age self))
                 else Raise (CollabError "OverflowError"
                               "date value out of range")
               else Raise (CollabError "OverflowError"
                             "days; must have magnitude <= 999999999"))
              = Raise (CollabError "OverflowError" m)
              ∧ (lm <? lu) = true)
    ∨ (lm < lu ∧ (Z.abs (max_age self) ≤ 999999999
                  ∧ datetime_min ≤ lm + timedelta_days (max_age self)
                    ≤ datetime_max)
       ∧ (lm <? lu) = true
       ∧ (Z.abs (max_age self) <=? 999999999) = true
       ∧ ((datetime_min <=? lm + timedelta_days (max_age self))
          && (lm + timedelta_days (max_age self) <=? datetime_max)) = true)).
  { destruct (Z.ltb_spec lm lu) as [H1|H1]; [|by left]. right.
    destruct (Z.leb_spec (Z.abs (max_age self)) 999999999) as [H2|H2];
      [|left; split; [done|]; split; [lia|by eexists]].
    destruct (Z.leb_spec datetime_min (lm + timedelta_days (max_age self)))
      as [H3|H3]; cbn [andb];
      [|left; split; [done|]; split; [lia|by eexists]].
    destruct (Z.leb_spec (lm + timedelta_days (max_age self)) datetime_max)
      as [H4|H4];
      [|left; split; [done|]; split; [lia|by eexists]].
    right. repeat split; done. }
  destruct Hcase as [E|[(H1 & Hn & m & Em & E)|(H1 & Hy & E & E2 & E3)]];
    rewrite E.
  - apply Z.ltb_ge in E.
    split; [|split]; [|discriminate|intros ? ? [= <-] _ [= <-]; lia].
    split; [discriminate|].
    intros (? & ? & [= <-] & _ & [= <-] & ? & _). lia.
  - rewrite Em.
    split; [|split]; [|discriminate|intros; by exists m].
    split; [discriminate|].
    intros (? & ? & [= <-] & _ & [= <-] & _ & ? & ? & _). tauto.
  - rewrite E2, E3.
    split; [|split]; [|intros; contradiction
                      |intros ? ? [= <-] _ [= <-] _ Hn; tauto].
    destruct (Z.ltb_spec now_date (lm + timedelta_days (max_age self))).
    + split; [intros _|reflexivity]. exists lm, lu. tauto.
    + split; [discriminate|].
      intros (? & ? & [= <-] & _ & [= <-] & _ & _ & _ & ?). lia.
Qed.

(** The amended C7 at a session modified on 2020-01-01 10:00, swept on
    2020-01-02 09:00, looked at on 2020-01-03 00:00 with seven days of
    maximum age: it is skipped. *)
Lemma session_skipped_iff_witness :
  fst (session_skipped sample_strptime (sample_launcher 5 "xnat-cluster")
         false None None 172800000000 session_B world0) = Ok true.
Proof.
  apply (proj1 (session_skipped_iff sample_strptime
                  (sample_launcher 5 "xnat-cluster") None None
                  172800000000 session_B world0 eq_refl eq_refl)).
  exists 36000000000, 118800000000. vm_compute.
  repeat split; discriminate.
Defined.

(** ** Order of the sessions *)

Lemma str_in_In (x : string) (l : list string) : str_in x l = true ↔ In x l.
Proof.
  unfold str_in. rewrite existsb_exists. split.
  - intros (y & Hy & E). apply String.eqb_eq in E. by subst.
  - intros H. exists x. split; [exact H | apply String.eqb_refl].
Qed.

(** On a list whose labels keep swept and never-swept sessions apart, the
    second pass of [get_sessions_list] keeps exactly the swept sessions. *)
Lemma second_pass_is_swept (l : list Info) :
  labels_separate l →
  List.filter
    (λ s, negb (str_in (label s) (List.map label (List.filter never_swept l))))
    l
  = List.filter (λ s, negb (never_swept s)) l.
Proof.
  intros Hsep. apply filter_ext_in. intros s Hs. f_equal.
  destruct (never_swept s) eqn:En.
  - apply str_in_In, in_map, filter_In. done.
  - destruct (str_in _ _) eqn:Ei; [|reflexivity].
    apply str_in_In, in_map_iff in Ei. destruct Ei as (s' & El & Hs').
    apply filter_In in Hs'. destruct Hs' as [Hs' En'].
    destruct (Hsep s' s Hs' Hs En' En El).
Qed.

(** C8, the code at a failing input: a project list of two sessions with
    the label S, the first never swept and the second swept, and no
    filter.  The second pass keeps a session when its label is not among
    the labels of the never-swept ones: the swept session is dropped and
    only the first is returned. *)
Theorem get_sessions_list_drops_same_label :
  fst (get_sessions_list [session_S_new; session_S_old] None world0)
  = Ok [session_S_new]
  ∧ ¬ In session_S_old [session_S_new].
Proof.
  split; [reflexivity|]. intros [H|[]]. discriminate H.
Qed.

(** The order of the sessions where the second pass loses nothing: when
    no previously-swept session of the list (after the filter) bears the
    label of a never-swept one, [get_sessions_list] returns every session
    of the list: the never-swept ones (empty [last_updated]) first, in
    their input order, then the previously-swept ones, in their input
    order, logging at most a warning. *)
Theorem get_sessions_list_new_first
    (list_sessions : list Info) (slocal : option string) (w : World) :
  labels_separate (filter_by_slocal list_sessions slocal) →
  ∃ evs,
    get_sessions_list list_sessions slocal w
    = (Ok (List.filter never_swept (filter_by_slocal list_sessions slocal)
           ++ List.filter (λ s, negb (never_swept s))
                (filter_by_slocal list_sessions slocal))%list,
       mkWorld (reads w) (trace w ++ evs))
    ∧ Forall is_warning evs.
Proof.
  intros Hsep. unfold get_sessions_list.
  set (line := match slocal with Some _ => _ | None => _ end).
  assert (∃ evs, line w = (Ok tt, mkWorld (reads w) (trace w ++ evs))
                 ∧ Forall is_warning evs) as (evs & E & F).
  { assert (Hnil : line = ret tt → ∃ evs,
              line w = (Ok tt, mkWorld (reads w) (trace w ++ evs))
              ∧ Forall is_warning evs).
    { intros ->. exists []. unfold ret. rewrite app_nil_r.
      by destruct w. }
    subst line. destruct slocal as [sl|]; [|by apply Hnil].
    destruct (_ && _ && _); [|by apply Hnil].
    eexists. split; [reflexivity|]. constructor; [|constructor].
    by do 2 eexists. }
  exists evs. unfold bind. rewrite E. unfold ret.
  fold never_swept. rewrite (second_pass_is_swept _ Hsep). done.
Qed.

(** On the scenario of three sessions A (never swept), B (swept), C
    (never swept), they come back in the order A, C, B. *)
Lemma get_sessions_list_new_first_witness :
  ∃ evs,
    get_sessions_list [session_A; session_B; session_C] None world0
    = (Ok [session_A; session_C; session_B],
       mkWorld (reads world0) (trace world0 ++ evs))
    ∧ Forall is_warning evs.
Proof.
  apply (get_sessions_list_new_first [session_A; session_B; session_C]
           None world0).
  intros s s' [<-|[<-|[<-|[]]]] [<-|[<-|[<-|[]]]]; vm_compute;
    intros; discriminate.
Defined.

(** ** Construction *)

(** C10: [__init__] does not read its [max_age] parameter.  Two calls that
    differ only in that argument do the same and build the same object;
    this holds for the default 7 as for any other value; and the
    [max_age] the object holds, the one the staleness test of
    [build_project] reads, is the one of the global settings. *)
Theorem Launcher_init_ignores_max_age
    (DAX_SETTINGS : DAX_Settings) (env : Env) (a : InitArgs) (m1 m2 : Z)
    (w : World) :
  Launcher_init DAX_SETTINGS env (with_max_age a m1) w
  = Launcher_init DAX_SETTINGS env (with_max_age a m2) w
  ∧ Launcher_init DAX_SETTINGS env a w
    = Launcher_init DAX_SETTINGS env (with_max_age a m1) w
  ∧ (∀ ppd pmd,
       Launcher_init DAX_SETTINGS env (default_args DAX_SETTINGS ppd pmd) w
       = Launcher_init DAX_SETTINGS env
           (with_max_age (default_args DAX_SETTINGS ppd pmd) m1) w)
  ∧ match fst (Launcher_init DAX_SETTINGS env a w) with
    | Ok self => max_age self = get_max_age DAX_SETTINGS
    | Raise _ => True
    end.
Proof.
  split; [reflexivity|]. split; [by destruct a|]. split; [reflexivity|].
  unfold Launcher_init, bind.
  destruct (init_dirs _ _ w) as [[[]|e] w1]; [|exact I].
  destruct (truthy (arg_xnat_host a)); cbn [ret];
    [|destruct (environ_XNAT_HOST env); cbn [ret raise]; [|exact I]];
    (destruct (negb (truthy (arg_xnat_user a))); cbn [ret];
     [destruct (netrc_get_login env _); reflexivity|]);
    (destruct (negb (truthy (arg_xnat_pass a))); cbn [ret raise];
     [exact I | reflexivity]).
Qed.

(** * Properties of the rest of the launcher *)

(** ** Durations *)

Lemma append_cons (x : ascii) (s t : string) :
  (String x s ++ t)%string = String x (s ++ t)%string.
Proof. reflexivity. Qed.

Lemma append_nil (t : string) : (EmptyString ++ t)%string = t.
Proof. reflexivity. Qed.

Lemma str_init_snoc (s : string) (c : ascii) :
  str_init (s ++ String c EmptyString) = s.
Proof.
  induction s as [|x s IH]; [reflexivity|]. rewrite append_cons.
  cbn [str_init]. destruct (s ++ String c EmptyString)%string eqn:E.
  - destruct s; discriminate E.
  - f_equal. exact IH.
Qed.

Lemma str_last_snoc (s : string) (c : ascii) :
  str_last (s ++ String c EmptyString) = Some c.
Proof.
  induction s as [|x s IH]; [reflexivity|]. rewrite append_cons.
  cbn [str_last]. destruct (s ++ String c EmptyString)%string eqn:E.
  - destruct s; discriminate E.
  - exact IH.
Qed.

Lemma length_snoc (s : string) (c : ascii) :
  String.length (s ++ String c EmptyString) = S (String.length s).
Proof.
  induction s as [|x s IH]; [reflexivity|].
  rewrite append_cons. cbn [String.length]. by rewrite IH.
Qed.

(** A string of two characters or more is its [s[:-1]] followed by its last
    character. *)
Lemma str_init_last (s : string) :
  (2 <= String.length s)%nat →
  ∃ c, str_last s = Some c ∧ s = (str_init s ++ String c EmptyString)%string.
Proof.
  induction s as [|x s IH]; cbn; [lia|]. intros H.
  destruct s as [|y s]; [cbn in H; lia|].
  destruct s as [|z s].
  - exists y. split; reflexivity.
  - destruct IH as (c & L & E); [cbn; lia|]. exists c. split; [exact L|].
    change (str_init (String x (String y (String z s))))
      with (String x (str_init (String y (String z s)))).
    rewrite append_cons. f_equal. exact E.
Qed.

Lemma timedelta_inv us d : timedelta us = Ok d → d = us.
Proof. unfold timedelta. destruct (_ <=? _); [by intros [=]|discriminate]. Qed.

Lemma timedelta_raises us e :
  timedelta us = Raise e → is_ValueError_or_Overflow e.
Proof.
  unfold timedelta. destruct (_ <=? _); [discriminate|].
  intros [= <-]. right. by eexists.
Qed.

(** The unit test of [str_to_timedelta] as one lookup of the last
    character. *)
Lemma str_to_timedelta_unit py_int s v :
  (2 <= String.length s)%nat →
  py_int (str_init s) = Some v →
  str_to_timedelta py_int s
  = match str_last s ≫= unit_scale with
    | Some k => timedelta (v * k)
    | None => Raise invalid_timedelta
    end.
Proof.
  intros Hlen Hv. unfold str_to_timedelta.
  destruct (Nat.leb_spec (String.length s) 1); [lia|]. rewrite Hv.
  unfold endswith_char, unit_scale.
  destruct (str_last s) as [c|] eqn:L; cbn; [|reflexivity].
  repeat (destruct (Ascii.eqb c _); [reflexivity|]). reflexivity.
Qed.

(** X1: [str_to_timedelta] returns a duration only for a string of at
    least two characters whose last character is s, m, h or d and whose
    other characters [int] accepts; the duration is then the integer times
    the unit.  A string of at most one character is refused whatever it
    holds, and every refusal is a [ValueError] or, for a duration beyond
    999999999 days, an [OverflowError]. *)
Theorem str_to_timedelta_sound (py_int : string → option Z) (s : string) :
  (∀ d, str_to_timedelta py_int s = Ok d →
     (2 <= String.length s)%nat
     ∧ ∃ v c k, py_int (str_init s) = Some v ∧ str_last s = Some c
                ∧ unit_scale c = Some k ∧ d = v * k
                ∧ Z.abs (d / 86400000000) ≤ 999999999)
  ∧ ((String.length s <= 1)%nat →
     str_to_timedelta py_int s = Raise invalid_timedelta)
  ∧ (∀ e, str_to_timedelta py_int s = Raise e → is_ValueError_or_Overflow e).
Proof.
  split; [|split].
  - intros d. destruct (Nat.leb_spec (String.length s) 1) as [Hs|Hs].
    { unfold str_to_timedelta.
      destruct (Nat.leb_spec (String.length s) 1); [discriminate|lia]. }
    destruct (py_int (str_init s)) as [v|] eqn:Hv.
    + rewrite (str_to_timedelta_unit py_int s v) by (lia || done).
      destruct (str_last s) as [c|] eqn:L; cbn; [|discriminate].
      destruct (unit_scale c) as [k|] eqn:K; [|discriminate].
      intros Hd. split; [lia|]. exists v, c, k.
      pose proof (timedelta_inv _ _ Hd) as ->. do 4 (split; [done|]).
      unfold timedelta in Hd.
      destruct (Z.leb_spec (Z.abs (v * k / 86400000000)) 999999999);
        [done|discriminate].
    + unfold str_to_timedelta.
      destruct (Nat.leb_spec (String.length s) 1); [lia|]. by rewrite Hv.
  - intros Hs. unfold str_to_timedelta.
    destruct (Nat.leb_spec (String.length s) 1); [reflexivity|lia].
  - intros e. unfold str_to_timedelta.
    destruct (_ <=? _)%nat; [intros [= <-]; left; by eexists|].
    destruct (py_int _); [|intros [= <-]; left; by eexists].
    repeat (destruct (endswith_char s _); [apply timedelta_raises|]).
    intros [= <-]. left. by eexists.
Qed.

(** X2: the units agree.  For number texts that [int] accepts, N minutes
    is 60 N seconds, N hours is 60 N minutes, N days is 24 N hours, as
    results of [str_to_timedelta] (durations and refusals alike); and N
    days, within the range of [timedelta], is the duration the staleness
    test adds for a maximum age of N days. *)
Theorem str_to_timedelta_units_agree (py_int : string → option Z)
    (n1 n2 : string) (v1 v2 : Z) :
  n1 ≠ EmptyString → n2 ≠ EmptyString →
  py_int n1 = Some v1 → py_int n2 = Some v2 →
  (v1 = 60 * v2 →
   str_to_timedelta py_int (n1 ++ "s") = str_to_timedelta py_int (n2 ++ "m")
   ∧ str_to_timedelta py_int (n1 ++ "m") = str_to_timedelta py_int (n2 ++ "h"))
  ∧ (v1 = 24 * v2 →
     str_to_timedelta py_int (n1 ++ "h") = str_to_timedelta py_int (n2 ++ "d"))
  ∧ (Z.abs v2 ≤ 999999999 →
     str_to_timedelta py_int (n2 ++ "d") = Ok (timedelta_days v2)).
Proof.
  intros N1 N2 H1 H2.
  assert (L : ∀ n, n ≠ EmptyString → ∀ c,
            (2 <= String.length (n ++ String c EmptyString))%nat)
    by (intros n Hn c; rewrite length_snoc; destruct n; [done|cbn; lia]).
  assert (R : ∀ n v c, n ≠ EmptyString → py_int n = Some v →
            str_to_timedelta py_int (n ++ String c EmptyString)
            = match unit_scale c with
              | Some k => timedelta (v * k)
              | None => Raise invalid_timedelta
              end).
  { intros n v c Hn Hv.
    rewrite (str_to_timedelta_unit py_int _ v);
      [by rewrite str_last_snoc | by apply L | by rewrite str_init_snoc]. }
  split; [|split].
  - intros ->. split.
    + rewrite (R n1 (60 * v2) "s"%char N1 H1), (R n2 v2 "m"%char N2 H2).
      cbn. f_equal. lia.
    + rewrite (R n1 (60 * v2) "m"%char N1 H1), (R n2 v2 "h"%char N2 H2).
      cbn. f_equal. lia.
  - intros ->.
    rewrite (R n1 (24 * v2) "h"%char N1 H1), (R n2 v2 "d"%char N2 H2).
    cbn. f_equal. lia.
  - intros Hr. rewrite (R n2 v2 "d"%char N2 H2). cbn.
    unfold timedelta, timedelta_days.
    rewrite Z.div_mul by lia.
    destruct (Z.leb_spec (Z.abs v2) 999999999); [reflexivity|lia].
Qed.

(** X2 at the texts 120 and 2: 120 seconds are 2 minutes. *)
Lemma str_to_timedelta_units_agree_witness :
  str_to_timedelta sample_int ("120" ++ "s")
  = str_to_timedelta sample_int ("2" ++ "m").
Proof.
  apply (str_to_timedelta_units_agree sample_int "120" "2" 120 2);
    (discriminate || reflexivity).
Defined.

(** X1 at the text 3d: three days. *)
Lemma str_to_timedelta_sound_witness :
  (2 <= String.length "3d")%nat
  ∧ ∃ v c k, sample_int (str_init "3d") = Some v ∧ str_last "3d" = Some c
             ∧ unit_scale c = Some k ∧ 259200000000 = v * k
             ∧ Z.abs (259200000000 / 86400000000) ≤ 999999999.
Proof.
  apply (proj1 (str_to_timedelta_sound sample_int "3d") 259200000000).
  reflexivity.
Defined.

(** ** The modification delta *)

(** X3: the rule on the modification delta.  When the last-update test is
    not the one that applies (tracking is off, or the project has a new
    processor type, or a session filter was given), the session is skipped
    if and only if a delta other than zero is set, the store's
    last-modified time can be read, last-modified plus the delta is a date
    of the calendar, and the current time is strictly later than that
    date; when the sum is not a date the test raises [OverflowError].
    Without a delta, or with a delta of zero, nothing is read or logged and
    the session is not skipped, even when its [last_modified] cannot be
    parsed. *)
Theorem session_skipped_by_delta
    (strptime : string → string → option Z) (self : Launcher)
    (has_new : bool) (sessions_local : option string)
    (lastmod_delta : option Z) (now_date : Z) (sess_info : Info) (w : World) :
  skip_lastupdate self = true ∨ has_new = true ∨ truthy sessions_local = true →
  (fst (session_skipped strptime self has_new sessions_local lastmod_delta
          now_date sess_info w) = Ok true
   ↔ ∃ delta last_mod,
       lastmod_delta = Some delta ∧ delta ≠ 0
       ∧ strptime (str_take 19 (last_modified sess_info)) UPDATE_FORMAT
         = Some last_mod
       ∧ is_datetime (last_mod + delta)
       ∧ last_mod + delta < now_date)
  ∧ (∀ delta last_mod,
       lastmod_delta = Some delta → delta ≠ 0 →
       strptime (str_take 19 (last_modified sess_info)) UPDATE_FORMAT
       = Some last_mod →
       ¬ is_datetime (last_mod + delta) →
       session_skipped strptime self has_new sessions_local lastmod_delta
         now_date sess_info w
       = (Raise (CollabError "OverflowError" "date value out of range"), w))
  ∧ (lastmod_delta = None ∨ lastmod_delta = Some 0 →
     session_skipped strptime self has_new sessions_local lastmod_delta
       now_date sess_info w = (Ok false, w)).
Proof.
  intros H. unfold session_skipped.
  assert (negb (skip_lastupdate self) && negb has_new
          && negb (truthy sessions_local) = false) as ->.
  { destruct H as [-> | [-> | ->]]; cbn; rewrite ?andb_false_r; done. }
  split; [|split].
  - destruct lastmod_delta as [d|]; cbn [fst].
    2:{ split; [discriminate | intros (? & ? & [=] & _)]. }
    destruct (Z.eqb_spec d 0) as [->|Hd]; cbn [negb fst].
    { split; [discriminate | intros (? & ? & [= <-] & ? & _); done]. }
    unfold bind at 1, py_strptime.
    destruct (strptime _ _) as [lm|] eqn:E; cbn [ret raise fst].
    2:{ split; [discriminate | intros (? & ? & _ & _ & [=] & _)]. }
    unfold bind at 1, datetime_add, is_datetime.
    destruct (Z.leb_spec datetime_min (lm + d)) as [L1|L1]; cbn [andb];
      [destruct (Z.leb_spec (lm + d) datetime_max) as [L2|L2]|];
      cbn [ret raise fst].
    + destruct (Z.ltb_spec (lm + d) now_date) as [L|L]; cbn.
      * split; [intros _|done]. exists d, lm. done.
      * split; [discriminate|].
        intros (? & ? & [= <-] & _ & [= <-] & _ & ?). lia.
    + split; [discriminate|].
      intros (? & ? & [= <-] & _ & [= <-] & ? & _). lia.
    + split; [discriminate|].
      intros (? & ? & [= <-] & _ & [= <-] & ? & _). lia.
  - intros d lm -> Hd Hm Hn.
    destruct (Z.eqb_spec d 0) as [|_]; [contradiction|]. cbn [negb].
    unfold bind at 1, py_strptime. rewrite Hm. unfold ret at 1.
    unfold bind at 1, datetime_add. unfold is_datetime in Hn.
    destruct (Z.leb_spec datetime_min (lm + d)) as [L1|L1]; cbn [andb];
      [destruct (Z.leb_spec (lm + d) datetime_max) as [L2|L2]|];
      try reflexivity.
    destruct Hn. lia.
  - intros [-> | ->]; reflexivity.
Qed.

(** X3 at a session filter and a delta of one hour, two days after the
    session was modified: the session is skipped. *)
Lemma session_skipped_by_delta_witness :
  fst (session_skipped sample_strptime (sample_launcher 5 "xnat-cluster")
         false (Some "B") (Some 3600000000) 172800000000 session_B world0)
  = Ok true.
Proof.
  apply (proj1 (session_skipped_by_delta sample_strptime
                  (sample_launcher 5 "xnat-cluster") false (Some "B")
                  (Some 3600000000) 172800000000 session_B world0
                  (or_intror (or_intror eq_refl)))).
  exists 3600000000, 36000000000. vm_compute. repeat split; discriminate.
Defined.

(** ** The marker *)

Lemma str_drop_short (n : nat) (s : string) :
  (String.length s <= n)%nat → str_drop n s = EmptyString.
Proof.
  revert s. induction n as [|n IH]; intros [|c s]; cbn; try (done || lia).
  intros H. apply IH. lia.
Qed.

Lemma str_drop_app (p s : string) :
  str_drop (String.length p) (p ++ s) = s.
Proof. induction p as [|c p IH]; [reflexivity | exact IH]. Qed.

(** X4: [get_lastupdated] never compares the first nine characters of
    [last_updated] with the prefix: it drops them whatever they are.  A
    value of at most nine characters, the bare prefix included, reads as
    an absent marker; a value made of any nine characters followed by a
    text reads as that text does after the true prefix. *)
Theorem get_lastupdated_ignores_prefix
    (strptime : string → string → option Z) (info : Info) (w : World) :
  ((String.length (last_updated info) <= 9)%nat →
   get_lastupdated strptime info w = (Ok None, w))
  ∧ (∀ p text, String.length p = 9%nat →
       get_lastupdated strptime (with_last_updated info (p ++ text)) w
       = get_lastupdated strptime
           (with_last_updated info (UPDATE_PREFIX ++ text)) w).
Proof.
  split.
  - intros H. unfold get_lastupdated. cbn [String.length UPDATE_PREFIX].
    by rewrite (str_drop_short 9 _ H).
  - intros p text Hp. unfold get_lastupdated.
    cbn [last_updated with_last_updated].
    rewrite (str_drop_app UPDATE_PREFIX text).
    change (String.length UPDATE_PREFIX) with 9%nat. rewrite <- Hp.
    by rewrite str_drop_app.
Qed.

(** X4 at a value of nine characters. *)
Lemma get_lastupdated_ignores_prefix_witness :
  get_lastupdated sample_strptime
    (with_last_updated session_A "updated--") world0
  = (Ok None, world0).
Proof.
  apply (proj1 (get_lastupdated_ignores_prefix sample_strptime
                  (with_last_updated session_A "updated--") world0)).
  simpl. lia.
Defined.

(** ** The order of the projects *)

(** X5: [get_project_list] puts the priority projects first, in the order
    of the priority list, and then the other projects in the order given.
    Its result holds every priority project, in the settings or not, and
    every project given; the projects outside the priority list keep their
    order and number; and it repeats nothing when neither list does. *)
Theorem get_project_list_priority_first
    (self : Launcher) (priority all_projects : list string) :
  priority_project self = Some priority →
  ∃ others,
    get_project_list self all_projects = Ok (priority ++ others)%list
    ∧ (∀ x, In x (priority ++ others) ↔ In x priority ∨ In x all_projects)
    ∧ (∀ x, In x others → ¬ In x priority)
    ∧ others = List.filter (λ x, negb (str_in x priority)) all_projects
    ∧ (List.NoDup priority → List.NoDup all_projects →
       List.NoDup (priority ++ others)).
Proof.
  intros Hp. unfold get_project_list. rewrite Hp. eexists.
  split; [reflexivity|]. split; [|split; [|split; [reflexivity|]]].
  - intros x. rewrite in_app_iff, filter_In. split; [tauto|].
    intros [H|H]; [by left|].
    destruct (str_in x priority) eqn:E; [left; by apply str_in_In|].
    right. done.
  - intros x Hx. apply filter_In in Hx. destruct Hx as [_ Hx].
    rewrite <- str_in_In. by destruct (str_in x priority).
  - intros N1 N2. apply List.NoDup_app; [exact N1 | |].
    + by apply List.NoDup_filter.
    + intros x H1 H2. apply filter_In in H2. destruct H2 as [_ H2].
      apply str_in_In in H1. by rewrite H1 in H2.
Qed.

(** X5 at a priority list that names a project outside the settings. *)
Lemma get_project_list_priority_first_witness :
  ∃ others,
    get_project_list (priority_launcher ["B"; "Z"]) ["A"; "B"; "C"]
    = Ok (["B"; "Z"] ++ others)%list
    ∧ (∀ x, In x (["B"; "Z"] ++ others)
            ↔ In x ["B"; "Z"] ∨ In x ["A"; "B"; "C"])
    ∧ (∀ x, In x others → ¬ In x ["B"; "Z"])
    ∧ others = List.filter (λ x, negb (str_in x ["B"; "Z"])) ["A"; "B"; "C"]
    ∧ (List.NoDup ["B"; "Z"] → List.NoDup ["A"; "B"; "C"] →
       List.NoDup (["B"; "Z"] ++ others)).
Proof.
  apply (get_project_list_priority_first (priority_launcher ["B"; "Z"])
           ["B"; "Z"] ["A"; "B"; "C"]).
  reflexivity.
Defined.

(** ** The lock *)

(** X6: the lock excludes.  Once [lock_flagfile] has returned [True] on a
    marker, a second call on it returns [False] and changes nothing; when
    the marker can be removed, [unlock_flagfile] puts the files back as
    they were before the lock, and the marker can then be taken again. *)
Theorem lock_flagfile_excludes
    (disk : Disk) (lock_file : string) (files files' : gset string) :
  lock_flagfile disk lock_file files = (Ok true, files') →
  (lock_file ∉ files)
  ∧ (lock_file ∈ files')
  ∧ lock_flagfile disk lock_file files' = (Ok false, files')
  ∧ (can_remove disk lock_file = true →
     unlock_flagfile disk lock_file files' = (Ok tt, files)
     ∧ lock_flagfile disk lock_file files = (Ok true, files')).
Proof.
  unfold lock_flagfile, unlock_flagfile.
  destruct (bool_decide_reflect (lock_file ∈ files)) as [Hin|Hin];
    [discriminate|].
  destruct (can_create disk lock_file) eqn:Hc; [|discriminate].
  intros [= <-].
  assert (Hin' : lock_file ∈ ({[lock_file]} ∪ files : gset string))
    by (apply elem_of_union; left; by apply elem_of_singleton).
  split; [done|]. split; [done|].
  rewrite !(bool_decide_eq_true_2 _ Hin'). split; [done|].
  intros ->. split; [|done]. f_equal. apply set_eq. intros x.
  rewrite elem_of_difference, elem_of_union, elem_of_singleton.
  split; [intros [[->|H] N]; done|]. intros H. split; [by right|].
  intros ->. done.
Qed.

(** X6 on an empty directory of flag files. *)
Lemma lock_flagfile_excludes_witness :
  lock_flagfile kind_disk "FlagFiles/a_BUILD_RUNNING.txt"
    {["FlagFiles/a_BUILD_RUNNING.txt"]}
  = (Ok false, {["FlagFiles/a_BUILD_RUNNING.txt"]}).
Proof.
  apply (lock_flagfile_excludes kind_disk "FlagFiles/a_BUILD_RUNNING.txt"
           ∅ {["FlagFiles/a_BUILD_RUNNING.txt"]}).
  vm_compute. reflexivity.
Defined.

(** X7: what the lock leaves alone.  [lock_flagfile] on a marker that
    exists returns [False] without writing; [unlock_flagfile] on a marker
    that does not exist returns without error, so that a second unlock
    does nothing; a call that raises changes no file; and neither function
    creates or removes any path other than the marker. *)
Theorem lock_touches_only_marker
    (disk : Disk) (lock_file : string) (files : gset string) :
  (lock_file ∈ files → lock_flagfile disk lock_file files = (Ok false, files))
  ∧ (lock_file ∉ files →
     unlock_flagfile disk lock_file files = (Ok tt, files))
  ∧ (∀ files', unlock_flagfile disk lock_file files = (Ok tt, files') →
       unlock_flagfile disk lock_file files' = (Ok tt, files'))
  ∧ (∀ e files', lock_flagfile disk lock_file files = (Raise e, files') →
       files' = files)
  ∧ (∀ e files', unlock_flagfile disk lock_file files = (Raise e, files') →
       files' = files)
  ∧ (∀ r files' other, lock_flagfile disk lock_file files = (r, files') →
       other ≠ lock_file → (other ∈ files' ↔ other ∈ files))
  ∧ (∀ r files' other, unlock_flagfile disk lock_file files = (r, files') →
       other ≠ lock_file → (other ∈ files' ↔ other ∈ files)).
Proof.
  unfold lock_flagfile, unlock_flagfile.
  destruct (bool_decide_reflect (lock_file ∈ files)) as [Hin|Hin];
    destruct (can_create disk lock_file), (can_remove disk lock_file);
    repeat split; intros; simplify_eq; try done;
    rewrite ?bool_decide_eq_false_2
      by first [done | rewrite elem_of_difference, elem_of_singleton; tauto];
    try done;
    rewrite ?elem_of_union, ?elem_of_difference, ?elem_of_singleton in *;
    tauto.
Qed.

(** X7 on a marker that is held. *)
Lemma lock_touches_only_marker_witness :
  lock_flagfile kind_disk "m" {["m"]} = (Ok false, {["m"]}).
Proof.
  apply (proj1 (lock_touches_only_marker kind_disk "m" {["m"]})).
  by apply elem_of_singleton.
Defined.

(** ** The disk queue *)

(** The loop of [load_task_queue] on tasks whose status can be read: it
    appends the selected tasks in listing order and logs debug lines
    only. *)
Lemma load_loop_spec Cn S status (names : list string) :
  Forall (λ t, status_readable (batch_task Cn S t)) names →
  ∀ acc w, ∃ evs,
    load_loop Cn S status names acc w
    = (Ok (acc ++ List.filter (status_selected status)
                    (List.map (batch_task Cn S) names))%list,
       mkWorld (reads w) (trace w ++ evs))
    ∧ Forall is_debug evs.
Proof.
  induction 1 as [|t names [st Hst] _ IH]; intros acc w.
  - exists []. cbn. unfold ret. rewrite !app_nil_r. by destruct w.
  - cbn [load_loop List.map List.filter].
    fold (batch_task Cn S t). unfold status_selected at 1. rewrite Hst.
    unfold bind at 1, log, emit. unfold bind at 1, of_outcome, ret at 1.
    unfold bind at 1. cbn [reads trace]. unfold bind at 1.
    destruct (status_falsy status); cbn [orb].
    + unfold ret at 1. unfold bind at 1. cbn [reads trace].
      edestruct IH as (evs & E & F). rewrite E. cbn [reads trace].
      rewrite <- !app_assoc. eexists. split; [reflexivity|].
      repeat (constructor; [by do 2 eexists|]). exact F.
    + unfold bind at 1, ret at 1. unfold ret at 1.
      destruct (bool_decide (Some st = status)).
      * unfold bind at 1. cbn [reads trace].
        edestruct IH as (evs & E & F). rewrite E. cbn [reads trace].
        rewrite <- !app_assoc. eexists. split; [reflexivity|].
        repeat (constructor; [by do 2 eexists|]). exact F.
      * edestruct IH as (evs & E & F). rewrite E. cbn [reads trace].
        rewrite <- !app_assoc. eexists. split; [reflexivity|].
        repeat (constructor; [by do 2 eexists|]). exact F.
Qed.

(** The loop leaves at the first task whose status cannot be read. *)
Lemma load_loop_raises Cn S status (before : list string) t e after :
  Forall (λ t, status_readable (batch_task Cn S t)) before →
  task_get_status (batch_task Cn S t) = Throws e →
  ∀ acc w, ∃ evs,
    load_loop Cn S status (before ++ t :: after) acc w
    = (Raise e, mkWorld (reads w) (trace w ++ evs)).
Proof.
  intros Hb Ht. induction Hb as [|x before [st Hst] _ IH]; intros acc w.
  - cbn [app load_loop]. fold (batch_task Cn S t). rewrite Ht.
    unfold bind at 1, log, emit. unfold bind at 1, of_outcome, raise.
    cbn [reads trace]. by eexists.
  - cbn [app load_loop]. fold (batch_task Cn S x). rewrite Hst.
    unfold bind at 1, log, emit. unfold bind at 1, of_outcome, ret at 1.
    unfold bind at 1. cbn [reads trace]. unfold bind at 1.
    destruct (status_falsy status).
    + unfold ret at 1. unfold bind at 1. cbn [reads trace].
      edestruct IH as (evs & E). rewrite E. cbn [reads trace].
      rewrite <- !app_assoc. by eexists.
    + unfold bind at 1, ret at 1. unfold ret at 1.
      destruct (bool_decide (Some st = status)).
      * unfold bind at 1. cbn [reads trace].
        edestruct IH as (evs & E). rewrite E. cbn [reads trace].
        rewrite <- !app_assoc. by eexists.
      * edestruct IH as (evs & E). rewrite E. cbn [reads trace].
        rewrite <- !app_assoc. by eexists.
Qed.

(** X8: what [load_task_queue] returns and when it raises.  An exception
    of [os.listdir] on the BATCH directory leaves the function at once.
    When the directory is listed and the status of every task of the
    listing can be read, the load logs debug lines only and returns, in
    listing order and named by the file name without its extension, one
    task per name when no status is asked for ([None] or the empty
    string), and otherwise the tasks whose status is the one asked for.
    An exception of [get_status()] is not caught: the load raises it at
    the first task whose status cannot be read. *)
Theorem load_task_queue_selects
    (ClusterTask_new : string → string → string → Task)
    (DAX_SETTINGS : DAX_Settings) (batch_listing : outcome (list string))
    (w : World) :
  (∀ e status, batch_listing = Throws e →
     load_task_queue ClusterTask_new DAX_SETTINGS batch_listing status w
     = (Raise e, w))
  ∧ (∀ names status, batch_listing = Returns names →
       Forall (λ t, status_readable (batch_task ClusterTask_new DAX_SETTINGS t))
         names →
       ∃ evs,
         load_task_queue ClusterTask_new DAX_SETTINGS batch_listing status w
         = (Ok (List.filter (status_selected status)
                  (List.map (batch_task ClusterTask_new DAX_SETTINGS) names)),
            mkWorld (reads w) (trace w ++ evs))
         ∧ Forall is_debug evs)
  ∧ (∀ (before : list string) t after e status,
       batch_listing = Returns (before ++ t :: after)%list →
       Forall (λ t, status_readable (batch_task ClusterTask_new DAX_SETTINGS t))
         before →
       task_get_status (batch_task ClusterTask_new DAX_SETTINGS t) = Throws e →
       ∃ evs,
         load_task_queue ClusterTask_new DAX_SETTINGS batch_listing status w
         = (Raise e, mkWorld (reads w) (trace w ++ evs)))
  ∧ (∀ status tasks, status_falsy status = true →
       List.filter (status_selected status) tasks = tasks)
  ∧ (∀ X t tasks, status_falsy (Some X) = false →
       (In t (List.filter (status_selected (Some X)) tasks)
        ↔ In t tasks ∧ task_get_status t = Returns X)).
Proof.
  split; [|split; [|split; [|split]]].
  - intros e status ->. reflexivity.
  - intros names status -> Hr. unfold load_task_queue, bind, of_outcome, ret.
    apply (load_loop_spec _ _ status names Hr [] w).
  - intros before t after e status -> Hr Ht.
    unfold load_task_queue, bind, of_outcome, ret.
    apply (load_loop_raises _ _ status before t e after Hr Ht [] w).
  - intros status tasks Hf. apply forallb_filter_id, forallb_forall.
    intros t _. unfold status_selected. by rewrite Hf.
  - intros X t tasks Hf. rewrite filter_In. unfold status_selected.
    rewrite Hf. cbn [orb]. destruct (task_get_status t) as [st|e].
    + rewrite bool_decide_eq_true. split.
      * intros [H [= ->]]. done.
      * intros [H [= ->]]. done.
    + split; [intros [_ [=]]|intros [_ [=]]].
Qed.

(** X8 on a directory of three batch files, the last of which names a task
    whose status file is lost, loaded for NEED_TO_RUN: the load raises. *)
Lemma load_task_queue_selects_witness :
  ∃ evs,
    load_task_queue sample_ClusterTask sample_settings
      (Returns (["done1.pbs"; "run1.pbs"] ++ "lost.pbs" :: [])%list)
      (Some NEED_TO_RUN) world0
    = (Raise (CollabError "IOError" "lost"),
       mkWorld (reads world0) (trace world0 ++ evs)).
Proof.
  apply (proj1 (proj2 (proj2 (load_task_queue_selects sample_ClusterTask
                                sample_settings
                                (Returns (["done1.pbs"; "run1.pbs"]
                                          ++ "lost.pbs" :: [])%list)
                                world0)))
           ["done1.pbs"; "run1.pbs"] "lost.pbs" [] (CollabError "IOError" "lost")
           (Some NEED_TO_RUN) eq_refl).
  - repeat constructor; by eexists.
  - reflexivity.
Defined.

(** *** File names and extensions *)

Lemma rfind_from_app c (a b : string) :
  ∀ i found,
    rfind_from c (a ++ b) i found
    = rfind_from c b (i + Z.of_nat (String.length a)) (rfind_from c a i found).
Proof.
  induction a as [|x a IH]; intros i found.
  - rewrite append_nil. cbn. f_equal. lia.
  - rewrite append_cons. cbn [rfind_from String.length]. rewrite IH.
    f_equal. lia.
Qed.

Lemma rfind_from_absent c (s : string) :
  str_has c s = false → ∀ i found, rfind_from c s i found = found.
Proof.
  induction s as [|x s IH]; intros H i found; [reflexivity|].
  cbn in H. apply orb_false_iff in H. destruct H as [Hx Hs].
  cbn. rewrite Hx. by apply IH.
Qed.

(** What [rfind] returns is the default or an index of the string. *)
Lemma rfind_from_range c (s : string) :
  ∀ i found,
    rfind_from c s i found = found
    ∨ i ≤ rfind_from c s i found < i + Z.of_nat (String.length s).
Proof.
  induction s as [|x s IH]; intros i found; [by left|].
  cbn [rfind_from String.length].
  destruct (IH (i + 1) (if Ascii.eqb x c then i else found)) as [E|R].
  - rewrite E. destruct (Ascii.eqb x c); [right; lia | by left].
  - right. lia.
Qed.

Lemma has_non_dot_app (a b : string) :
  ∀ i lo hi,
    has_non_dot (a ++ b) i lo hi
    = has_non_dot a i lo hi
      || has_non_dot b (i + Z.of_nat (String.length a)) lo hi.
Proof.
  induction a as [|x a IH]; intros i lo hi.
  - rewrite append_nil. cbn. f_equal. lia.
  - rewrite append_cons. cbn [has_non_dot String.length]. rewrite IH.
    rewrite <- orb_assoc. do 3 f_equal. lia.
Qed.

Lemma has_non_dot_beyond (s : string) :
  ∀ i lo hi, hi ≤ i → has_non_dot s i lo hi = false.
Proof.
  induction s as [|x s IH]; intros i lo hi H; [reflexivity|].
  cbn. rewrite IH by lia.
  destruct (Z.ltb_spec i hi); [lia|]. by rewrite andb_false_r.
Qed.

Lemma str_take_app (a b : string) :
  str_take (String.length a) (a ++ b) = a.
Proof.
  induction a as [|x a IH]; [by destruct b|].
  rewrite append_cons. cbn. by rewrite IH.
Qed.

(** The name of a batch file gives the task's name back.  When [ext]
    holds neither a dot nor a slash and the last component of [base] has a
    character other than a dot, [splitext] of [base], a dot and [ext]
    returns [base]; and a path without any dot is returned whole. *)
Theorem splitext_root_inverts (base ext : string) :
  (str_has "." ext = false → str_has "/" ext = false →
   has_non_dot base 0 (rfind "/" base + 1) (Z.of_nat (String.length base))
   = true →
   splitext_root (base ++ "." ++ ext) = base)
  ∧ (str_has "." base = false → splitext_root base = base).
Proof.
  split.
  - intros Hd Hs Hn. unfold splitext_root, rfind.
    rewrite !rfind_from_app. cbn [String.length Z.of_nat].
    change ("." ++ ext)%string with (String "." ext).
    cbn [rfind_from Ascii.eqb]. cbn [Ascii.eqb Bool.eqb].
    rewrite (rfind_from_absent "." ext Hd), (rfind_from_absent "/" ext Hs).
    change (Ascii.eqb "." "/") with false. change (Ascii.eqb "." ".") with true.
    cbn match. rewrite Z.add_0_l.
    fold (rfind "/" base).
    assert (Hr : rfind "/" base < Z.of_nat (String.length base)).
    { unfold rfind. destruct (rfind_from_range "/" base 0 (-1)) as [->|R];
        lia. }
    destruct (Z.ltb_spec (rfind "/" base) (Z.of_nat (String.length base)));
      [|lia].
    rewrite has_non_dot_app, Hn. cbn [andb orb].
    rewrite Nat2Z.id. apply str_take_app.
  - intros Hd. unfold splitext_root, rfind.
    rewrite (rfind_from_absent "." base Hd).
    destruct (rfind_from_range "/" base 0 (-1)) as [->|R]; [reflexivity|].
    destruct (Z.ltb_spec (rfind_from "/" base 0 (-1)) (-1)); [lia|reflexivity].
Qed.

(** The same at a task name with dots in it. *)
Lemma splitext_root_inverts_witness :
  splitext_root ("proj-x-subj-x-sess-x-proc_v1.0" ++ "." ++ "pbs")
  = "proj-x-subj-x-sess-x-proc_v1.0".
Proof.
  apply (proj1 (splitext_root_inverts "proj-x-subj-x-sess-x-proc_v1.0" "pbs"));
    reflexivity.
Defined.

(** ** The assessors of a project *)

Lemma selected_labels_sessions (sessions : list Info) slocal :
  filter_by_slocal sessions slocal
  = match selected_labels slocal with
    | Some val => List.filter (λ x, str_in (label x) val) sessions
    | None => sessions
    end.
Proof.
  unfold filter_by_slocal, selected_labels. destruct slocal as [sl|]; [|done].
  by destruct (_ && _).
Qed.

(** X10: a session filter that matches nothing ends the process in
    [get_assessors_list], where [get_sessions_list] goes on with an empty
    list.  [get_assessors_list] never raises; it exits, with code 1 and one
    warning, exactly when the filter applies and no assessor of the project
    is in a listed session; otherwise it returns, without logging, the
    assessors whose session is listed (all of them when the filter does
    not apply), which are then not empty under a filter.  With the same
    filter and no session listed, [get_sessions_list] returns the empty
    list. *)
Theorem get_assessors_list_exits_on_no_match
    (assr_list : list AssrInfo) (slocal : option string) :
  (∀ e evs, get_assessors_list assr_list slocal ≠ (Failed e, evs))
  ∧ (∀ code evs,
       get_assessors_list assr_list slocal = (Exited code, evs)
       ↔ code = 1
         ∧ (∃ sl, slocal = Some sl ∧
              evs = [ELog WARN
                       "No processes on XNAT matched the sessions given: %s ."
                       [sl]])
         ∧ ∃ val, selected_labels slocal = Some val
                  ∧ ∀ a, In a assr_list → ¬ In (assr_session_label a) val)
  ∧ (∀ l evs,
       get_assessors_list assr_list slocal = (Done l, evs) →
       evs = []
       ∧ match selected_labels slocal with
         | Some val =>
             l ≠ []
             ∧ l = List.filter (λ a, str_in (assr_session_label a) val)
                     assr_list
         | None => l = assr_list
         end)
  ∧ (∀ sessions val w,
       selected_labels slocal = Some val →
       (∀ s, In s sessions → ¬ In (label s) val) →
       fst (get_sessions_list sessions slocal w) = Ok []).
Proof.
  assert (Hempty : ∀ A (f : A → bool) (l : list A),
            List.filter f l = [] ↔ ∀ a, In a l → f a = false).
  { intros A f l. induction l as [|x l IH]; cbn; [by split|].
    destruct (f x) eqn:E.
    - split; [discriminate|]. intros H. specialize (H x (or_introl eq_refl)).
      congruence.
    - rewrite IH. split; [intros H a [<-|Ha]; auto|]. intros H a Ha. auto. }
  split; [|split; [|split]].
  - intros e evs. unfold get_assessors_list.
    destruct slocal as [sl|]; [|discriminate].
    destruct (_ && _); [|discriminate]. by destruct (bool_decide _).
  - intros code evs. unfold get_assessors_list, selected_labels.
    destruct slocal as [sl|];
      [|split; [discriminate | intros (_ & _ & ? & [=] & _)]].
    destruct (_ && _);
      [|split; [discriminate | intros (_ & _ & ? & [=] & _)]].
    destruct (bool_decide_reflect
                (List.filter (λ x, str_in (assr_session_label x)
                                     (str_split "," sl)) assr_list = []))
      as [E|E].
    + split.
      * intros [= <- <-]. split; [done|]. split; [by eexists|].
        eexists. split; [done|]. intros a Ha Hin.
        apply (proj1 (Hempty _ _ _) E) in Ha. apply str_in_In in Hin.
        congruence.
      * intros (-> & (sl' & [= <-] & ->) & _). done.
    + split; [discriminate|]. intros (_ & _ & val & [= <-] & H).
      destruct E. apply Hempty. intros a Ha.
      destruct (str_in _ _) eqn:Es; [|done].
      apply str_in_In in Es. destruct (H a Ha Es).
  - intros l evs. unfold get_assessors_list, selected_labels.
    destruct slocal as [sl|]; [|by intros [= <- <-]].
    destruct (_ && _); [|by intros [= <- <-]].
    destruct (bool_decide_reflect
                (List.filter (λ x, str_in (assr_session_label x)
                                     (str_split "," sl)) assr_list = []))
      as [E|E]; [discriminate|].
    intros [= <- <-]. done.
  - intros sessions val w Hv Hno.
    unfold selected_labels in Hv. destruct slocal as [sl|]; [|discriminate].
    destruct (truthy (Some sl) && negb (String.eqb (str_lower sl) "all"))
      eqn:C; [|discriminate].
    injection Hv as <-. unfold get_sessions_list, filter_by_slocal.
    rewrite C.
    assert (List.filter (λ x, str_in (label x) (str_split "," sl)) sessions
            = []) as ->.
    { apply Hempty. intros s Hs. destruct (str_in _ _) eqn:Es; [|done].
      apply str_in_In in Es. destruct (Hno s Hs Es). }
    rewrite bool_decide_eq_true_2 by done. reflexivity.
Qed.

(** X10 at a filter that names no session of the project. *)
Lemma get_assessors_list_exits_on_no_match_witness :
  fst (get_sessions_list [session_A; session_B] (Some "Z,Y") world0) = Ok [].
Proof.
  apply (proj2 (proj2 (proj2 (get_assessors_list_exits_on_no_match
                                [] (Some "Z,Y"))))
           [session_A; session_B] ["Z"; "Y"] world0).
  - reflexivity.
  - intros s [<-|[<-|[]]] [H|[H|[]]]; discriminate H.
Defined.

(** ** New processor types *)

(** X11: [has_new_processors] is true exactly when some processor of the
    project, at session or at scan level, has a name that is the proctype
    of no assessor of the project.  So it is false for a project without
    processors and true for a project with processors and no assessor. *)
Theorem has_new_processors_iff
    (assr_list : list AssrInfo) (sess_proc_list scan_proc_list : list Processor) :
  (has_new_processors assr_list sess_proc_list scan_proc_list = true
   ↔ ∃ p, In p (sess_proc_list ++ scan_proc_list)
          ∧ ¬ In (name p) (List.map proctype assr_list))
  ∧ has_new_processors assr_list [] [] = false
  ∧ ((sess_proc_list ++ scan_proc_list)%list ≠ [] →
     has_new_processors [] sess_proc_list scan_proc_list = true).
Proof.
  assert (Hiff : ∀ al sp cp,
            has_new_processors al sp cp = true
            ↔ ∃ p, In p (sp ++ cp) ∧ ¬ In (name p) (List.map proctype al)).
  { intros al sp cp. unfold has_new_processors.
    rewrite bool_decide_eq_true.
    set (X := (list_to_set (List.map name (sp ++ cp))
               ∖ list_to_set (List.map proctype al) : gset string)).
    assert (Hx : ∀ x, x ∈ X ↔ ∃ p, In p (sp ++ cp) ∧ name p = x
                               ∧ ¬ In x (List.map proctype al)).
    { intros x. subst X. rewrite elem_of_difference.
      rewrite !elem_of_list_to_set, !list_elem_of_In, in_map_iff.
      split; [intros [(p & E & Hp) Hn]; by exists p|].
      intros (p & Hp & E & Hn). split; [by exists p | done]. }
    split.
    - intros H. destruct (elements X) as [|x l] eqn:E; [cbn in H; lia|].
      assert (Hin : x ∈ X) by (apply elem_of_elements; rewrite E; by left).
      apply Hx in Hin. destruct Hin as (p & Hp & <- & Hn). by exists p.
    - intros (p & Hp & Hn).
      assert (Hin : name p ∈ elements X)
        by (apply elem_of_elements, Hx; by exists p).
      destruct (elements X); [by apply elem_of_nil in Hin | cbn; lia]. }
  split; [apply Hiff|]. split.
  - destruct (has_new_processors assr_list [] []) eqn:E; [|done].
    apply Hiff in E. destruct E as (p & [] & _).
  - intros Hne. apply Hiff.
    destruct (sess_proc_list ++ scan_proc_list)%list as [|p l] eqn:E;
      [done|].
    exists p. split; [by left|]. intros [].
Qed.

(** X11 at one processor and no assessor. *)
Lemma has_new_processors_iff_witness :
  has_new_processors [] [sample_proc 1] [] = true.
Proof.
  apply (proj2 (proj2 (has_new_processors_iff [] [sample_proc 1] []))).
  discriminate.
Defined.

(** ** The sessions of a project, on any list *)

(** X12: what [get_sessions_list] returns on every list.  It never raises
    and logs at most a warning; it returns the never-swept sessions of the
    list (after the filter), in their order, followed by previously-swept
    sessions only, in their order; and a previously-swept session is
    returned exactly when no never-swept session of the list bears its
    label.  So no session is returned that is not in the list, and none is
    returned twice unless the list repeats it. *)
Theorem get_sessions_list_on_any_list
    (list_sessions : list Info) (slocal : option string) (w : World) :
  ∃ evs rest,
    get_sessions_list list_sessions slocal w
    = (Ok (List.filter never_swept (filter_by_slocal list_sessions slocal)
           ++ rest)%list,
       mkWorld (reads w) (trace w ++ evs))
    ∧ Forall is_warning evs
    ∧ rest = List.filter
               (λ s, negb (never_swept s)
                     && negb (str_in (label s)
                                (List.map label
                                   (List.filter never_swept
                                      (filter_by_slocal list_sessions slocal)))))
               (filter_by_slocal list_sessions slocal)
    ∧ (∀ s, In s rest ↔
            In s (filter_by_slocal list_sessions slocal)
            ∧ never_swept s = false
            ∧ ∀ s', In s' (filter_by_slocal list_sessions slocal) →
                    never_swept s' = true → label s' ≠ label s).
Proof.
  unfold get_sessions_list.
  set (sel := filter_by_slocal list_sessions slocal).
  set (line := match slocal with Some _ => _ | None => _ end).
  assert (∃ evs, line w = (Ok tt, mkWorld (reads w) (trace w ++ evs))
                 ∧ Forall is_warning evs) as (evs & E & F).
  { assert (Hnil : line = ret tt → ∃ evs,
              line w = (Ok tt, mkWorld (reads w) (trace w ++ evs))
              ∧ Forall is_warning evs).
    { intros ->. exists []. unfold ret. rewrite app_nil_r. by destruct w. }
    subst line. destruct slocal as [sl|]; [|by apply Hnil].
    destruct (_ && _ && _); [|by apply Hnil].
    eexists. split; [reflexivity|]. constructor; [|constructor].
    by do 2 eexists. }
  fold never_swept.
  assert (Hpass : List.filter
            (λ s, negb (str_in (label s)
                          (List.map label (List.filter never_swept sel)))) sel
          = List.filter
              (λ s, negb (never_swept s)
                    && negb (str_in (label s)
                               (List.map label (List.filter never_swept sel))))
              sel).
  { apply filter_ext_in. intros s Hs. destruct (never_swept s) eqn:En; [|done].
    cbn. apply negb_false_iff, str_in_In, in_map, filter_In. done. }
  exists evs. eexists. unfold bind. rewrite E. unfold ret.
  split; [rewrite Hpass; reflexivity|]. split; [exact F|]. split; [reflexivity|].
  intros s. rewrite filter_In, andb_true_iff, !negb_true_iff. split.
  - intros (Hs & En & Hl). split; [done|]. split; [done|].
    intros s' Hs' En' El.
    assert (str_in (label s) (List.map label (List.filter never_swept sel))
            = true); [|congruence].
    apply str_in_In. rewrite <- El. apply in_map, filter_In. done.
  - intros (Hs & En & Hl). split; [done|]. split; [done|].
    destruct (str_in _ _) eqn:Ei; [|done].
    apply str_in_In, in_map_iff in Ei. destruct Ei as (s' & El & Hs').
    apply filter_In in Hs'. destruct Hs' as [Hs' En'].
    destruct (Hl s' Hs' En' El).
Qed.

(** ** The tasks to launch *)


(** ** Failures during the launch *)

Section LaunchFailures.
Variable DAX_SETTINGS : DAX_Settings.
Variable cluster : Cluster.

(** A launch that returns [False] or raises leaves [try_launch] with
    [False], after the call and, for an exception, two log lines. *)
Lemma try_launch_fails self t writeonly pbsdir fnq w :
  launch_fails t →
  ∃ evs,
    try_launch self t writeonly pbsdir fnq w
    = (Ok false, mkWorld (reads w) (trace w ++ evs))
    ∧ launches evs = [assessor_label t] ∧ cluster_calls evs = 0%nat.
Proof.
  intros Hf. unfold try_launch, try_except, call.
  destruct (str_in (launcher_type self) diskq_cluster_types);
    match goal with |- context [task_launch t ?c] =>
      pose proof (Hf c) as Hc; destruct (task_launch t c) as [[]|e] end;
    try done; unfold bind, log, emit, ret; cbn [reads trace];
    rewrite <- ?app_assoc; eexists; (split; [reflexivity|]); done.
Qed.

(** The information line that opens a turn of the loop. *)
Lemma launch_line (c : Z) (t : Task) (writeonly : bool) (w : World) :
  ∃ e,
    (if writeonly then
       log INFO
         "  +Writing PBS file for job:%s, currently %s jobs in cluster queue"
         [assessor_label t; pretty c]
     else
       log INFO "  +Launching job:%s, currently %s jobs in cluster queue"
         [assessor_label t; pretty c]) w
    = (Ok tt, mkWorld (reads w) (trace w ++ [e]))
    ∧ launches [e] = [] ∧ cluster_calls [e] = 0%nat.
Proof. destruct writeonly; eexists; repeat split. Qed.

Lemma launch_body_launch_fails self c t writeonly pbsdir fnq w :
  launch_fails t →
  ∃ evs,
    launch_body cluster self c t writeonly pbsdir fnq w
    = (Raise ClusterLaunchException, mkWorld (reads w) (trace w ++ evs))
    ∧ launches evs = [assessor_label t] ∧ cluster_calls evs = 0%nat.
Proof.
  intros Hf. unfold launch_body.
  destruct (launch_line c t writeonly w) as (e & El & L0 & C0).
  unfold bind at 1. rewrite El.
  destruct (try_launch_fails self t writeonly pbsdir fnq
              (mkWorld (reads w) (trace w ++ [e])) Hf) as (e1 & Et & L1 & C1).
  unfold bind at 1. rewrite Et. cbn [negb reads trace].
  unfold bind, log, emit, raise. cbn [reads trace].
  rewrite <- !app_assoc. eexists. split; [reflexivity|].
  rewrite !launches_app, !cluster_calls_app, L0, L1, C0, C1. done.
Qed.

(** The prologue of [launch_tasks] when the first count is read. *)
Lemma launch_tasks_prologue self task_list writeonly pbsdir w :
  count_jobs_answer cluster (reads w) ≠ -1 →
  ∃ evs,
    launch_tasks DAX_SETTINGS cluster self task_list writeonly pbsdir false w
    = bind (launch_loop cluster self
              (Some (count_jobs_answer cluster (reads w))) writeonly pbsdir
              false (rev task_list))
        (λ rest, ret (rev rest))
        (mkWorld (S (reads w)) (trace w ++ evs))
    ∧ launches evs = [] ∧ cluster_calls evs = 2%nat.
Proof.
  intros Hc. unfold launch_tasks, count_jobs, cluster_command_found.
  unfold bind at 1.
  destruct (Z.eqb_spec (count_jobs_answer cluster (reads w)) (-1));
    [contradiction|].
  unfold bind at 1. unfold bind at 1. cbn [reads trace].
  destruct (command_found cluster (get_cmd_submit DAX_SETTINGS)).
  - unfold log, emit. cbn [reads trace]. rewrite <- !app_assoc.
    eexists. split; [reflexivity|]. done.
  - unfold ret at 1. rewrite <- !app_assoc.
    eexists. split; [reflexivity|]. done.
Qed.

End LaunchFailures.

(** X14: a launch that fails ends the launch phase.  When the count read
    before the loop admits a task (it is below the limit, or [writeonly]
    is set) and the launch of the last task of the list returns [False] or
    raises any exception, [launch_tasks] raises [ClusterLaunchException]:
    the exception of the task is logged and replaced, no other task is
    launched, and the count is not read again. *)
Theorem launch_tasks_failed_launch
    (DAX_SETTINGS : DAX_Settings) (cluster : Cluster) (self : Launcher)
    (others : list Task) (t : Task) (writeonly : bool)
    (pbsdir : option string) (w : World) :
  count_jobs_answer cluster (reads w) ≠ -1 →
  (count_jobs_answer cluster (reads w) <? queue_limit self) || writeonly
  = true →
  launch_fails t →
  ∃ evs,
    launch_tasks DAX_SETTINGS cluster self (others ++ [t]) writeonly pbsdir
      false w
    = (Raise ClusterLaunchException,
       mkWorld (S (reads w)) (trace w ++ evs))
    ∧ launches evs = [assessor_label t]
    ∧ cluster_calls evs = 2%nat.
Proof.
  intros Hc Ha Hf.
  destruct (launch_tasks_prologue DAX_SETTINGS cluster self (others ++ [t])
              writeonly pbsdir w Hc) as (e0 & E0 & L0 & C0).
  rewrite E0, rev_unit. unfold bind at 1. cbn [launch_loop].
  unfold bind at 1. cbn [read_local ret]. rewrite Ha.
  replace (0 <? Z.of_nat (length (t :: rev others))) with true
    by (symmetry; apply Z.ltb_lt; cbn [length]; lia).
  cbn [andb]. unfold bind at 1.
  destruct (launch_body_launch_fails cluster self
              (count_jobs_answer cluster (reads w)) t writeonly pbsdir false
              (mkWorld (S (reads w)) (trace w ++ e0)) Hf)
    as (e1 & E1 & L1 & C1).
  rewrite E1. cbn [reads trace]. rewrite <- app_assoc.
  eexists. split; [reflexivity|].
  rewrite launches_app, cluster_calls_app, L0, L1, C0, C1. done.
Qed.

(** X14 at a task whose launch raises. *)
Lemma launch_tasks_failed_launch_witness :
  ∃ evs,
    launch_tasks sample_settings growing_cluster
      (sample_launcher 5 "xnat-cluster")
      ([good_task "t1"] ++ [crashing_task "t2"]) false None false world0
    = (Raise ClusterLaunchException,
       mkWorld (S (reads world0)) (trace world0 ++ evs))
    ∧ launches evs = [assessor_label (crashing_task "t2")]
    ∧ cluster_calls evs = 2%nat.
Proof.
  apply (launch_tasks_failed_launch sample_settings growing_cluster
           (sample_launcher 5 "xnat-cluster") [good_task "t1"]
           (crashing_task "t2") false None world0).
  - simpl. lia.
  - reflexivity.
  - intros c. discriminate.
Defined.

(** X15: the two failures of the count.  A count that cannot be read
    before the loop makes [launch_tasks] return without an exception,
    nothing launched and the list untouched; a count that cannot be read
    after a submission raises [ClusterCountJobsException], the task of
    that turn being already submitted and the others left unlaunched. *)
Theorem launch_tasks_failed_count
    (DAX_SETTINGS : DAX_Settings) (cluster : Cluster) (self : Launcher)
    (others : list Task) (t : Task) (writeonly : bool)
    (pbsdir : option string) (w : World) :
  (count_jobs_answer cluster (reads w) = -1 →
   ∃ evs,
     launch_tasks DAX_SETTINGS cluster self (others ++ [t]) writeonly pbsdir
       false w
     = (Ok (others ++ [t])%list, mkWorld (S (reads w)) (trace w ++ evs))
     ∧ launches evs = [])
  ∧ (count_jobs_answer cluster (reads w) ≠ -1 →
     (count_jobs_answer cluster (reads w) <? queue_limit self) || writeonly
     = true →
     launch_succeeds t →
     count_jobs_answer cluster (S (reads w)) = -1 →
     ∃ evs,
       launch_tasks DAX_SETTINGS cluster self (others ++ [t]) writeonly pbsdir
         false w
       = (Raise ClusterCountJobsException,
          mkWorld (S (S (reads w))) (trace w ++ evs))
       ∧ launches evs = [assessor_label t]).
Proof.
  split.
  - intros Hc. rewrite launch_tasks_first_read_fails by done.
    eexists. split; [reflexivity|]. done.
  - intros Hc Ha Hs Hn.
    destruct (launch_tasks_prologue DAX_SETTINGS cluster self (others ++ [t])
                writeonly pbsdir w Hc) as (e0 & E0 & L0 & C0).
    rewrite E0, rev_unit. unfold bind at 1. cbn [launch_loop].
    unfold bind at 1. cbn [read_local ret]. rewrite Ha.
    replace (0 <? Z.of_nat (length (t :: rev others))) with true
      by (symmetry; apply Z.ltb_lt; cbn [length]; lia).
    cbn [andb]. unfold bind at 1.
    destruct (launch_body_read_fails cluster self
                (count_jobs_answer cluster (reads w)) t writeonly pbsdir false
                (mkWorld (S (reads w)) (trace w ++ e0)) Hs Hn)
      as (e1 & E1 & L1).
    rewrite E1. cbn [reads trace]. rewrite <- app_assoc.
    eexists. split; [reflexivity|].
    rewrite launches_app, L0, L1. done.
Qed.

(** X15 at a cluster whose count can be read once only. *)
Lemma launch_tasks_failed_count_witness :
  ∃ evs,
    launch_tasks sample_settings fading_cluster
      (sample_launcher 5 "xnat-cluster")
      ([good_task "t1"] ++ [good_task "t2"]) false None false world0
    = (Raise ClusterCountJobsException,
       mkWorld (S (S (reads world0))) (trace world0 ++ evs))
    ∧ launches evs = [assessor_label (good_task "t2")].
Proof.
  apply (proj2 (launch_tasks_failed_count sample_settings fading_cluster
                  (sample_launcher 5 "xnat-cluster") [good_task "t1"]
                  (good_task "t2") false None world0)).
  - simpl. lia.
  - reflexivity.
  - intros c. reflexivity.
  - reflexivity.
Defined.

(** X16: a full queue launches nothing.  With [writeonly] false, when the
    count read before the loop is at or above the limit, [launch_tasks]
    returns without an exception: no task is launched, the task list is
    left as it was, and the cluster was called for that one count and for
    the submit command only. *)
Theorem launch_tasks_full_queue_returns
    (DAX_SETTINGS : DAX_Settings) (cluster : Cluster) (self : Launcher)
    (task_list : list Task) (pbsdir : option string) (w : World) :
  count_jobs_answer cluster (reads w) ≠ -1 →
  queue_limit self ≤ count_jobs_answer cluster (reads w) →
  ∃ evs,
    launch_tasks DAX_SETTINGS cluster self task_list false pbsdir false w
    = (Ok task_list, mkWorld (S (reads w)) (trace w ++ evs))
    ∧ launches evs = []
    ∧ cluster_calls evs = 2%nat.
Proof.
  intros Hc Hq.
  destruct (launch_tasks_prologue DAX_SETTINGS cluster self task_list
              false pbsdir w Hc) as (e0 & E0 & L0 & C0).
  rewrite E0. unfold bind at 1.
  assert (launch_loop cluster self
            (Some (count_jobs_answer cluster (reads w))) false pbsdir false
            (rev task_list) (mkWorld (S (reads w)) (trace w ++ e0))
          = (Ok (rev task_list), mkWorld (S (reads w)) (trace w ++ e0))) as ->.
  { destruct (rev task_list); cbn [launch_loop]; unfold bind;
      cbn [read_local ret];
      destruct (Z.ltb_spec (count_jobs_answer cluster (reads w))
                  (queue_limit self)); (lia || reflexivity). }
  unfold ret. rewrite rev_involutive. eexists. split; [reflexivity|]. done.
Qed.

(** X16 at the limit 5 and a cluster that reports 5 jobs. *)
Lemma launch_tasks_full_queue_returns_witness :
  ∃ evs,
    launch_tasks sample_settings full_cluster
      (sample_launcher 5 "xnat-cluster")
      [good_task "t1"; good_task "t2"] false None false world0
    = (Ok [good_task "t1"; good_task "t2"],
       mkWorld (S (reads world0)) (trace world0 ++ evs))
    ∧ launches evs = []
    ∧ cluster_calls evs = 2%nat.
Proof.
  apply (launch_tasks_full_queue_returns sample_settings full_cluster
           (sample_launcher 5 "xnat-cluster")
           [good_task "t1"; good_task "t2"] None world0); simpl; lia.
Defined.

(** ** What the constructor stores *)

(** The object [__init__] builds, when it builds one. *)
Lemma Launcher_init_fields DAX_SETTINGS env a w self w' :
  Launcher_init DAX_SETTINGS env a w = (Ok self, w') →
  project_modules_dict self
  = arg_project_modules_dict a ∪ ((λ _, []) <$> arg_project_process_dict a)
  ∧ project_process_dict self
    = arg_project_process_dict a
      ∪ ((λ _, []) <$> (arg_project_modules_dict a
                        ∪ ((λ _, []) <$> arg_project_process_dict a)))
  ∧ skip_lastupdate self = init_skip_lastupdate (arg_skip_lastupdate a)
  ∧ queue_limit self = arg_queue_limit a
  ∧ launcher_type self = arg_launcher_type a.
Proof.
  unfold Launcher_init, bind.
  destruct (init_dirs _ _ w) as [[[]|e] w1]; [|discriminate].
  destruct (truthy (arg_xnat_host a)); cbn [ret];
    [|destruct (environ_XNAT_HOST env); cbn [ret raise]; [|discriminate]];
    (destruct (negb (truthy (arg_xnat_user a))); cbn [ret];
     [destruct (netrc_get_login env _); intros [= <- <-]; done|]);
    (destruct (negb (truthy (arg_xnat_pass a))); cbn [ret raise];
     [discriminate | intros [= <- <-]; done]).
Qed.

(** X17: after [__init__] the two dictionaries have the same projects:
    every project named in either argument.  A project keeps the list it
    was given; a project that was missing from one dictionary is there
    with an empty list. *)
Theorem Launcher_init_completes_dicts
    (DAX_SETTINGS : DAX_Settings) (env : Env) (a : InitArgs) (w w' : World)
    (self : Launcher) :
  Launcher_init DAX_SETTINGS env a w = (Ok self, w') →
  dom (project_process_dict self) = dom (project_modules_dict self)
  ∧ dom (project_process_dict self)
    = dom (arg_project_process_dict a) ∪ dom (arg_project_modules_dict a)
  ∧ (∀ k, project_process_dict self !! k
          = match arg_project_process_dict a !! k with
            | Some procs => Some procs
            | None => if bool_decide (k ∈ dom (arg_project_modules_dict a))
                      then Some [] else None
            end)
  ∧ (∀ k, project_modules_dict self !! k
          = match arg_project_modules_dict a !! k with
            | Some mods => Some mods
            | None => if bool_decide (k ∈ dom (arg_project_process_dict a))
                      then Some [] else None
            end).
Proof.
  intros H. apply Launcher_init_fields in H.
  destruct H as (-> & -> & _). rewrite !dom_union_L, !dom_fmap_L, dom_union_L,
    dom_fmap_L.
  set (P := arg_project_process_dict a). set (Q := arg_project_modules_dict a).
  split; [|split; [|split]].
  - apply set_eq. intros k. rewrite !elem_of_union. tauto.
  - apply set_eq. intros k. rewrite !elem_of_union. tauto.
  - intros k. rewrite lookup_union, !lookup_fmap, lookup_union, lookup_fmap.
    destruct (P !! k) as [v|] eqn:EP; cbn.
    + by destruct (Q !! k).
    + destruct (Q !! k) as [v|] eqn:EQ; cbn.
      * rewrite bool_decide_eq_true_2; [done|]. apply elem_of_dom. by eexists.
      * rewrite bool_decide_eq_false_2; [done|].
        rewrite elem_of_dom, EQ. by intros [? [=]].
  - intros k. rewrite lookup_union, !lookup_fmap.
    destruct (Q !! k) as [v|] eqn:EQ; cbn.
    + by destruct (P !! k).
    + destruct (P !! k) as [v|] eqn:EP; cbn.
      * rewrite bool_decide_eq_true_2; [done|]. apply elem_of_dom. by eexists.
      * rewrite bool_decide_eq_false_2; [done|].
        rewrite elem_of_dom, EP. by intros [? [=]].
Qed.

(** X17 at a project with processors only and a project with modules
    only. *)
Lemma Launcher_init_completes_dicts_witness :
  ∃ self w',
    Launcher_init sample_settings sample_env lopsided_args world0
    = (Ok self, w')
    ∧ dom (project_process_dict self) = dom (project_modules_dict self).
Proof.
  eexists _, _. split; [reflexivity|].
  apply (proj1 (Launcher_init_completes_dicts sample_settings sample_env
                  lopsided_args world0 _ _ eq_refl)).
Defined.

Lemma ascii_lower_y (c : ascii) :
  ascii_lower c = "y"%char ↔ c = "y"%char ∨ c = "Y"%char.
Proof.
  split.
  - destruct c as [[] [] [] [] [] [] [] []]; vm_compute; intros H;
      first [discriminate H | by left | by right].
  - intros [-> | ->]; reflexivity.
Qed.

(** X18: the switch of the last-update tracking.  The launcher built by
    [__init__] skips the tracking exactly when the [skip_lastupdate]
    argument is a string whose first character is y or Y; [None], the
    empty string and every other string leave it on. *)
Theorem Launcher_init_skip_lastupdate
    (DAX_SETTINGS : DAX_Settings) (env : Env) (a : InitArgs) (w w' : World)
    (self : Launcher) :
  Launcher_init DAX_SETTINGS env a w = (Ok self, w') →
  (skip_lastupdate self = true
   ↔ ∃ c rest, arg_skip_lastupdate a = Some (String c rest)
               ∧ (c = "y"%char ∨ c = "Y"%char)).
Proof.
  intros H. apply Launcher_init_fields in H. destruct H as (_ & _ & -> & _).
  unfold init_skip_lastupdate.
  destruct (arg_skip_lastupdate a) as [[|c rest]|]; cbn [truthy negb orb].
  - split; [discriminate | intros (? & ? & [=] & _)].
  - unfold startswith. cbn [str_lower String.prefix].
    assert (String.prefix EmptyString (str_lower rest) = true) as Hp
      by (destruct (str_lower rest); reflexivity).
    destruct (ascii_dec "y" (ascii_lower c)) as [E|E]; rewrite ?Hp; cbn [negb].
    + split; [intros _|done]. exists c, rest. split; [done|].
      by apply ascii_lower_y.
    + split; [discriminate|]. intros (c' & r' & [= <- <-] & Hc).
      apply ascii_lower_y in Hc. by destruct E.
  - split; [discriminate | intros (? & ? & [=] & _)].
Qed.

(** X18 at the argument Yes. *)
Lemma Launcher_init_skip_lastupdate_witness :
  ∃ self w',
    Launcher_init sample_settings sample_env lopsided_args world0
    = (Ok self, w')
    ∧ skip_lastupdate self = true.
Proof.
  eexists _, _. split; [reflexivity|].
  apply (proj2 (Launcher_init_skip_lastupdate sample_settings sample_env
                  lopsided_args world0 _ _ eq_refl)).
  exists "Y"%char, "es". split; [reflexivity | by right].
Defined.

(** ** The phases *)

(** *** Which computations leave the files alone *)

Lemma keeps_pret {A} (a : A) : keeps_files (pret a).
Proof. by intros s r s' [= <- <-]. Qed.

Lemma keeps_praise {A} e : keeps_files (@praise A e).
Proof. by intros s r s' [= <- <-]. Qed.

Lemma keeps_pexit {A} c : keeps_files (@pexit A c).
Proof. by intros s r s' [= <- <-]. Qed.

Lemma keeps_record x : keeps_files (record x).
Proof. by intros s r s' [= <- <-]. Qed.

Lemma keeps_plog l f a : keeps_files (plog l f a).
Proof. apply keeps_record. Qed.

Lemma keeps_pcall {A} c (o : outcome A) : keeps_files (pcall c o).
Proof. intros s r s'. unfold pcall. by destruct o; intros [= <- <-]. Qed.

Lemma keeps_lift {A} (m : M A) : keeps_files (lift m).
Proof.
  intros s r s'. unfold lift. destruct (m _) as [r0 w]. by intros [= <- <-].
Qed.

Lemma keeps_pbind {A B} (m : P A) (k : A → P B) :
  keeps_files m → (∀ a, keeps_files (k a)) → keeps_files (pbind m k).
Proof.
  intros Hm Hk s r s'. unfold pbind.
  destruct (m s) as [[a|e|c] s1] eqn:E.
  - intros H. apply Hk in H. apply Hm in E. congruence.
  - intros [= <- <-]. by apply Hm in E.
  - intros [= <- <-]. by apply Hm in E.
Qed.

Lemma keeps_ptry {A} (m : P A) (h : exn → P A) :
  keeps_files m → (∀ e, keeps_files (h e)) → keeps_files (ptry m h).
Proof.
  intros Hm Hh s r s'. unfold ptry.
  destruct (m s) as [[a|e|c] s1] eqn:E.
  - intros [= <- <-]. by apply Hm in E.
  - intros H. apply Hh in H. apply Hm in E. congruence.
  - intros [= <- <-]. by apply Hm in E.
Qed.

Lemma keeps_with_interface {A} host user (body : P A) :
  keeps_files body → keeps_files (with_interface host user body).
Proof.
  intros Hb s r s'. unfold with_interface.
  destruct (pbind _ _ s) as [r0 s1] eqn:E. intros [= <- <-]. cbn.
  apply (keeps_pbind _ _ (keeps_record _) (λ _, Hb)) in E. exact E.
Qed.

Ltac keeps :=
  repeat first
    [ apply keeps_pret | apply keeps_praise | apply keeps_pexit
    | apply keeps_plog | apply keeps_record | apply keeps_pcall
    | apply keeps_lift
    | apply keeps_with_interface
    | apply keeps_pbind; [|intros ?]
    | apply keeps_ptry; [|intros ?]
    | match goal with
      | |- keeps_files (if ?b then _ else _) => destruct b
      | |- keeps_files (match ?x with _ => _ end) => destruct x
      | |- keeps_files (let '(_, _) := ?x in _) => destruct x
      end ].

(** *** Which computations do not look at the flag files *)

Lemma ignores_pret {A} (a : A) : ignores_files (pret a).
Proof. by intros s F. Qed.

Lemma ignores_praise {A} e : ignores_files (@praise A e).
Proof. by intros s F. Qed.

Lemma ignores_pexit {A} c : ignores_files (@pexit A c).
Proof. by intros s F. Qed.

Lemma ignores_record x : ignores_files (record x).
Proof. by intros s F. Qed.

Lemma ignores_plog l f a : ignores_files (plog l f a).
Proof. apply ignores_record. Qed.

Lemma ignores_pcall {A} c (o : outcome A) : ignores_files (pcall c o).
Proof. intros s F. unfold pcall. by destruct o. Qed.

Lemma ignores_lift {A} (m : M A) : ignores_files (lift m).
Proof.
  intros s F. unfold lift. cbn [with_files sys_reads sys_files sys_history].
  by destruct (m _) as [r0 w].
Qed.

Lemma ignores_pbind {A B} (m : P A) (k : A → P B) :
  ignores_files m → (∀ a, ignores_files (k a)) → ignores_files (pbind m k).
Proof.
  intros Hm Hk s F. unfold pbind. rewrite Hm.
  destruct (m s) as [[a|e|c] s1]; cbn [fst snd]; [apply Hk|done|done].
Qed.

Lemma ignores_ptry {A} (m : P A) (h : exn → P A) :
  ignores_files m → (∀ e, ignores_files (h e)) → ignores_files (ptry m h).
Proof.
  intros Hm Hh s F. unfold ptry. rewrite Hm.
  destruct (m s) as [[a|e|c] s1]; cbn [fst snd]; [done|apply Hh|done].
Qed.

Lemma ignores_with_interface {A} host user (body : P A) :
  ignores_files body → ignores_files (with_interface host user body).
Proof.
  intros Hb s F. unfold with_interface.
  rewrite (ignores_pbind _ _ (ignores_record _) (λ _, Hb)).
  by destruct (pbind _ _ s) as [r0 s1].
Qed.

Ltac ignores :=
  repeat first
    [ apply ignores_pret | apply ignores_praise | apply ignores_pexit
    | apply ignores_plog | apply ignores_record | apply ignores_pcall
    | apply ignores_lift
    | apply ignores_with_interface
    | apply ignores_pbind; [|intros ?]
    | apply ignores_ptry; [|intros ?]
    | match goal with
      | |- ignores_files (if ?b then _ else _) => destruct b
      | |- ignores_files (match ?x with _ => _ end) => destruct x
      | |- ignores_files (let '(_, _) := ?x in _) => destruct x
      end ].

Section PhaseFacts.
Variable DAX_SETTINGS : DAX_Settings.
Variable cluster : Cluster.
Variable disk : Disk.
Variable keys_of : gset string → list string.
Variable processors_by_type : list Processor → list Processor * list Processor.
Variable list_project_assessors : string → list AssrInfo.
Variable has_dax_datatypes : bool.
Variable Task_new : Processor → AssrInfo → string → Task.
Variable ClusterTask_new : string → string → string → Task.
Variable batch_listing : outcome (list string).
Variable OPEN_STATUS_LIST : list ProcStatus.
Variable OPEN_QA_LIST : list QcStatus.

Lemma keeps_project_tasks self project_id sessions_local valid :
  keeps_files (project_tasks DAX_SETTINGS processors_by_type
                 list_project_assessors Task_new self project_id
                 sessions_local valid).
Proof.
  unfold project_tasks. keeps. by intros s r s' [= <- <-].
Qed.

Lemma keeps_get_tasks_loop self valid project_list sessions_local :
  ∀ acc,
    keeps_files (get_tasks_loop DAX_SETTINGS processors_by_type
                   list_project_assessors Task_new self valid project_list
                   sessions_local acc).
Proof.
  induction project_list as [|p l IH]; intros acc; cbn [get_tasks_loop].
  - keeps.
  - keeps; [apply keeps_project_tasks | apply IH].
Qed.

Lemma keeps_get_tasks self valid project_list sessions_local :
  keeps_files (get_tasks DAX_SETTINGS keys_of processors_by_type
                 list_project_assessors Task_new self valid project_list
                 sessions_local).
Proof. unfold get_tasks. keeps; apply keeps_get_tasks_loop. Qed.



Lemma ignores_project_tasks self project_id sessions_local valid :
  ignores_files (project_tasks DAX_SETTINGS processors_by_type
                 list_project_assessors Task_new self project_id
                 sessions_local valid).
Proof.
  unfold project_tasks. ignores. by intros s F.
Qed.

Lemma ignores_get_tasks_loop self valid project_list sessions_local :
  ∀ acc,
    ignores_files (get_tasks_loop DAX_SETTINGS processors_by_type
                   list_project_assessors Task_new self valid project_list
                   sessions_local acc).
Proof.
  induction project_list as [|p l IH]; intros acc; cbn [get_tasks_loop].
  - ignores.
  - ignores; [apply ignores_project_tasks | apply IH].
Qed.

Lemma ignores_get_tasks self valid project_list sessions_local :
  ignores_files (get_tasks DAX_SETTINGS keys_of processors_by_type
                 list_project_assessors Task_new self valid project_list
                 sessions_local).
Proof. unfold get_tasks. ignores; apply ignores_get_tasks_loop. Qed.

Lemma ignores_launch_middle self project_list sessions_local writeonly pbsdir
    fnq :
  ignores_files
    (if str_in (launcher_type self) diskq_cluster_types then
       plog INFO "Loading task queue from: %s"
         [path_join (get_results_dir DAX_SETTINGS) "DISKQ"];;>
       task_list <-- lift (load_task_queue ClusterTask_new DAX_SETTINGS
                             batch_listing (Some NEED_TO_RUN));;
       plog INFO "%s tasks that need to be launched found"
         [pretty (Z.of_nat (length task_list))];;>
       lift (launch_tasks DAX_SETTINGS cluster self task_list false None fnq);;>
       pret tt
     else
       plog INFO "Connecting to XNAT at %s" [xnat_host self];;>
       with_interface (xnat_host self) (xnat_user self)
         (if negb has_dax_datatypes then
            praise (DaxXnatError
                      ("dax datatypes are not installed on xnat <"
                       ++ xnat_host self ++ ">"))
          else
            plog INFO "Getting launchable tasks list..." [];;>
            task_list <-- get_tasks DAX_SETTINGS keys_of processors_by_type
                            list_project_assessors Task_new self
                            is_launchable_tasks project_list sessions_local;;
            plog INFO "%s tasks that need to be launched found"
              [pretty (Z.of_nat (length task_list))];;>
            lift (launch_tasks DAX_SETTINGS cluster self task_list writeonly
                    pbsdir fnq);;>
            pret tt)).
Proof. ignores; apply ignores_get_tasks_loop. Qed.

Lemma ignores_update_middle self project_list sessions_local :
  ignores_files
    (if str_in (launcher_type self) diskq_cluster_types then
       plog INFO "Loading task queue from: %s"
         [path_join (get_results_dir DAX_SETTINGS) "DISKQ"];;>
       task_list <-- lift (load_task_queue ClusterTask_new DAX_SETTINGS
                             batch_listing None);;
       plog INFO "%s tasks found." [pretty (Z.of_nat (length task_list))];;>
       plog INFO "Updating tasks..." [];;>
       lift (update_loop "Updating task: %s" task_list)
     else
       plog INFO "Connecting to XNAT at %s" [xnat_host self];;>
       with_interface (xnat_host self) (xnat_user self)
         (if negb has_dax_datatypes then
            praise (DaxXnatError
                      ("error: dax datatypes are not installed on xnat <"
                       ++ xnat_host self ++ ">"))
          else
            plog INFO "Getting task list..." [];;>
            task_list <-- get_tasks DAX_SETTINGS keys_of processors_by_type
                            list_project_assessors Task_new self
                            (is_updatable_tasks OPEN_STATUS_LIST OPEN_QA_LIST)
                            project_list sessions_local;;
            plog INFO "%s open tasks found"
              [pretty (Z.of_nat (length task_list))];;>
            plog INFO "Updating tasks..." [];;>
            lift (update_loop "     Updating task: %s" task_list))).
Proof. ignores; apply ignores_get_tasks_loop. Qed.

End PhaseFacts.

(** [init_script] without a local project: it takes the lock or exits,
    and uploads the date once the lock is taken. *)
Lemma init_script_locked (disk : Disk) (keys_of : gset string → list string)
    (upload : list string → Z → Z → outcome unit)
    self flagfile project_local tu se s :
  truthy project_local = false →
  init_script disk keys_of upload self flagfile project_local tu se s
  = if bool_decide (flagfile ∈ sys_files s) then
      (Exited 1,
       mkSys (sys_reads s) (sys_files s)
         (sys_history s
          ++ [Ev (ELog WARN "failed to get lock. Already running." [])]))
    else if can_create disk flagfile then
      (match upload (all_projects_sorted keys_of self) tu se with
       | Returns _ => Done (all_projects_sorted keys_of self)
       | Throws e => Failed e
       end,
       mkSys (sys_reads s) ({[flagfile]} ∪ sys_files s)
         (sys_history s
          ++ [Ca (CUploadDate (all_projects_sorted keys_of self) tu se)]))
    else (Failed (CollabError "IOError" flagfile), s).
Proof.
  intros Hl. unfold init_script.
  destruct project_local as [pl|]; rewrite ?Hl;
    unfold pbind at 1, lock, lock_flagfile;
    (destruct (bool_decide (flagfile ∈ sys_files s)); [reflexivity|]);
    (destruct (can_create disk flagfile); [|by destruct s]);
    cbn [negb]; unfold pbind, pcall; cbn [sys_reads sys_files sys_history];
    by destruct (upload _ _ _).
Qed.

(** [init_script] with a local project: the files are not looked at. *)
Lemma init_script_local (disk : Disk) (keys_of : gset string → list string)
    (upload : list string → Z → Z → outcome unit)
    self flagfile project_local tu se :
  truthy project_local = true →
  ignores_files
    (init_script disk keys_of upload self flagfile project_local tu se).
Proof.
  intros Hl. unfold init_script.
  destruct project_local as [pl|]; [|discriminate]. rewrite Hl. ignores.
Qed.

Lemma finish_script_local (disk : Disk)
    (upload : list string → Z → Z → outcome unit) flagfile project_list tu se
    project_local :
  truthy project_local = true →
  finish_script disk upload flagfile project_list tu se project_local
  = pret tt.
Proof. intros Hl. unfold finish_script. by rewrite Hl. Qed.






(** X20: a local project goes past the lock.  With a project given on the
    command line, [launch_jobs], [update_tasks] and [build] neither test
    the marker nor write or remove it: whatever flag files exist, the run
    ends the same way with the same history, and the flag files are left
    as they are. *)
Theorem local_project_ignores_lock
    (DAX_SETTINGS : DAX_Settings) (cluster : Cluster) (disk : Disk)
    (keys_of : gset string → list string)
    (processors_by_type : list Processor → list Processor * list Processor)
    (list_project_assessors : string → list AssrInfo)
    (has_dax_datatypes : bool)
    (Task_new : Processor → AssrInfo → string → Task)
    (ClusterTask_new : string → string → string → Task)
    (batch_listing : outcome (list string))
    (OPEN_STATUS_LIST : list ProcStatus) (OPEN_QA_LIST : list QcStatus)
    (upload : list string → Z → Z → outcome unit)
    (build_project : string → P unit)
    (self : Launcher) (lockfile_prefix : string)
    (project_local sessions_local mod_delta : option string)
    (writeonly : bool) (pbsdir : option string) (force_no_qsub : bool) :
  truthy project_local = true →
  ignores_files
    (launch_jobs DAX_SETTINGS cluster disk keys_of processors_by_type
       list_project_assessors has_dax_datatypes Task_new ClusterTask_new
       batch_listing upload self lockfile_prefix project_local sessions_local
       writeonly pbsdir force_no_qsub)
  ∧ ignores_files
      (update_tasks DAX_SETTINGS disk keys_of processors_by_type
         list_project_assessors has_dax_datatypes Task_new ClusterTask_new
         batch_listing OPEN_STATUS_LIST OPEN_QA_LIST upload self
         lockfile_prefix project_local sessions_local)
  ∧ ((∀ p, ignores_files (build_project p)) →
     ignores_files
       (build DAX_SETTINGS disk keys_of has_dax_datatypes upload build_project
          self lockfile_prefix project_local mod_delta)).
Proof.
  intros Hl. split; [|split].
  - unfold launch_jobs. destruct (String.eqb _ _); [apply ignores_praise|].
    do 2 (apply ignores_pbind; [apply ignores_plog|intros _]).
    apply ignores_pbind; [by apply init_script_local|intros pl].
    apply ignores_pbind; [apply ignores_launch_middle|intros _].
    rewrite finish_script_local by done. apply ignores_pret.
  - unfold update_tasks. destruct (String.eqb _ _); [apply ignores_praise|].
    do 2 (apply ignores_pbind; [apply ignores_plog|intros _]).
    apply ignores_pbind; [by apply init_script_local|intros pl].
    apply ignores_pbind; [apply ignores_update_middle|intros _].
    rewrite finish_script_local by done. apply ignores_pret.
  - intros Hb. unfold build. destruct (String.eqb _ _); [apply ignores_praise|].
    do 3 (apply ignores_pbind; [apply ignores_plog|intros _]).
    apply ignores_pbind; [by apply init_script_local|intros pl].
    apply ignores_pbind; [apply ignores_plog|intros _].
    apply ignores_pbind; [|intros pl'; rewrite finish_script_local by done;
                           apply ignores_pret].
    apply ignores_with_interface. destruct (negb _); [apply ignores_praise|].
    apply ignores_pbind; [ignores|intros pl'].
    apply ignores_pbind; [|intros _; apply ignores_pret].
    induction pl' as [|p l IH]; cbn [build_loop]; [apply ignores_pret|].
    apply ignores_pbind; [apply ignores_plog|intros _].
    apply ignores_pbind; [|intros _; exact IH].
    apply ignores_ptry; [|intros e; ignores].
    apply ignores_pbind; [apply ignores_record|intros _]. apply Hb.
Qed.

(** X20 on a launch for project P1 while the marker of the sweep is
    held: it runs as when the marker is not there, and the marker is
    still there afterwards. *)
Lemma local_project_ignores_lock_witness :
  sample_launch_jobs "xnat-cluster" (Some "P1") false
    (with_files (sys_files sys_locked) sys0)
  = (fst (sample_launch_jobs "xnat-cluster" (Some "P1") false sys0),
     with_files (sys_files sys_locked)
       (snd (sample_launch_jobs "xnat-cluster" (Some "P1") false sys0))).
Proof.
  apply (proj1 (local_project_ignores_lock sample_settings growing_cluster
                  kind_disk sample_keys sample_by_type sample_store true
                  sample_Task_new sample_ClusterTask (Returns ["run1.pbs"])
                  [JOB_RUNNING] [] sample_upload sample_build_project
                  (two_project_launcher "xnat-cluster") "a" (Some "P1") None
                  None false None false eq_refl)
           sys0 (sys_files sys_locked)).
Defined.

(** X21: a held marker stops the phase at once.  When no local project is
    given and the marker of the phase exists, [launch_jobs], [update_tasks]
    and [build] (for a launcher type they accept) log their heading and
    the warning and exit with code 1: nothing is read from the cluster, no
    connection is opened, no task is touched, and the marker stays. *)
Theorem held_marker_exits
    (DAX_SETTINGS : DAX_Settings) (cluster : Cluster) (disk : Disk)
    (keys_of : gset string → list string)
    (processors_by_type : list Processor → list Processor * list Processor)
    (list_project_assessors : string → list AssrInfo)
    (has_dax_datatypes : bool)
    (Task_new : Processor → AssrInfo → string → Task)
    (ClusterTask_new : string → string → string → Task)
    (batch_listing : outcome (list string))
    (OPEN_STATUS_LIST : list ProcStatus) (OPEN_QA_LIST : list QcStatus)
    (upload : list string → Z → Z → outcome unit)
    (build_project : string → P unit)
    (self : Launcher) (lockfile_prefix : string)
    (project_local sessions_local mod_delta : option string)
    (writeonly : bool) (pbsdir : option string) (force_no_qsub : bool)
    (s : Sys) :
  truthy project_local = false →
  (launcher_type self ≠ "diskq-xnat" →
   flagfile_of DAX_SETTINGS lockfile_prefix LAUNCH_SUFFIX ∈ sys_files s →
   launch_jobs DAX_SETTINGS cluster disk keys_of processors_by_type
     list_project_assessors has_dax_datatypes Task_new ClusterTask_new
     batch_listing upload self lockfile_prefix project_local sessions_local
     writeonly pbsdir force_no_qsub s
   = (Exited 1,
      mkSys (sys_reads s) (sys_files s)
        (sys_history s ++
         [Ev (ELog INFO ("-------------- Launch Tasks --------------"
                         ++ newline) []);
          Ev (ELog INFO "launcher_type = %s" [launcher_type self]);
          Ev (ELog WARN "failed to get lock. Already running." [])])))
  ∧ (launcher_type self ≠ "diskq-xnat" →
     flagfile_of DAX_SETTINGS lockfile_prefix UPDATE_SUFFIX ∈ sys_files s →
     update_tasks DAX_SETTINGS disk keys_of processors_by_type
       list_project_assessors has_dax_datatypes Task_new ClusterTask_new
       batch_listing OPEN_STATUS_LIST OPEN_QA_LIST upload self lockfile_prefix
       project_local sessions_local s
     = (Exited 1,
        mkSys (sys_reads s) (sys_files s)
          (sys_history s ++
           [Ev (ELog INFO ("-------------- Update Tasks --------------"
                           ++ newline) []);
            Ev (ELog INFO "launcher_type = %s" [launcher_type self]);
            Ev (ELog WARN "failed to get lock. Already running." [])])))
  ∧ (launcher_type self ≠ "diskq-cluster" →
     flagfile_of DAX_SETTINGS lockfile_prefix BUILD_SUFFIX ∈ sys_files s →
     build DAX_SETTINGS disk keys_of has_dax_datatypes upload build_project
       self lockfile_prefix project_local mod_delta s
     = (Exited 1,
        mkSys (sys_reads s) (sys_files s)
          (sys_history s ++
           [Ev (ELog INFO ("-------------- Build --------------"
                           ++ newline) []);
            Ev (ELog INFO "launcher_type = %s" [launcher_type self]);
            Ev (ELog INFO "mod delta = %s" [default "None" mod_delta]);
            Ev (ELog WARN "failed to get lock. Already running." [])]))).
Proof.
  intros Hl. split; [|split]; intros Ht Hin;
    apply String.eqb_neq in Ht.
  - unfold launch_jobs. rewrite Ht.
    unfold pbind at 1, plog, record. unfold pbind at 1.
    cbn [sys_reads sys_files sys_history]. unfold pbind at 1.
    rewrite init_script_locked by done. cbn [sys_files sys_reads sys_history].
    rewrite bool_decide_eq_true_2 by done. by rewrite <- !app_assoc.
  - unfold update_tasks. rewrite Ht.
    unfold pbind at 1, plog, record. unfold pbind at 1.
    cbn [sys_reads sys_files sys_history]. unfold pbind at 1.
    rewrite init_script_locked by done. cbn [sys_files sys_reads sys_history].
    rewrite bool_decide_eq_true_2 by done. by rewrite <- !app_assoc.
  - unfold build. rewrite Ht.
    unfold pbind at 1, plog, record. unfold pbind at 1. unfold pbind at 1.
    cbn [sys_reads sys_files sys_history]. unfold pbind at 1.
    rewrite init_script_locked by done. cbn [sys_files sys_reads sys_history].
    rewrite bool_decide_eq_true_2 by done. by rewrite <- !app_assoc.
Qed.

(** X21 on the sample launch with its marker held. *)
Lemma held_marker_exits_witness :
  fst (sample_launch_jobs "xnat-cluster" None false sys_locked) = Exited 1.
Proof.
  unfold sample_launch_jobs.
  rewrite (proj1 (held_marker_exits sample_settings growing_cluster kind_disk
                    sample_keys sample_by_type sample_store true
                    sample_Task_new sample_ClusterTask (Returns ["run1.pbs"])
                    [JOB_RUNNING] [] sample_upload sample_build_project
                    (two_project_launcher "xnat-cluster") "a" None None None
                    false None false sys_locked eq_refl)).
  - reflexivity.
  - discriminate.
  - vm_compute. reflexivity.
Defined.

(** X22: in the disk-queue modes the launch ignores [writeonly] and
    [pbsdir].  For the launcher types diskq-cluster and diskq-combined,
    [launch_jobs] does the same whatever these two arguments are: the
    tasks of the queue are launched as with [writeonly] false. *)
Theorem launch_jobs_diskq_ignores_writeonly
    (DAX_SETTINGS : DAX_Settings) (cluster : Cluster) (disk : Disk)
    (keys_of : gset string → list string)
    (processors_by_type : list Processor → list Processor * list Processor)
    (list_project_assessors : string → list AssrInfo)
    (has_dax_datatypes : bool)
    (Task_new : Processor → AssrInfo → string → Task)
    (ClusterTask_new : string → string → string → Task)
    (batch_listing : outcome (list string))
    (upload : list string → Z → Z → outcome unit) (self : Launcher)
    (lockfile_prefix : string) (project_local sessions_local : option string)
    (writeonly : bool) (pbsdir : option string) (force_no_qsub : bool)
    (s : Sys) :
  str_in (launcher_type self) diskq_cluster_types = true →
  launch_jobs DAX_SETTINGS cluster disk keys_of processors_by_type
    list_project_assessors has_dax_datatypes Task_new ClusterTask_new
    batch_listing upload self lockfile_prefix project_local sessions_local
    writeonly pbsdir force_no_qsub s
  = launch_jobs DAX_SETTINGS cluster disk keys_of processors_by_type
      list_project_assessors has_dax_datatypes Task_new ClusterTask_new
      batch_listing upload self lockfile_prefix project_local sessions_local
      false None force_no_qsub s.
Proof. intros Hd. unfold launch_jobs. by rewrite Hd. Qed.

(** X22 on the sample launch in the mode diskq-combined. *)
Lemma launch_jobs_diskq_ignores_writeonly_witness :
  sample_launch_jobs "diskq-combined" None true sys0
  = sample_launch_jobs "diskq-combined" None false sys0.
Proof.
  apply (launch_jobs_diskq_ignores_writeonly sample_settings growing_cluster
           kind_disk sample_keys sample_by_type sample_store true
           sample_Task_new sample_ClusterTask (Returns ["run1.pbs"])
           sample_upload (two_project_launcher "diskq-combined") "a" None None true None
           false sys0 eq_refl).
Defined.

(** X23: the project list of a phase.  For a sweep (no local project),
    [init_script] returns the identifiers of the projects of the two
    dictionaries in increasing order, each one once, whatever the order in
    which Python lists the keys.  For a local project it returns that
    project alone when it holds no comma and is a key of the processor
    dictionary, and otherwise logs an error and exits with code 1; in both
    cases without touching the lock. *)
Theorem init_script_project_list
    (disk : Disk) (keys_of : gset string → list string)
    (upload : list string → Z → Z → outcome unit) (self : Launcher)
    (flagfile : string) (project_local : option string)
    (type_update start_end : Z) (s : Sys) :
  (∀ X, keys_of X ≡ₚ elements X) →
  (Sorted String.le (all_projects_sorted keys_of self)
   ∧ NoDup (all_projects_sorted keys_of self)
   ∧ (∀ p, p ∈ all_projects_sorted keys_of self
           ↔ p ∈ dom (project_process_dict self)
             ∨ p ∈ dom (project_modules_dict self))
   ∧ all_projects_sorted keys_of self = all_projects_sorted elements self)
  ∧ (truthy project_local = false →
     ∀ l s', init_script disk keys_of upload self flagfile project_local
               type_update start_end s = (Done l, s') →
             l = all_projects_sorted keys_of self)
  ∧ (∀ pl, project_local = Some pl → truthy project_local = true →
       ∃ evs,
         init_script disk keys_of upload self flagfile project_local
           type_update start_end s
         = (if negb (str_has "," pl)
               && bool_decide (pl ∈ dom (project_process_dict self))
            then Done [pl] else Exited 1,
            mkSys (sys_reads s) (sys_files s) (sys_history s ++ evs))
         ∧ Forall (λ x, ∃ fmt args, x = Ev (ELog ERROR fmt args)) evs).
Proof.
  intros Hk.
  set (X := dom (project_process_dict self) ∪ dom (project_modules_dict self)).
  assert (Hperm : all_projects_sorted keys_of self ≡ₚ elements X)
    by (unfold all_projects_sorted; by rewrite merge_sort_Permutation, Hk).
  split; [|split].
  - split; [apply (Sorted_merge_sort String.le)|].
    split; [rewrite Hperm; apply NoDup_elements|].
    split.
    + intros p. rewrite Hperm, elem_of_elements. subst X.
      by rewrite elem_of_union.
    + apply (Sorted_unique String.le).
      * apply (Sorted_merge_sort String.le).
      * apply (Sorted_merge_sort String.le).
      * unfold all_projects_sorted at 2.
        by rewrite merge_sort_Permutation, Hperm.
  - intros Hl l s'. rewrite init_script_locked by done.
    destruct (bool_decide _); [discriminate|].
    destruct (can_create disk flagfile); [|discriminate].
    destruct (upload _ _ _); [|discriminate]. by intros [= <- _].
  - intros pl -> Hl. unfold init_script. rewrite Hl.
    destruct (str_has "," pl); cbn [negb andb].
    + eexists. split; [reflexivity|]. constructor; [by do 2 eexists|done].
    + destruct (bool_decide _).
      * exists []. rewrite app_nil_r. split; [by destruct s|done].
      * eexists. split; [reflexivity|]. constructor; [by do 2 eexists|done].
Qed.

(** X23 on the launcher of the projects P1 and P2. *)
Lemma init_script_project_list_witness :
  all_projects_sorted sample_keys (two_project_launcher "xnat-cluster")
  = all_projects_sorted elements (two_project_launcher "xnat-cluster").
Proof.
  apply (proj1 (init_script_project_list kind_disk sample_keys sample_upload
                  (two_project_launcher "xnat-cluster") "flag" None 1 1 sys0
                  (λ X, reflexivity (elements X)))).
Defined.





(** ** Modules *)

Ltac step_projection :=
  let a := fresh "a" in let IH := fresh "IH" in
  intros a; induction a as [|[?|[]] a IH]; intros; cbn; rewrite ?IH; reflexivity.

Lemma preruns_app : ∀ a b, preruns (a ++ b) = (preruns a ++ preruns b)%list.
Proof. step_projection. Qed.
Lemma afterruns_app :
  ∀ a b, afterruns (a ++ b) = (afterruns a ++ afterruns b)%list.
Proof. step_projection. Qed.
Lemma writes_app : ∀ a b, writes (a ++ b) = (writes a ++ writes b)%list.
Proof. step_projection. Qed.

(** A call in a [try] whose handler logs: the call is made, the method
    goes on. *)
Lemma ptry_pcall (c : Call) (o : outcome unit) err1 arg s :
  ∃ logs,
    ptry (pcall c o) (log_caught err1 arg) s
    = (Done tt,
       mkSys (sys_reads s) (sys_files s)
         (sys_history s ++ Ca c :: List.map Ev logs))
    ∧ (∀ u, o = Returns u → logs = [])
    ∧ Forall (λ e, ∃ fmt args, e = ELog CRITICAL fmt args) logs.
Proof.
  unfold ptry, pcall. destruct o as [[]|e].
  - exists []. split; [reflexivity|]. split; [done|constructor].
  - unfold log_caught, pbind, plog, record.
    cbn [sys_reads sys_files sys_history]. rewrite <- !app_assoc.
    eexists [_; _]. split; [reflexivity|]. split; [discriminate|].
    repeat constructor; by do 2 eexists.
Qed.

Lemma pbind_Done {A B} (m : P A) (k : A → P B) s a s1 :
  m s = (Done a, s1) → pbind m k s = k a s1.
Proof. unfold pbind. by intros ->. Qed.


Section ModuleFacts.
Variable mod_prerun : DaxModule → string → outcome unit.
Variable mod_afterrun : DaxModule → string → outcome unit.
Variable mod_needs_run : DaxModule → CachedObj → outcome bool.
Variable mod_run : DaxModule → CachedObj → outcome unit.

Lemma log_projections (logs : list Event) :
  preruns (List.map Ev logs) = [] ∧ afterruns (List.map Ev logs) = []
  ∧ asked (List.map Ev logs) = [] ∧ runs (List.map Ev logs) = []
  ∧ fetches (List.map Ev logs) = 0%nat.
Proof. induction logs as [|e l IH]; [done|]. exact IH. Qed.

Lemma prerun_loop_spec project_id settings (mods : list DaxModule) :
  ∀ s, ∃ s',
    prerun_loop mod_prerun project_id settings mods s = (Done tt, s')
    ∧ preruns (sys_history s')
      = (preruns (sys_history s) ++ List.map getname mods)%list
    ∧ sys_files s' = sys_files s ∧ sys_reads s' = sys_reads s.
Proof.
  induction mods as [|m l IH]; intros s.
  - exists s. cbn. by rewrite app_nil_r.
  - cbn [prerun_loop]. unfold pbind at 1.
    destruct (ptry_pcall (CPrerun (getname m) settings) (mod_prerun m settings)
                "Caught exception in module prerun for project %s"
                project_id s) as (logs & -> & _ & _).
    destruct (IH (mkSys (sys_reads s) (sys_files s)
                    (sys_history s
                     ++ Ca (CPrerun (getname m) settings) :: List.map Ev logs)))
      as (s' & E & Hp & Hf & Hr).
    exists s'. split; [exact E|]. split; [|done].
    rewrite Hp. cbn [sys_history].
    rewrite preruns_app. cbn [preruns List.map].
    rewrite (proj1 (log_projections logs)). by rewrite <- app_assoc.
Qed.

Lemma afterrun_loop_spec project_id (mods : list DaxModule) :
  ∀ s, ∃ s',
    afterrun_loop mod_afterrun project_id mods s = (Done tt, s')
    ∧ afterruns (sys_history s')
      = (afterruns (sys_history s) ++ List.map getname mods)%list
    ∧ sys_files s' = sys_files s ∧ sys_reads s' = sys_reads s.
Proof.
  induction mods as [|m l IH]; intros s.
  - exists s. cbn. by rewrite app_nil_r.
  - cbn [afterrun_loop]. unfold pbind at 1.
    destruct (ptry_pcall (CAfterrun (getname m) project_id)
                (mod_afterrun m project_id)
                "Caught exception in module prerun for project %s"
                project_id s) as (logs & -> & _ & _).
    destruct (IH (mkSys (sys_reads s) (sys_files s)
                    (sys_history s
                     ++ Ca (CAfterrun (getname m) project_id)
                        :: List.map Ev logs)))
      as (s' & E & Hp & Hf & Hr).
    exists s'. split; [exact E|]. split; [|done].
    rewrite Hp. cbn [sys_history].
    rewrite afterruns_app. cbn [afterruns List.map].
    rewrite (proj1 (proj2 (log_projections logs))). by rewrite <- app_assoc.
Qed.



End ModuleFacts.

(** X25: [module_prerun] and [module_afterrun] call the hook of every
    module of the project once, in the order of the list, and return
    whatever the hooks do: an exception of a hook is logged and the next
    module's hook is still called.  For a project that has no entry in
    [project_modules_dict] both raise [KeyError] and call nothing. *)
Theorem module_hooks_isolated
    (mod_prerun mod_afterrun : DaxModule → string → outcome unit)
    (self : Launcher) (project_id settings_filename : string) (s : Sys) :
  match project_modules_dict self !! project_id with
  | Some mods =>
      ∃ s1 s2,
        module_prerun mod_prerun self project_id settings_filename s
        = (Done tt, s1)
        ∧ preruns (sys_history s1)
          = (preruns (sys_history s) ++ List.map getname mods)%list
        ∧ module_afterrun mod_afterrun self project_id s = (Done tt, s2)
        ∧ afterruns (sys_history s2)
          = (afterruns (sys_history s) ++ List.map getname mods)%list
  | None =>
      module_prerun mod_prerun self project_id settings_filename s
      = (Failed (KeyError project_id), s)
      ∧ module_afterrun mod_afterrun self project_id s
        = (Failed (KeyError project_id), s)
  end.
Proof.
  unfold module_prerun, module_afterrun.
  destruct (project_modules_dict self !! project_id) as [mods|];
    [|split; reflexivity].
  destruct (prerun_loop_spec mod_prerun project_id settings_filename mods s)
    as (s1 & E1 & P1 & _).
  destruct (afterrun_loop_spec mod_afterrun project_id mods s)
    as (s2 & E2 & P2 & _).
  eexists _, _.
  erewrite pbind_Done by exact E1. erewrite pbind_Done by exact E2.
  split; [reflexivity|]. split.
  { cbn [sys_history]. rewrite preruns_app. cbn. by rewrite app_nil_r. }
  split; [reflexivity|].
  cbn [sys_history]. rewrite afterruns_app. cbn. by rewrite app_nil_r.
Qed.





(** ** The marker of a session *)

(** What [set_session_lastupdated] returns and writes when the store's
    last-modified time parses. *)
Lemma set_session_lastupdated_spec
    (strptime : string → string → option Z) (strftime : Z → string → string)
    (last_modified_xnat : string) (now : Z) (write : outcome unit)
    (sess_info : Info) (update_start_time : Z) (s : Sys) (last_mod : Z) :
  strptime (str_take 19 last_modified_xnat) "%Y-%m-%d %H:%M:%S"
  = Some last_mod →
  ∃ s',
    set_session_lastupdated strptime strftime last_modified_xnat now write
      sess_info update_start_time s
    = (Done (negb (update_start_time <? last_mod)), s')
    ∧ writes (sys_history s')
      = (writes (sys_history s)
         ++ if update_start_time <? last_mod then []
            else [((xsiType sess_info ++ "/original")%string,
                   (UPDATE_PREFIX
                    ++ strftime (now + 60000000) UPDATE_FORMAT)%string)])%list
    ∧ sys_files s' = sys_files s.
Proof.
  intros Hp. unfold set_session_lastupdated.
  erewrite pbind_Done by reflexivity. erewrite pbind_Done by reflexivity.
  rewrite Hp. destruct (update_start_time <? last_mod).
  - eexists. split; [reflexivity|]. cbn [sys_history sys_files].
    rewrite !writes_app. cbn. by rewrite !app_nil_r.
  - erewrite pbind_Done by reflexivity.
    match goal with
    | |- context [ptry (pcall ?c ?o) (log_caught ?a ?b)] =>
        destruct (ptry_pcall c o a b
                    (mkSys (sys_reads s) (sys_files s)
                       (((sys_history s
                          ++ [Ca (CFullObject (label sess_info))])
                         ++ [Ca (CAttrGet
                                   (xsiType sess_info
                                    ++ "/meta/last_modified"))])
                        ++ [Ev (ELog DEBUG "setting last_updated for: %s to %s"
                                  [label sess_info;
                                   strftime (now + 60000000) UPDATE_FORMAT])])))
          as (logs & E & _ & Hl)
    end.
    erewrite pbind_Done by exact E.
    eexists. split; [reflexivity|]. cbn [sys_history sys_files].
    split; [|reflexivity].
    rewrite !writes_app. cbn. rewrite !app_nil_r. f_equal. f_equal.
    clear E. induction Hl as [|x l (fmt & args & ->) _ IH]; [done|exact IH].
Qed.

(** X28: when the store's last-modified time parses,
    [set_session_lastupdated] returns [False] and writes nothing if the
    session was modified after the update started; otherwise it writes
    once, to [<xsiType>/original], the prefix followed by the time one
    minute past now, and returns [True] even when the write raised. *)
Theorem set_session_lastupdated_writes
    (strptime : string → string → option Z) (strftime : Z → string → string)
    (last_modified_xnat : string) (now : Z) (write : outcome unit)
    (sess_info : Info) (update_start_time : Z) (s : Sys) (last_mod : Z) :
  strptime (str_take 19 last_modified_xnat) "%Y-%m-%d %H:%M:%S"
  = Some last_mod →
  ∃ s',
    set_session_lastupdated strptime strftime last_modified_xnat now write
      sess_info update_start_time s
    = (Done (negb (update_start_time <? last_mod)), s')
    ∧ writes (sys_history s')
      = (writes (sys_history s)
         ++ if update_start_time <? last_mod then []
            else [((xsiType sess_info ++ "/original")%string,
                   (UPDATE_PREFIX
                    ++ strftime (now + 60000000) UPDATE_FORMAT)%string)])%list
    ∧ sys_files s' = sys_files s.
Proof. apply set_session_lastupdated_spec. Qed.

Lemma set_session_lastupdated_writes_witness :
  ∃ s',
    set_session_lastupdated sample_strptime sample_strftime
      "2020-01-01 10:00:00.0" 172740000000
      (Throws (CollabError "IOError" "store unreachable"))
      (sample_info "A" EmptyString) 40000000000 (mkSys 0 ∅ [])
    = (Done true, s')
    ∧ writes (sys_history s')
      = [("xnat:mrSessionData/original", "updated--2020-01-03 00:00:00")]
    ∧ sys_files s' = ∅.
Proof.
  apply (set_session_lastupdated_writes sample_strptime sample_strftime
           "2020-01-01 10:00:00.0" 172740000000
           (Throws (CollabError "IOError" "store unreachable"))
           (sample_info "A" EmptyString) 40000000000 (mkSys 0 ∅ [])
           36000000000).
  reflexivity.
Defined.

(** X29: stamping then sweeping again.  When the session was not modified
    since the update started, the marker [set_session_lastupdated] writes
    reads back as a time [stamp]: the time one minute past the writing, as
    the format keeps it.  With that marker the next sweep (markers in use,
    no new processor, no session filter) skips the session exactly when
    its last-modified time is before [stamp], last-modified plus [max_age]
    days is a date of the calendar, and the current time is before that
    date. *)
Theorem stamp_then_skipped
    (strptime : string → string → option Z) (strftime : Z → string → string)
    (self : Launcher) (last_modified_xnat : string) (now : Z)
    (write : outcome unit) (sess_info : Info) (update_start_time : Z)
    (s : Sys) (last_mod stamp : Z) :
  strptime (str_take 19 last_modified_xnat) "%Y-%m-%d %H:%M:%S"
  = Some last_mod →
  last_mod <= update_start_time →
  strftime (now + 60000000) UPDATE_FORMAT ≠ EmptyString →
  strptime (strftime (now + 60000000) UPDATE_FORMAT) UPDATE_FORMAT
  = Some stamp →
  skip_lastupdate self = false →
  ∃ s' path marker,
    set_session_lastupdated strptime strftime last_modified_xnat now write
      sess_info update_start_time s = (Done true, s')
    ∧ writes (sys_history s') = (writes (sys_history s) ++ [(path, marker)])%list
    ∧ ∀ (next : Info) (lastmod_delta : option Z) (now_date last_mod' : Z)
        (w : World),
        last_updated next = marker →
        strptime (str_take 19 (last_modified next)) UPDATE_FORMAT
        = Some last_mod' →
        (fst (session_skipped strptime self false None lastmod_delta now_date
                next w) = Ok true
         ↔ last_mod' < stamp
           ∧ Z.abs (max_age self) ≤ 999999999
           ∧ is_datetime (last_mod' + timedelta_days (max_age self))
           ∧ now_date < last_mod' + timedelta_days (max_age self)).
Proof.
  intros Hp Hle Hne Hrt Hskip.
  destruct (set_session_lastupdated_spec strptime strftime last_modified_xnat
              now write sess_info update_start_time s last_mod Hp)
    as (s' & E & W & _).
  assert (Hlt : (update_start_time <? last_mod) = false) by lia.
  rewrite Hlt in E, W. exists s'. do 2 eexists.
  split; [exact E|]. split; [exact W|].
  intros next lastmod_delta now_date last_mod' w Hm Hp'.
  rewrite (session_skipped_tracked strptime self None lastmod_delta now_date
             next w Hskip eq_refl).
  unfold marker. rewrite Hp', Hm, (str_drop_app UPDATE_PREFIX).
  destruct (String.eqb_spec (strftime (now + 60000000) UPDATE_FORMAT)
              EmptyString) as [|_]; [contradiction|].
  rewrite Hrt. unfold is_datetime.
  destruct (Z.ltb_spec last_mod' stamp);
    [|split; [discriminate|lia]].
  destruct (Z.leb_spec (Z.abs (max_age self)) 999999999);
    [|split; [discriminate|lia]].
  destruct (Z.leb_spec datetime_min
              (last_mod' + timedelta_days (max_age self))); cbn [andb];
    [|split; [discriminate|lia]].
  destruct (Z.leb_spec (last_mod' + timedelta_days (max_age self))
              datetime_max);
    [|split; [discriminate|lia]].
  destruct (Z.ltb_spec now_date (last_mod' + timedelta_days (max_age self)));
    split; try discriminate; try done; try lia.
Qed.

(** X29 at a marker written 123 microseconds past the second: it reads
    back as the second. *)
Lemma stamp_then_skipped_witness :
  ∃ s' path marker,
    set_session_lastupdated sample_strptime sample_strftime
      "2020-01-01 10:00:00.0" 172740000123 (Returns tt)
      (sample_info "A" EmptyString) 40000000000 (mkSys 0 ∅ [])
    = (Done true, s')
    ∧ writes (sys_history s') = ([] ++ [(path, marker)])%list
    ∧ ∀ (next : Info) (lastmod_delta : option Z) (now_date last_mod' : Z)
        (w : World),
        last_updated next = marker →
        sample_strptime (str_take 19 (last_modified next)) UPDATE_FORMAT
        = Some last_mod' →
        (fst (session_skipped sample_strptime (sample_launcher 5 "xnat-cluster")
                false None lastmod_delta now_date next w) = Ok true
         ↔ last_mod' < 172800000000
           ∧ Z.abs 7 ≤ 999999999
           ∧ is_datetime (last_mod' + timedelta_days 7)
           ∧ now_date < last_mod' + timedelta_days 7).
Proof.
  apply (stamp_then_skipped sample_strptime sample_strftime
           (sample_launcher 5 "xnat-cluster") "2020-01-01 10:00:00.0"
           172740000123 (Returns tt) (sample_info "A" EmptyString)
           40000000000 (mkSys 0 ∅ []) 36000000000 172800000000).
  - reflexivity.
  - lia.
  - discriminate.
  - reflexivity.
  - reflexivity.
Defined.

(** ** The loop of [build_project] over the sessions *)

Lemma sessions_built_app :
  ∀ a b, sessions_built (a ++ b)
         = (sessions_built a ++ sessions_built b)%list.
Proof. step_projection. Qed.

Lemma events_not_calls (logs : list Event) :
  sessions_built (List.map Ev logs) = [] ∧ writes (List.map Ev logs) = [].
Proof. induction logs as [|e l IH]; [done|]. exact IH. Qed.

(** A [try] whose handler logs goes on, however its body ended short of
    leaving the process. *)
Lemma ptry_logs (m : P unit) err1 arg s r s1 :
  m s = (r, s1) → (∀ code, r ≠ Exited code) →
  ∃ logs,
    ptry m (log_caught err1 arg) s
    = (Done tt,
       mkSys (sys_reads s1) (sys_files s1)
         (sys_history s1 ++ List.map Ev logs)).
Proof.
  intros E Hr. unfold ptry. rewrite E. destruct r as [[]|e|code].
  - exists []. cbn. rewrite app_nil_r. by destruct s1.
  - unfold log_caught, pbind, plog, record.
    cbn [sys_reads sys_files sys_history]. rewrite <- !app_assoc.
    by eexists [_; _].
  - by destruct (Hr code).
Qed.

Lemma set_session_lastupdated_builds_nothing
    (strptime : string → string → option Z) (strftime : Z → string → string)
    lm now write info start s r s' :
  set_session_lastupdated strptime strftime lm now write info start s = (r, s')
  → sessions_built (sys_history s') = sessions_built (sys_history s).
Proof.
  unfold set_session_lastupdated.
  erewrite pbind_Done by reflexivity. erewrite pbind_Done by reflexivity.
  destruct (strptime _ _) as [last_mod|].
  - destruct (start <? last_mod).
    + intros [= <- <-]. cbn [sys_history]. rewrite !sessions_built_app.
      cbn. by rewrite !app_nil_r.
    + erewrite pbind_Done by reflexivity.
      match goal with
      | |- context [ptry (pcall ?c ?o) (log_caught ?a ?b)] =>
          destruct (ptry_pcall c o a b
                      (mkSys (sys_reads s) (sys_files s)
                         (((sys_history s ++ [Ca (CFullObject (label info))])
                           ++ [Ca (CAttrGet
                                     (xsiType info ++ "/meta/last_modified"))])
                          ++ [Ev (ELog DEBUG
                                    "setting last_updated for: %s to %s"
                                    [label info;
                                     strftime (now + 60000000)
                                       UPDATE_FORMAT])])))
            as (logs & E & _ & _)
      end.
      erewrite pbind_Done by exact E. intros [= <- <-].
      cbn [sys_history]. rewrite !sessions_built_app. cbn.
      rewrite (proj1 (events_not_calls logs)). by rewrite !app_nil_r.
  - intros [= <- <-]. cbn [sys_history]. rewrite !sessions_built_app.
    cbn. by rewrite !app_nil_r.
Qed.

(** X30: in the loop of [build_project] over the sessions, with markers in
    use, a session that is not skipped is handed to [build_session] once
    and then stamped, whether [build_session] returned or raised: when the
    store's last-modified time is not after the start of the turn, the
    marker is written, and the loop goes on with the next session. *)
Theorem built_session_is_stamped
    (strptime : string → string → option Z) (strftime : Z → string → string)
    (today_at start_at stamp_at : nat → Z)
    (store_last_modified : Info → string) (store_write : Info → outcome unit)
    (build_session : Info → list Processor → list Processor →
                     list DaxModule → list DaxModule → P unit)
    (self : Launcher) (has_new : bool) (sessions_local : option string)
    (lastmod_delta : option Z) (exp_procs scan_procs : list Processor)
    (exp_mods scan_mods : list DaxModule) (i : nat) (sess_info : Info)
    (rest : list Info) (s : Sys) (last_mod : Z) :
  plain_build_session build_session →
  skip_lastupdate self = false →
  fst (session_skipped strptime self has_new sessions_local lastmod_delta
         (today_at i) sess_info (mkWorld (sys_reads s) [])) = Ok false →
  strptime (str_take 19 (store_last_modified sess_info)) "%Y-%m-%d %H:%M:%S"
  = Some last_mod →
  last_mod <= start_at i →
  ∃ s2,
    sessions_loop strptime strftime today_at start_at stamp_at
      store_last_modified store_write build_session self has_new
      sessions_local lastmod_delta exp_procs scan_procs exp_mods scan_mods
      i (sess_info :: rest) s
    = sessions_loop strptime strftime today_at start_at stamp_at
        store_last_modified store_write build_session self has_new
        sessions_local lastmod_delta exp_procs scan_procs exp_mods scan_mods
        (S i) rest s2
    ∧ sessions_built (sys_history s2)
      = (sessions_built (sys_history s) ++ [label sess_info])%list
    ∧ writes (sys_history s2)
      = (writes (sys_history s)
         ++ [((xsiType sess_info ++ "/original")%string,
              (UPDATE_PREFIX
               ++ strftime (stamp_at i + 60000000) UPDATE_FORMAT)%string)])%list.
Proof.
  intros Hplain Hskip Hno Hp Hle.
  cbn [sessions_loop].
  destruct (session_skipped _ _ _ _ _ _ _ _) as [r0 w] eqn:Es.
  cbn [fst] in Hno. subst r0.
  erewrite pbind_Done by (unfold lift; rewrite Es; reflexivity).
  set (s0 := mkSys _ _ _).
  assert (B0 : sessions_built (sys_history s0) = sessions_built (sys_history s))
    by (subst s0; cbn [sys_history]; rewrite sessions_built_app,
          (proj1 (events_not_calls _)); by rewrite app_nil_r).
  assert (W0 : writes (sys_history s0) = writes (sys_history s))
    by (subst s0; cbn [sys_history]; rewrite writes_app,
          (proj2 (events_not_calls _)); by rewrite app_nil_r).
  clearbody s0.
  cut (∃ s2,
         (plog INFO "  + Session %s: building..." [label sess_info];;>
          ptry (record (Ca (CBuildSession (label sess_info)));;>
                build_session sess_info exp_procs scan_procs exp_mods scan_mods)
            (log_caught "Caught exception building sessions %s"
               (session_label sess_info));;>
          ptry (if negb (skip_lastupdate self) then
                  _ <-- set_session_lastupdated strptime strftime
                          (store_last_modified sess_info) (stamp_at i)
                          (store_write sess_info) sess_info (start_at i);;
                  pret tt
                else pret tt)
            (log_caught "Caught exception setting session timestamp %s"
               (session_label sess_info)))%py s0 = (Done tt, s2)
         ∧ sessions_built (sys_history s2)
           = (sessions_built (sys_history s0) ++ [label sess_info])%list
         ∧ writes (sys_history s2)
           = (writes (sys_history s0)
              ++ [((xsiType sess_info ++ "/original")%string,
                   (UPDATE_PREFIX
                    ++ strftime (stamp_at i + 60000000)
                         UPDATE_FORMAT)%string)])%list).
  { intros (s2 & E & B & W). exists s2.
    erewrite pbind_Done by exact E. rewrite B, W, B0, W0. done. }
  erewrite pbind_Done by reflexivity.
  set (s1 := mkSys _ _ _).
  destruct (build_session sess_info exp_procs scan_procs exp_mods scan_mods
              (mkSys (sys_reads s1) (sys_files s1)
                 (sys_history s1 ++ [Ca (CBuildSession (label sess_info))])))
    as [r s3] eqn:Eb.
  destruct (Hplain _ _ _ _ _ _ _ _ Eb) as (Hx & B3 & W3).
  cbn [sys_history] in B3, W3.
  destruct (ptry_logs
              (record (Ca (CBuildSession (label sess_info)));;>
               build_session sess_info exp_procs scan_procs exp_mods scan_mods)
              "Caught exception building sessions %s"
              (session_label sess_info) s1 r s3) as (logs & E3);
    [by erewrite pbind_Done by reflexivity|exact Hx|].
  erewrite pbind_Done by exact E3.
  rewrite Hskip. cbn [negb].
  set (s4 := mkSys _ _ _).
  destruct (set_session_lastupdated_spec strptime strftime
              (store_last_modified sess_info) (stamp_at i)
              (store_write sess_info) sess_info (start_at i) s4 last_mod Hp)
    as (s5 & E5 & W5 & _).
  pose proof (set_session_lastupdated_builds_nothing _ _ _ _ _ _ _ _ _ _ E5)
    as B5.
  assert (Hlt : (start_at i <? last_mod) = false) by lia.
  rewrite Hlt in E5, W5.
  destruct (ptry_logs
              (_ <-- set_session_lastupdated strptime strftime
                       (store_last_modified sess_info) (stamp_at i)
                       (store_write sess_info) sess_info (start_at i);;
               pret tt)
              "Caught exception setting session timestamp %s"
              (session_label sess_info) s4 (Done tt) s5) as (logs' & E6);
    [by erewrite pbind_Done by exact E5|done|].
  eexists. split; [exact E6|].
  cbn [sys_history]. rewrite sessions_built_app, writes_app.
  rewrite (proj1 (events_not_calls logs')), (proj2 (events_not_calls logs')).
  rewrite !app_nil_r, B5, W5. subst s4. cbn [sys_history].
  rewrite sessions_built_app, writes_app.
  rewrite (proj1 (events_not_calls logs)), (proj2 (events_not_calls logs)).
  rewrite !app_nil_r, B3, W3. subst s1. cbn [sys_history].
  rewrite !sessions_built_app, !writes_app. cbn.
  by rewrite !app_nil_r.
Qed.

Lemma built_session_is_stamped_witness :
  ∃ s2,
    sessions_loop sample_strptime sample_strftime (λ _, 0)
      (λ _, 40000000000) (λ _, 172740000000) (λ _, "2020-01-01 10:00:00.0")
      (λ _, Returns tt) sample_build_session
      (sample_launcher 5 "xnat-cluster") true None None [] [] [] [] 0
      [sample_info "bad" EmptyString] (mkSys 0 ∅ [])
    = sessions_loop sample_strptime sample_strftime (λ _, 0)
        (λ _, 40000000000) (λ _, 172740000000) (λ _, "2020-01-01 10:00:00.0")
        (λ _, Returns tt) sample_build_session
        (sample_launcher 5 "xnat-cluster") true None None [] [] [] [] 1
        [] s2
    ∧ sessions_built (sys_history s2) = ([] ++ ["bad"])%list
    ∧ writes (sys_history s2)
      = ([] ++ [("xnat:mrSessionData/original",
                 "updated--2020-01-03 00:00:00")])%list.
Proof.
  apply (built_session_is_stamped sample_strptime sample_strftime (λ _, 0)
           (λ _, 40000000000) (λ _, 172740000000)
           (λ _, "2020-01-01 10:00:00.0") (λ _, Returns tt)
           sample_build_session (sample_launcher 5 "xnat-cluster") true None
           None [] [] [] [] 0%nat (sample_info "bad" EmptyString) []
           (mkSys 0 ∅ []) 36000000000).
  - intros i ep sp em sm s r s'. unfold sample_build_session.
    destruct (String.eqb (label i) "bad"); intros [= <- <-]; done.
  - reflexivity.
  - reflexivity.
  - reflexivity.
  - lia.
Defined.


(** ** A session: the passes of the modules *)





Section SessionFacts.
Variable strptime : string → string → option Z.
Variable mod_needs_run : DaxModule → CachedObj → outcome bool.
Variable mod_run : DaxModule → CachedObj → outcome unit.
Variable csess_after : nat → CachedImageSession.
Variable pass_start : nat → Z.
Variable store_last_modified_after : nat → string.
Hypothesis needs_run_returns :
  ∀ m cobj, ∃ b, mod_needs_run m cobj = Returns b.




End SessionFacts.



